(** * Stitch backend: validation of architectures and hyperparameters,
      and the size arithmetic of the data preparer.

    Shallow embedding of [backend/utils/validation.py] and of
    [backend/services/model_service.py].  Python values are a small
    JSON-like inductive type; exceptions are an explicit error monad;
    floats are IEEE binary64 values in the sense of [SpecFloat]. *)

From Stdlib Require Import ZArith List String Ascii Bool Lia.
From Stdlib Require Import DecimalString.
From Stdlib Require Import Floats.SpecFloat.
Import ListNotations.
Set Warnings "-register-all".
Local Open Scope string_scope.
Local Open Scope list_scope.
Local Open Scope Z_scope.

(** ** Python values *)

(** The payloads reaching the validators are deserialized JSON: [None],
    booleans, integers, floats, strings, lists, and dicts with string
    keys.  A dict is an association list in insertion order; lookups use
    the first binding of a key and updates keep keys unique. *)
Inductive pyval : Type :=
| PNone
| PBool (b : bool)
| PInt (z : Z)
| PFloat (f : spec_float)
| PStr (s : string)
| PList (l : list pyval)
| PDict (d : list (string * pyval)).

Definition dict := list (string * pyval).

(** ** Exceptions *)

Inductive exn : Type :=
| ValueError (msg : string)
| TypeError
| OverflowError
| KeyError (key : string)
| AttributeError.

Inductive outcome (A : Type) : Type :=
| Ok (a : A)
| Raise (e : exn).
Arguments Ok {A} a.
Arguments Raise {A} e.

Definition bind {A B} (r : outcome A) (k : A -> outcome B) : outcome B :=
  match r with
  | Ok a => k a
  | Raise e => Raise e
  end.

Notation "x <- c1 ;; c2" := (bind c1 (fun x => c2))
  (at level 61, c1 at next level, right associativity).
Notation "' pat <- c1 ;; c2" := (bind c1 (fun x => match x with pat => c2 end))
  (at level 61, pat pattern, c1 at next level, right associativity).

(** [try: r except (TypeError, ValueError): handler].  Any other
    exception propagates. *)
Definition try_except {A} (r : outcome A) (handler : outcome A) : outcome A :=
  match r with
  | Ok a => Ok a
  | Raise (ValueError _) => handler
  | Raise TypeError => handler
  | Raise e => Raise e
  end.

Definition is_ok {A} (r : outcome A) : bool :=
  match r with Ok _ => true | Raise _ => false end.

(** ** Dict operations *)

Fixpoint dict_get (d : dict) (k : string) : option pyval :=
  match d with
  | [] => None
  | (k', v) :: d' => if String.eqb k k' then Some v else dict_get d' k
  end.

(** [d.get(k, default)] *)
Definition dict_get_default (d : dict) (k : string) (default : pyval) : pyval :=
  match dict_get d k with
  | Some v => v
  | None => default
  end.

(** [k in d] *)
Definition dict_mem (k : string) (d : dict) : bool :=
  match dict_get d k with Some _ => true | None => false end.

(** [d[k]] *)
Definition dict_item (d : dict) (k : string) : outcome pyval :=
  match dict_get d k with
  | Some v => Ok v
  | None => Raise (KeyError k)
  end.

(** [d[k] = v]: an existing key keeps its position, a new one goes last. *)
Fixpoint dict_set (k : string) (v : pyval) (d : dict) : dict :=
  match d with
  | [] => [(k, v)]
  | (k', v') :: d' =>
      if String.eqb k k' then (k', v) :: d' else (k', v') :: dict_set k v d'
  end.

Definition isinstance_dict (v : pyval) : bool :=
  match v with PDict _ => true | _ => false end.

(** ** Binary64 floats *)

Definition prec : Z := 53.
Definition emax : Z := 1024.

(** [float(n)] for an integer [n]: round to nearest even; integers that
    round past the largest finite double raise [OverflowError]. *)
Definition float_of_Z (n : Z) : outcome spec_float :=
  match binary_normalize prec emax n 0 false with
  | S754_infinity _ => Raise OverflowError
  | f => Ok f
  end.

(** [int(x)] for a float [x]: truncation towards zero. *)
Definition int_of_float (f : spec_float) : outcome Z :=
  match f with
  | S754_zero _ => Ok 0
  | S754_finite s m e =>
      let a := match e with
               | Zneg p => Z.shiftr (Zpos m) (Zpos p)
               | _ => Z.shiftl (Zpos m) e
               end in
      Ok (if s then - a else a)
  | S754_infinity _ => Raise OverflowError
  | S754_nan => Raise (ValueError "cannot convert float NaN to integer")
  end.

(** The mathematical floor of a finite float. *)
Definition float_floor (f : spec_float) : option Z :=
  match f with
  | S754_zero _ => Some 0
  | S754_finite s m e =>
      let n := if s then Zneg m else Zpos m in
      Some (match e with
            | Zneg p => n / 2 ^ Zpos p
            | _ => n * 2 ^ e
            end)
  | _ => None
  end.

(** The correctly rounded double nearest to [±m * 10^e]. *)
Definition float_of_decimal (s : bool) (m e : Z) : spec_float :=
  if m =? 0 then S754_zero s
  else if 0 <=? e then binary_normalize prec emax ((if s then - m else m) * 10 ^ e) 0 s
  else
    let d := 10 ^ (- e) in
    let sh := Z.log2_up d + 64 in
    let n := m * 2 ^ sh in
    let q := n / d in
    let r := n mod d in
    let loc := if r =? 0 then loc_Exact else loc_Inexact (Z.compare (2 * r) d) in
    binary_round_aux prec emax s q (- sh) loc.

(** [n * x] for an integer [n] and a float [x]. *)
Definition mul_int_float (n : Z) (x : spec_float) : outcome spec_float :=
  nf <- float_of_Z n ;;
  Ok (SFmul prec emax nf x).

(** ** Strings *)

Definition is_upper (c : ascii) : bool :=
  let n := nat_of_ascii c in (65 <=? n)%nat && (n <=? 90)%nat.

Definition lower_char (c : ascii) : ascii :=
  if is_upper c then ascii_of_nat (nat_of_ascii c + 32) else c.

(** [s.lower()] on ASCII text; bytes outside [A-Z] are left as they are. *)
Fixpoint lower (s : string) : string :=
  match s with
  | EmptyString => EmptyString
  | String c r => String (lower_char c) (lower r)
  end.

(** The whitespace skipped by [int()] and [float()]: tab, newline,
    vertical tab, form feed, carriage return and space. *)
Definition is_space (c : ascii) : bool :=
  let n := nat_of_ascii c in ((9 <=? n)%nat && (n <=? 13)%nat) || (n =? 32)%nat.

Fixpoint lstrip (s : string) : string :=
  match s with
  | String c r => if is_space c then lstrip r else s
  | EmptyString => EmptyString
  end.

Fixpoint rev_string (s acc : string) : string :=
  match s with
  | EmptyString => acc
  | String c r => rev_string r (String c acc)
  end.

Definition strip (s : string) : string :=
  rev_string (lstrip (rev_string (lstrip s) "")) "".

Definition digit_of (c : ascii) : option Z :=
  let n := nat_of_ascii c in
  if (48 <=? n)%nat && (n <=? 57)%nat then Some (Z.of_nat (n - 48)) else None.

Definition is_digit (c : ascii) : bool :=
  match digit_of c with Some _ => true | None => false end.

(** The longest prefix of the form [digit (_? digit)*], as its digits,
    and the rest of the string. *)
Fixpoint scan_digits (s : string) : list Z * string :=
  match s with
  | String c r =>
      match digit_of c with
      | Some d =>
          match r with
          | String "_"%char (String c2 _ as r') =>
              if is_digit c2
              then let (ds, rest) := scan_digits r' in (d :: ds, rest)
              else ([d], r)
          | _ => let (ds, rest) := scan_digits r in (d :: ds, rest)
          end
      | None => ([], s)
      end
  | EmptyString => ([], s)
  end.

Definition digits_value (ds : list Z) : Z :=
  fold_left (fun acc d => 10 * acc + d) ds 0.

(** An optional sign: [true] for [-]. *)
Definition scan_sign (s : string) : bool * string :=
  match s with
  | String "-"%char r => (true, r)
  | String "+"%char r => (false, r)
  | _ => (false, s)
  end.

(** [int(s)] for a string of ASCII text, base 10. *)
Definition int_of_string (s : string) : outcome Z :=
  let (neg, body) := scan_sign (strip s) in
  match scan_digits body with
  | ((_ :: _) as ds, EmptyString) =>
      Ok (if neg then - digits_value ds else digits_value ds)
  | _ => Raise (ValueError "invalid literal for int() with base 10")
  end.

Definition float_syntax_error : outcome spec_float :=
  Raise (ValueError "could not convert string to float").

(** [float(s)] for a string of ASCII text: [inf], [infinity] and [nan]
    in any case, or a decimal literal with optional fraction and
    exponent. *)
Definition float_of_string (s : string) : outcome spec_float :=
  let (neg, body) := scan_sign (strip s) in
  let word := lower body in
  if String.eqb word "inf" || String.eqb word "infinity" then Ok (S754_infinity neg)
  else if String.eqb word "nan" then Ok S754_nan
  else
    let (ip, r1) := scan_digits body in
    let (fp, r2) := match r1 with
                    | String "."%char r => scan_digits r
                    | _ => ([], r1)
                    end in
    match (ip ++ fp)%list with
    | [] => float_syntax_error
    | mant =>
        let m := digits_value mant in
        let shift := - Z.of_nat (List.length fp) in
        match r2 with
        | EmptyString => Ok (float_of_decimal neg m shift)
        | String c r3 =>
            if Ascii.eqb c "e" || Ascii.eqb c "E" then
              let (eneg, r4) := scan_sign r3 in
              match scan_digits r4 with
              | ((_ :: _) as es, EmptyString) =>
                  let e := digits_value es in
                  Ok (float_of_decimal neg m ((if eneg then - e else e) + shift))
              | _ => float_syntax_error
              end
            else float_syntax_error
        end
    end.

(** ** Built-in conversions on values *)

(** Truthiness, [bool(v)]. *)
Definition py_bool (v : pyval) : bool :=
  match v with
  | PNone => false
  | PBool b => b
  | PInt z => negb (z =? 0)
  | PFloat (S754_zero _) => false
  | PFloat _ => true
  | PStr s => negb (String.eqb s "")
  | PList l => match l with [] => false | _ => true end
  | PDict d => match d with [] => false | _ => true end
  end.

(** [a or b] *)
Definition py_or (a b : pyval) : pyval := if py_bool a then a else b.

(** [int(v)] *)
Definition py_int (v : pyval) : outcome Z :=
  match v with
  | PInt z => Ok z
  | PBool b => Ok (if b then 1 else 0)
  | PFloat f => int_of_float f
  | PStr s => int_of_string s
  | PNone | PList _ | PDict _ => Raise TypeError
  end.

(** [float(v)] *)
Definition py_float (v : pyval) : outcome spec_float :=
  match v with
  | PFloat f => Ok f
  | PInt z => float_of_Z z
  | PBool b => float_of_Z (if b then 1 else 0)
  | PStr s => float_of_string s
  | PNone | PList _ | PDict _ => Raise TypeError
  end.

Fixpoint chars (s : string) : list pyval :=
  match s with
  | EmptyString => []
  | String c r => PStr (String c EmptyString) :: chars r
  end.

(** The items a [for] loop visits: the elements of a list, the
    characters of a string, the keys of a dict.  Other values are not
    iterable. *)
Definition py_iter (v : pyval) : outcome (list pyval) :=
  match v with
  | PList l => Ok l
  | PStr s => Ok (chars s)
  | PDict d => Ok (map (fun kv => PStr (fst kv)) d)
  | PNone | PBool _ | PInt _ | PFloat _ => Raise TypeError
  end.

(** A deep copy, as [json.loads(json.dumps(v))] produces for a value
    built from JSON types with string keys. *)
Fixpoint json_roundtrip (v : pyval) : pyval :=
  match v with
  | PList l => PList (map json_roundtrip l)
  | PDict d => PDict (map (fun kv => (fst kv, json_roundtrip (snd kv))) d)
  | PNone => PNone
  | PBool b => PBool b
  | PInt z => PInt z
  | PFloat f => PFloat f
  | PStr s => PStr s
  end.

Definition json_roundtrip_dict (d : dict) : dict :=
  map (fun kv => (fst kv, json_roundtrip (snd kv))) d.

(** Operations on a value that the code uses as a dict. *)

(** [v[k]] *)
Definition py_getitem (v : pyval) (k : string) : outcome pyval :=
  match v with
  | PDict d => dict_item d k
  | _ => Raise TypeError
  end.

(** [v[k] = x] *)
Definition py_setitem (v : pyval) (k : string) (x : pyval) : outcome pyval :=
  match v with
  | PDict d => Ok (PDict (dict_set k x d))
  | _ => Raise TypeError
  end.

(** [v.get(k, default)] *)
Definition py_get (v : pyval) (k : string) (default : pyval) : outcome pyval :=
  match v with
  | PDict d => Ok (dict_get_default d k default)
  | _ => Raise AttributeError
  end.

(** [k in v] *)
Definition py_contains (k : string) (v : pyval) : outcome bool :=
  match v with
  | PDict d => Ok (dict_mem k d)
  | _ => Raise TypeError
  end.

(** [v == s] for a string literal [s]. *)
Definition py_eq_str (v : pyval) (s : string) : bool :=
  match v with
  | PStr s' => String.eqb s' s
  | _ => false
  end.

Section Validation.

(** [repr] of floats, lists and dicts.  The validators only lower-case
    and compare the resulting text, so it is kept abstract. *)
Variable repr : pyval -> string.

(** [str(v)] *)
Definition py_str (v : pyval) : string :=
  match v with
  | PStr s => s
  | PNone => "None"
  | PBool true => "True"
  | PBool false => "False"
  | PInt z => NilZero.string_of_int (Z.to_int z)
  | PFloat _ | PList _ | PDict _ => repr v
  end.

(** ** validation.py *)

Definition MNIST_INPUT_SIZE : Z := 28 * 28.

Definition float_0_1 : spec_float := S754_finite false 7205759403792794 (-56).
Definition float_0_0 : spec_float := S754_zero false.
Definition float_0_9 : spec_float := S754_finite false 8106479329266893 (-53).
Definition float_0_999 : spec_float := S754_finite false 8998192055486251 (-53).
Definition float_1e_8 : spec_float := S754_finite false 6044629098073146 (-79).

Definition DEFAULT_OPTIMIZER : dict :=
  [("type", PStr "sgd"); ("lr", PFloat float_0_1); ("momentum", PFloat float_0_0)].

Definition DEFAULT_HYPERPARAMS : dict :=
  [("epochs", PInt 5);
   ("batch_size", PInt 64);
   ("optimizer", PDict DEFAULT_OPTIMIZER);
   ("loss", PStr "cross_entropy");
   ("seed", PNone);
   ("train_split", PFloat float_0_9);
   ("shuffle", PBool true);
   ("max_samples", PInt 4096)].

(** The body of the loop over [layers]: the sanitized layer and the new
    [prev_out]. *)
Definition sanitize_layer (prev_out : Z) (layer : pyval) : outcome (pyval * Z) :=
  match layer with
  | PDict l =>
      let layer_type := lower (py_str (dict_get_default l "type" (PStr "linear"))) in
      if String.eqb layer_type "linear" then
        let in_dim := dict_get_default l "in" (PInt prev_out) in
        let out_dim := dict_get_default l "out" in_dim in
        '(in_dim, out_dim) <-
          try_except
            (i <- py_int in_dim ;; o <- py_int out_dim ;; Ok (i, o))
            (Raise (ValueError "Linear layer dimensions must be integers.")) ;;
        Ok (PDict [("type", PStr "linear"); ("in", PInt in_dim); ("out", PInt out_dim)],
            out_dim)
      else
        Ok (PDict [("type", PStr layer_type)], prev_out)
  | _ => Raise (ValueError "Each layer must be described by an object.")
  end.

Fixpoint sanitize_layers (layers sanitized_layers : list pyval) (prev_out : Z)
  : outcome (list pyval) :=
  match layers with
  | [] => Ok sanitized_layers
  | layer :: rest =>
      '(l, prev_out) <- sanitize_layer prev_out layer ;;
      sanitize_layers rest (sanitized_layers ++ [l]) prev_out
  end.

Definition validate_architecture (payload : pyval) : outcome pyval :=
  match payload with
  | PDict p =>
      let input_size := dict_get_default p "input_size" (PInt MNIST_INPUT_SIZE) in
      let layers := py_or (dict_get_default p "layers" PNone) (PList []) in
      if negb (py_bool layers) then
        Raise (ValueError "`architecture.layers` must contain at least one layer.")
      else
        input_size <-
          try_except (py_int input_size)
            (Raise (ValueError "`architecture.input_size` must be convertible to int.")) ;;
        items <- py_iter layers ;;
        sanitized_layers <- sanitize_layers items [] input_size ;;
        Ok (PDict [("input_size", PInt input_size); ("layers", PList sanitized_layers)])
  | _ => Raise (ValueError "`architecture` must be an object.")
  end.


(** Lines 62-100: the top-level fields.  A failed coercion fails the
    whole call. *)
Definition coerce_fields (payload result : dict) : outcome dict :=
  result <-
    match dict_get payload "epochs" with
    | Some v =>
        n <- try_except (py_int v)
               (Raise (ValueError "`hyperparams.epochs` must be an integer.")) ;;
        Ok (dict_set "epochs" (PInt n) result)
    | None => Ok result
    end ;;
  result <-
    match dict_get payload "batch_size" with
    | Some v =>
        n <- try_except (py_int v)
               (Raise (ValueError "`hyperparams.batch_size` must be an integer.")) ;;
        Ok (dict_set "batch_size" (PInt n) result)
    | None => Ok result
    end ;;
  result <-
    match dict_get payload "train_split" with
    | Some v =>
        x <- try_except (py_float v)
               (Raise (ValueError "`hyperparams.train_split` must be numeric.")) ;;
        Ok (dict_set "train_split" (PFloat x) result)
    | None => Ok result
    end ;;
  let result :=
    match dict_get payload "shuffle" with
    | Some v => dict_set "shuffle" (PBool (py_bool v)) result
    | None => result
    end in
  let result :=
    match dict_get payload "loss" with
    | Some v => dict_set "loss" (PStr (py_str v)) result
    | None => result
    end in
  result <-
    match dict_get payload "seed" with
    | Some PNone => Ok (dict_set "seed" PNone result)
    | Some seed =>
        n <- try_except (py_int seed)
               (Raise (ValueError "`hyperparams.seed` must be integer or null.")) ;;
        Ok (dict_set "seed" (PInt n) result)
    | None => Ok result
    end ;;
  match dict_get payload "max_samples" with
  | Some v =>
      n <- try_except (py_int v)
             (Raise (ValueError "`hyperparams.max_samples` must be an integer.")) ;;
      Ok (dict_set "max_samples" (PInt n) result)
  | None => Ok result
  end.

(** Lines 102-107: a dict under [optimizer] is merged key by key onto a
    copy of the default optimizer; any other value is ignored. *)
Definition merge_optimizer (payload result : dict) : outcome dict :=
  match dict_get_default payload "optimizer" PNone with
  | PDict optimizer =>
      default_optimizer <- dict_item DEFAULT_HYPERPARAMS "optimizer" ;;
      merged_optimizer <-
        fold_left (fun acc kv => m <- acc ;; py_setitem m (fst kv) (snd kv))
          optimizer (Ok default_optimizer) ;;
      Ok (dict_set "optimizer" merged_optimizer result)
  | _ => Ok result
  end.

(** [if key in opt_cfg: try: opt_cfg[key] = float(opt_cfg[key])
     except (TypeError, ValueError): opt_cfg[key] = fallback] *)
Definition coerce_float_key (opt_cfg : pyval) (key : string)
    (fallback : outcome spec_float) : outcome pyval :=
  present <- py_contains key opt_cfg ;;
  if present then
    x <- try_except (v <- py_getitem opt_cfg key ;; py_float v) fallback ;;
    py_setitem opt_cfg key (PFloat x)
  else Ok opt_cfg.

(** Lines 109-128: the optimizer fields.  A failed coercion falls back
    to a default. *)
Definition normalize_optimizer (opt_cfg : pyval) : outcome pyval :=
  default_optimizer <- dict_item DEFAULT_HYPERPARAMS "optimizer" ;;
  default_type <- py_getitem default_optimizer "type" ;;
  ty <- py_get opt_cfg "type" default_type ;;
  opt_cfg <- py_setitem opt_cfg "type" (PStr (lower (py_str ty))) ;;
  opt_cfg <- coerce_float_key opt_cfg "lr"
               (d <- py_getitem default_optimizer "lr" ;; py_float d) ;;
  ty <- py_getitem opt_cfg "type" ;;
  if py_eq_str ty "sgd" then
    coerce_float_key opt_cfg "momentum"
      (d <- py_get default_optimizer "momentum" (PFloat float_0_0) ;; py_float d)
  else if py_eq_str ty "adam" then
    fold_left
      (fun acc kf => o <- acc ;; coerce_float_key o (fst kf) (py_float (PFloat (snd kf))))
      [("beta1", float_0_9); ("beta2", float_0_999); ("eps", float_1e_8)]
      (Ok opt_cfg)
  else Ok opt_cfg.

Definition validate_hyperparams (payload : pyval) : outcome pyval :=
  let payload := match payload with PNone => PDict [] | _ => payload end in
  match payload with
  | PDict p =>
      let result := json_roundtrip_dict DEFAULT_HYPERPARAMS in
      result <- coerce_fields p result ;;
      result <- merge_optimizer p result ;;
      opt_cfg <- dict_item result "optimizer" ;;
      opt_cfg <- normalize_optimizer opt_cfg ;;
      Ok (PDict (dict_set "optimizer" opt_cfg result))
  | _ => Raise (ValueError "`hyperparams` must be an object.")
  end.

End Validation.

(** An arbitrary instance of [repr] for concrete runs.  No run below
    reaches it: their [type] and [loss] values are strings. *)
Definition repr_unused : pyval -> string := fun _ => "".

(** ** model_service.py *)

Definition DEFAULT_MAX_SAMPLES : Z := 4096.

(** [max_samples or DEFAULT_HYPERPARAMS["max_samples"]]: [None] and [0]
    are falsy. *)
Definition max_samples_or_default (max_samples : option Z) : Z :=
  match max_samples with
  | Some n => if n =? 0 then DEFAULT_MAX_SAMPLES else n
  | None => DEFAULT_MAX_SAMPLES
  end.

(** Lines 38-39 of [prepare_dataloaders]. *)
Definition total_samples (batch_size : Z) (max_samples : option Z) : Z :=
  let total_samples := Z.max (max_samples_or_default max_samples) (batch_size * 2) in
  Z.max 2 total_samples.

(** Lines 42-45 of [prepare_dataloaders], for a dataset of length
    [len_dataset]. *)
Definition split_lengths (len_dataset : Z) (train_split : spec_float)
  : outcome (Z * Z) :=
  x <- mul_int_float len_dataset train_split ;;
  k <- int_of_float x ;;
  let train_len := Z.max 1 k in
  let train_len := if len_dataset <=? train_len then len_dataset - 1 else train_len in
  let val_len := Z.max 1 (len_dataset - train_len) in
  Ok (train_len, val_len).

(** [TensorDataset(data, labels)] *)
Record TensorDataset (Tensor : Type) : Type :=
  { ds_data : Tensor; ds_labels : Tensor }.
Arguments ds_data {Tensor} _.
Arguments ds_labels {Tensor} _.

(** The parts of torch that the service calls.  A generator is a value
    holding the state of a random source; every drawing operation
    returns the advanced state.  [World] stands for whatever a newly
    made generator takes its state from. *)
Class TorchApi : Type := {
  World : Type;
  GenState : Type;
  Tensor : Type;
  Subset : Type;
  Loader : Type;
  Batch : Type;
  (** [torch.Generator()] *)
  Generator : World -> GenState * World;
  (** [generator.manual_seed(seed)] *)
  manual_seed : GenState -> Z -> GenState;
  (** [torch.rand(size, input_size, generator=generator)] *)
  rand : Z -> Z -> GenState -> Tensor * GenState;
  (** [torch.randint(low, high, (size,), generator=generator)] *)
  randint : Z -> Z -> Z -> GenState -> Tensor * GenState;
  (** [tensor.size(0)] *)
  size0 : Tensor -> Z;
  (** [random_split(dataset, lengths, generator=generator)] *)
  random_split :
    TensorDataset Tensor -> list Z -> GenState -> outcome (Subset * Subset) * GenState;
  (** [DataLoader(dataset, batch_size=..., shuffle=..., generator=generator)];
      the loader keeps a reference to the generator, whose state is
      passed to [batches] when the loader is iterated. *)
  DataLoader : Subset -> Z -> bool -> outcome Loader;
  (** One pass over a loader. *)
  batches : Loader -> GenState -> list Batch * GenState
}.

Section Torch.

Context {torch : TorchApi}.

(** [len(dataset)] is the first dimension of its first tensor. *)
Definition len (dataset : TensorDataset Tensor) : Z := size0 (ds_data dataset).

(** [if seed is not None: generator.manual_seed(seed)] *)
Definition seeded (generator : GenState) (seed : option Z) : GenState :=
  match seed with
  | Some s => manual_seed generator s
  | None => generator
  end.

Definition synthetic_dataset (w : World) (size input_size : Z) (seed : option Z)
  : TensorDataset Tensor * World :=
  let (generator, w) := Generator w in
  let generator := seeded generator seed in
  let (data, generator) := rand size input_size generator in
  let (labels, _) := randint 0 10 size generator in
  ({| ds_data := data; ds_labels := labels |}, w).

(** The result holds the two loaders and the state of the generator they
    share. *)
Definition prepare_dataloaders (w : World) (batch_size : Z) (train_split : spec_float)
    (shuffle : bool) (max_samples seed : option Z)
  : outcome (Loader * Loader * GenState) * World :=
  let total_samples := total_samples batch_size max_samples in
  let (dataset, w) := synthetic_dataset w total_samples MNIST_INPUT_SIZE seed in
  match split_lengths (len dataset) train_split with
  | Raise e => (Raise e, w)
  | Ok (train_len, val_len) =>
      let (generator, w) := Generator w in
      let generator := seeded generator seed in
      let (split, generator) := random_split dataset [train_len; val_len] generator in
      (' (train_dataset, val_dataset) <- split ;;
       train_loader <- DataLoader train_dataset batch_size shuffle ;;
       val_loader <- DataLoader val_dataset batch_size false ;;
       Ok (train_loader, val_loader, generator),
       w)
  end.

(** The first pass over the training loader, then over the validation
    loader, of a prepared pair. *)
Definition first_epoch (prepared : outcome (Loader * Loader * GenState))
  : outcome (list Batch * list Batch) :=
  ' (train_loader, val_loader, generator) <- prepared ;;
  let (train_batches, generator) := batches train_loader generator in
  let (val_batches, _) := batches val_loader generator in
  Ok (train_batches, val_batches).

End Torch.

(** Seeding a generator fixes its state, whatever it was before. *)
Definition seed_resets (torch : TorchApi) : Prop :=
  forall g g' seed, manual_seed g seed = manual_seed g' seed.

(** [torch.rand(n, m)] has [n] rows. *)
Definition rand_rows (torch : TorchApi) : Prop :=
  forall n m g, 0 <= n -> size0 (fst (rand n m g)) = n.

(** A small instance for concrete runs: a linear congruential source,
    tensors as lists of integers, subsets as index lists, loaders as the
    subset with its batch size and shuffle flag. *)
Module Toy.

Definition step (g : Z) : Z := (g * 1103515245 + 12345) mod 2 ^ 31.

Fixpoint draw (n : nat) (g : Z) : list Z * Z :=
  match n with
  | O => ([], g)
  | S n' => let (xs, g') := draw n' (step g) in (g :: xs, g')
  end.

Fixpoint chunks (fuel : nat) (size : nat) (l : list Z) : list (list Z) :=
  match fuel, l with
  | O, _ | _, [] => []
  | S fuel', _ => firstn size l :: chunks fuel' size (skipn size l)
  end.

#[export] Instance torch : TorchApi := {|
  World := Z;
  GenState := Z;
  Tensor := list Z;
  Subset := list Z;
  Loader := list Z * Z * bool;
  Batch := list Z;
  Generator := fun w => (step w, w + 1);
  manual_seed := fun _ seed => seed mod 2 ^ 31;
  rand := fun size _ g => draw (Z.to_nat size) g;
  randint := fun low high size g =>
    let (xs, g') := draw (Z.to_nat size) g in
    (map (fun x => low + x mod (high - low)) xs, g');
  size0 := fun t => Z.of_nat (List.length t);
  random_split := fun dataset lengths g =>
    match lengths with
    | [a; b] =>
        if a + b =? Z.of_nat (List.length (ds_data dataset)) then
          let (xs, g') := draw (Z.to_nat (a + b)) g in
          (Ok (firstn (Z.to_nat a) xs, skipn (Z.to_nat a) xs), g')
        else (Raise (ValueError "Sum of input lengths does not equal the length of the input dataset!"), g)
    | _ => (Raise TypeError, g)
    end;
  DataLoader := fun subset batch_size shuffle =>
    if 0 <? batch_size then Ok (subset, batch_size, shuffle)
    else Raise (ValueError "batch_size should be a positive integer value");
  batches := fun loader g =>
    let '(subset, batch_size, shuffle) := loader in
    let order := if shuffle then map (Z.add g) subset else subset in
    (chunks (List.length order) (Z.to_nat batch_size) order,
     if shuffle then step g else g)
|}.

End Toy.

(** ** model_service.py: the assemblers and the sample encoder *)

(** The constructors of [torch.nn] and [torch.optim] that the service
    calls.  [nn.Linear] and the optimizers check their arguments and may
    raise; the activations take none that could be refused. *)
Class NnApi : Type := {
  NnModule : Type;
  Params : Type;
  Optim : Type;
  (** [nn.Linear(in_features, out_features)] *)
  Linear : pyval -> pyval -> outcome NnModule;
  (** [nn.ReLU()], [nn.Sigmoid()], [nn.Tanh()] *)
  ReLU : NnModule;
  Sigmoid : NnModule;
  Tanh : NnModule;
  (** [nn.Softmax(dim=dim)] *)
  Softmax : Z -> NnModule;
  (** [nn.Sequential] applied to the list of modules *)
  Sequential : list NnModule -> NnModule;
  (** [torch.optim.SGD(parameters, lr=lr, momentum=momentum)] *)
  SGD : Params -> spec_float -> spec_float -> outcome Optim;
  (** [torch.optim.Adam(parameters, lr=lr, betas=betas, eps=eps)] *)
  Adam : Params -> spec_float -> spec_float * spec_float -> spec_float -> outcome Optim
}.

Section Assemblers.

Context {nn : NnApi}.
Variable repr : pyval -> string.

(** The body of the loop of [build_model]: the module appended for one
    layer. *)
Definition build_layer (layer_spec : pyval) : outcome NnModule :=
  t <- py_getitem layer_spec "type" ;;
  let layer_type := lower (py_str repr t) in
  if String.eqb layer_type "linear" then
    in_features <- py_getitem layer_spec "in" ;;
    out_features <- py_getitem layer_spec "out" ;;
    Linear in_features out_features
  else if String.eqb layer_type "relu" then Ok ReLU
  else if String.eqb layer_type "sigmoid" then Ok Sigmoid
  else if String.eqb layer_type "tanh" then Ok Tanh
  else if String.eqb layer_type "softmax" then Ok (Softmax 1)
  else
    Raise (ValueError
             (String.append "Unsupported layer type `" (String.append layer_type "`."))).

Fixpoint build_layers (layer_specs : list pyval) (layers : list NnModule)
  : outcome (list NnModule) :=
  match layer_specs with
  | [] => Ok layers
  | layer_spec :: rest =>
      m <- build_layer layer_spec ;;
      build_layers rest (layers ++ [m])
  end.

Definition build_model (architecture : pyval) : outcome NnModule :=
  layer_specs <- py_getitem architecture "layers" ;;
  items <- py_iter layer_specs ;;
  layers <- build_layers items [] ;;
  Ok (Sequential layers).

Definition configure_optimizer (optimizer_cfg : pyval) (parameters : Params)
  : outcome Optim :=
  default_optimizer <- dict_item DEFAULT_HYPERPARAMS "optimizer" ;;
  default_type <- py_getitem default_optimizer "type" ;;
  ty <- py_get optimizer_cfg "type" default_type ;;
  let opt_type := lower (py_str repr ty) in
  default_lr <- py_getitem default_optimizer "lr" ;;
  lr <- py_get optimizer_cfg "lr" default_lr ;;
  lr <- py_float lr ;;
  if String.eqb opt_type "sgd" then
    default_momentum <- py_get default_optimizer "momentum" (PFloat float_0_0) ;;
    momentum <- py_get optimizer_cfg "momentum" default_momentum ;;
    momentum <- py_float momentum ;;
    SGD parameters lr momentum
  else if String.eqb opt_type "adam" then
    beta1 <- py_get optimizer_cfg "beta1" (PFloat float_0_9) ;;
    beta1 <- py_float beta1 ;;
    beta2 <- py_get optimizer_cfg "beta2" (PFloat float_0_999) ;;
    beta2 <- py_float beta2 ;;
    eps <- py_get optimizer_cfg "eps" (PFloat float_1e_8) ;;
    eps <- py_float eps ;;
    Adam parameters lr (beta1, beta2) eps
  else
    Raise (ValueError
             (String.append "Unsupported optimizer `" (String.append opt_type "`."))).

End Assemblers.

(** The conversion of a double to [torch.float32]: round to nearest
    even at 24 bits; what exceeds the range becomes an infinity. *)
Definition float32_of_float (f : spec_float) : spec_float :=
  match f with
  | S754_finite s m e => binary_round 24 128 s m e
  | _ => f
  end.

(** [[float(value) for value in pixels]] *)
Fixpoint floats_of (values : list pyval) : outcome (list spec_float) :=
  match values with
  | [] => Ok []
  | value :: rest =>
      x <- py_float value ;;
      xs <- floats_of rest ;;
      Ok (x :: xs)
  end.

(** A tensor of [torch.float32] with two dimensions, as its rows. *)
Definition tensor2d : Type := list (list spec_float).

(** [pixels] is a list when it is a JSON array; a deserialized payload
    holds no tuples. *)
Definition tensor_from_pixels (pixels : pyval) : outcome tensor2d :=
  match pixels with
  | PList values =>
      if negb (Z.of_nat (List.length values) =? MNIST_INPUT_SIZE) then
        Raise (ValueError
                 (String.append "`pixels` must contain exactly "
                    (String.append (NilZero.string_of_int (Z.to_int MNIST_INPUT_SIZE))
                       " values.")))
      else
        flattened <-
          try_except (floats_of values) (Raise (ValueError "`pixels` must be numeric.")) ;;
        Ok [map float32_of_float flattened]
  | _ => Raise (ValueError "`pixels` must be a list of numbers.")
  end.

(** ** Properties named by the specification *)

(** The lower-cased type of a layer entry; an entry without [type]
    counts as [linear]. *)
Definition layer_type (repr : pyval -> string) (l : dict) : string :=
  match dict_get l "type" with
  | Some t => lower (py_str repr t)
  | None => "linear"
  end.

Definition linear_layer (in_dim out_dim : Z) : pyval :=
  PDict [("type", PStr "linear"); ("in", PInt in_dim); ("out", PInt out_dim)].

(** [inferred repr prev_out layers sanitized]: the left-to-right pass of
    the specification, started with [prev_out], turns [layers] into
    [sanitized]. *)
Inductive inferred (repr : pyval -> string) : Z -> list pyval -> list pyval -> Prop :=
| inferred_done : forall prev_out,
    inferred repr prev_out [] []
| inferred_linear : forall prev_out l rest sanitized i o,
    layer_type repr l = "linear" ->
    match dict_get l "in" with
    | Some v => py_int v = Ok i
    | None => i = prev_out
    end ->
    match dict_get l "out" with
    | Some v => py_int v = Ok o
    | None => o = i
    end ->
    inferred repr o rest sanitized ->
    inferred repr prev_out (PDict l :: rest) (linear_layer i o :: sanitized)
| inferred_other : forall prev_out l rest sanitized t,
    dict_get l "type" = Some t ->
    lower (py_str repr t) <> "linear" ->
    inferred repr prev_out rest sanitized ->
    inferred repr prev_out (PDict l :: rest)
      (PDict [("type", PStr (lower (py_str repr t)))] :: sanitized).

Definition architecture_spec (input_size : Z) (layers : list pyval) : pyval :=
  PDict [("input_size", PInt input_size); ("layers", PList layers)].

(** The data-model invariant of an ArchitectureSpec. *)
Definition architecture_invariant (spec : pyval) : Prop :=
  exists input_size layers,
    spec = architecture_spec input_size layers /\ layers <> [] /\ 1 <= input_size.

Definition example_architecture : pyval :=
  PDict [("input_size", PInt 784);
         ("layers", PList [PDict [("type", PStr "linear"); ("out", PInt 128)];
                           PDict [("type", PStr "relu")];
                           PDict [("type", PStr "linear"); ("out", PInt 10)];
                           PDict [("type", PStr "softmax")]])].

Definition example_sanitized : list pyval :=
  [linear_layer 784 128; PDict [("type", PStr "relu")];
   linear_layer 128 10; PDict [("type", PStr "softmax")]].

(** A coercion is rejected when it raises what the validators catch:
    [TypeError] or [ValueError]. *)
Definition rejected {A} (r : outcome A) : Prop :=
  r = Raise TypeError \/ exists msg, r = Raise (ValueError msg).

(** [strict_failure p msg]: some strict top-level field of [p] is
    present and rejected, and [msg] is the message naming it. *)
Inductive strict_failure (p : dict) : string -> Prop :=
| epochs_rejected : forall v,
    dict_get p "epochs" = Some v -> rejected (py_int v) ->
    strict_failure p "`hyperparams.epochs` must be an integer."
| batch_size_rejected : forall v,
    dict_get p "batch_size" = Some v -> rejected (py_int v) ->
    strict_failure p "`hyperparams.batch_size` must be an integer."
| train_split_rejected : forall v,
    dict_get p "train_split" = Some v -> rejected (py_float v) ->
    strict_failure p "`hyperparams.train_split` must be numeric."
| seed_rejected : forall v,
    dict_get p "seed" = Some v -> v <> PNone -> rejected (py_int v) ->
    strict_failure p "`hyperparams.seed` must be integer or null."
| max_samples_rejected : forall v,
    dict_get p "max_samples" = Some v -> rejected (py_int v) ->
    strict_failure p "`hyperparams.max_samples` must be an integer.".

Definition field_ok (p : dict) (k : string) (coerces : pyval -> bool) : bool :=
  match dict_get p k with
  | Some v => coerces v
  | None => true
  end.

(** Every strict top-level field of [p] is absent or coercible. *)
Definition strict_fields_ok (p : dict) : bool :=
  field_ok p "epochs" (fun v => is_ok (py_int v))
  && field_ok p "batch_size" (fun v => is_ok (py_int v))
  && field_ok p "train_split" (fun v => is_ok (py_float v))
  && field_ok p "seed" (fun v => match v with PNone => true | _ => is_ok (py_int v) end)
  && field_ok p "max_samples" (fun v => is_ok (py_int v)).

(** The payload without any binding of [k]. *)
Definition dict_remove (k : string) (d : dict) : dict :=
  filter (fun kv => negb (String.eqb k (fst kv))) d.

Definition adam_bad_lr : pyval :=
  PDict [("type", PStr "adam"); ("lr", PStr "not-a-number")].

(** ** Further properties of the code *)

(** [chained prev_out layers]: in a sanitized layer list every linear
    layer takes as [in] the [out] of the linear layer before it, or
    [prev_out] when it is the first. *)
Inductive chained : Z -> list pyval -> Prop :=
| chained_done : forall prev_out,
    chained prev_out []
| chained_linear : forall prev_out o rest,
    chained o rest ->
    chained prev_out (linear_layer prev_out o :: rest)
| chained_other : forall prev_out t rest,
    chained prev_out rest ->
    chained prev_out (PDict [("type", PStr t)] :: rest).

(** No entry of a raw layer list supplies [in]. *)
Definition no_explicit_in (layers : list pyval) : Prop :=
  Forall (fun layer => forall l, layer = PDict l -> dict_get l "in" = None) layers.

(** The ways [validate_architecture] fails, each with its cause. *)
Inductive architecture_failure (repr : pyval -> string) (payload : pyval) : exn -> Prop :=
| not_an_object :
    isinstance_dict payload = false ->
    architecture_failure repr payload (ValueError "`architecture` must be an object.")
| no_layers : forall p,
    payload = PDict p ->
    py_bool (dict_get_default p "layers" PNone) = false ->
    architecture_failure repr payload
      (ValueError "`architecture.layers` must contain at least one layer.")
| bad_input_size : forall p v,
    payload = PDict p ->
    dict_get p "input_size" = Some v ->
    rejected (py_int v) ->
    architecture_failure repr payload
      (ValueError "`architecture.input_size` must be convertible to int.")
| opaque_layers : forall p v,
    payload = PDict p ->
    dict_get p "layers" = Some v ->
    py_iter v = Raise TypeError ->
    architecture_failure repr payload TypeError
| layer_not_an_object : forall p v items item,
    payload = PDict p ->
    dict_get p "layers" = Some v ->
    py_iter v = Ok items ->
    In item items ->
    isinstance_dict item = false ->
    architecture_failure repr payload
      (ValueError "Each layer must be described by an object.")
| bad_dimension : forall p v items l k x,
    payload = PDict p ->
    dict_get p "layers" = Some v ->
    py_iter v = Ok items ->
    In (PDict l) items ->
    layer_type repr l = "linear" ->
    k = "in" \/ k = "out" ->
    dict_get l k = Some x ->
    rejected (py_int x) ->
    architecture_failure repr payload
      (ValueError "Linear layer dimensions must be integers.")
| input_size_overflow : forall p v,
    payload = PDict p ->
    dict_get p "input_size" = Some v ->
    py_int v = Raise OverflowError ->
    architecture_failure repr payload OverflowError
| dimension_overflow : forall p v items l k x,
    payload = PDict p ->
    dict_get p "layers" = Some v ->
    py_iter v = Ok items ->
    In (PDict l) items ->
    layer_type repr l = "linear" ->
    k = "in" \/ k = "out" ->
    dict_get l k = Some x ->
    py_int x = Raise OverflowError ->
    architecture_failure repr payload OverflowError.

(** The shape of a sanitized layer: a linear layer with integer
    dimensions, or a lower-cased type other than [linear] alone. *)
Definition sanitized_entry (s : pyval) : Prop :=
  (exists i o, s = linear_layer i o)
  \/ (exists t, s = PDict [("type", PStr t)] /\ lower t = t /\ t <> "linear").

Definition known_layer_types : list string :=
  ["linear"; "relu"; "sigmoid"; "tanh"; "softmax"].

Definition unsupported_layer_message (t : string) : string :=
  String.append "Unsupported layer type `" (String.append t "`.").

(** [builds s m]: [m] is the module [build_model] makes for the
    sanitized layer [s]. *)
Inductive builds {nn : NnApi} : pyval -> NnModule -> Prop :=
| builds_linear : forall i o m,
    Linear (PInt i) (PInt o) = Ok m -> builds (linear_layer i o) m
| builds_relu : builds (PDict [("type", PStr "relu")]) ReLU
| builds_sigmoid : builds (PDict [("type", PStr "sigmoid")]) Sigmoid
| builds_tanh : builds (PDict [("type", PStr "tanh")]) Tanh
| builds_softmax : builds (PDict [("type", PStr "softmax")]) (Softmax 1).

(** [layer_fails s e]: the sanitized layer [s] makes [build_model]
    raise [e]. *)
Inductive layer_fails {nn : NnApi} : pyval -> exn -> Prop :=
| linear_refused : forall i o e,
    Linear (PInt i) (PInt o) = Raise e -> layer_fails (linear_layer i o) e
| unsupported_type : forall t,
    ~ In t known_layer_types ->
    layer_fails (PDict [("type", PStr t)]) (ValueError (unsupported_layer_message t)).

(** A stand-in for [torch.nn] and [torch.optim] for concrete runs:
    modules and optimizers are the record of the constructor call;
    [nn.Linear] refuses what is not a pair of non-negative integers. *)
Module ToyNn.

Inductive module : Type :=
| TLinear (in_features out_features : Z)
| TReLU
| TSigmoid
| TTanh
| TSoftmax (dim : Z)
| TSequential (layers : list module).

Inductive optimizer : Type :=
| TSGD (lr momentum : spec_float)
| TAdam (lr beta1 beta2 eps : spec_float).

#[export] Instance nn : NnApi := {|
  NnModule := module;
  Params := unit;
  Optim := optimizer;
  Linear := fun a b =>
    match a, b with
    | PInt i, PInt o =>
        if (0 <=? i) && (0 <=? o) then Ok (TLinear i o)
        else Raise (ValueError "negative dimension")
    | _, _ => Raise TypeError
    end;
  ReLU := TReLU;
  Sigmoid := TSigmoid;
  Tanh := TTanh;
  Softmax := TSoftmax;
  Sequential := TSequential;
  SGD := fun _ lr momentum => Ok (TSGD lr momentum);
  Adam := fun _ lr betas eps => Ok (TAdam lr (fst betas) (snd betas) eps)
|}.

End ToyNn.

(** The canonical hyperparameter record. *)
Definition hyperparam_spec (epochs batch_size : Z) (optimizer : dict) (loss : string)
    (seed : pyval) (train_split : spec_float) (shuffle : bool) (max_samples : Z) : pyval :=
  PDict [("epochs", PInt epochs);
         ("batch_size", PInt batch_size);
         ("optimizer", PDict optimizer);
         ("loss", PStr loss);
         ("seed", seed);
         ("train_split", PFloat train_split);
         ("shuffle", PBool shuffle);
         ("max_samples", PInt max_samples)].

(** The value of an integer field: the payload's, coerced, or the
    default. *)
Definition int_field (p : dict) (k : string) (default n : Z) : Prop :=
  match dict_get p k with
  | Some v => py_int v = Ok n
  | None => n = default
  end.

Definition float_field (p : dict) (k : string) (default x : spec_float) : Prop :=
  match dict_get p k with
  | Some v => py_float v = Ok x
  | None => x = default
  end.

Definition seed_field (p : dict) (s : pyval) : Prop :=
  match dict_get p "seed" with
  | None => s = PNone
  | Some v =>
      match v with
      | PNone => s = PNone
      | _ => exists n, py_int v = Ok n /\ s = PInt n
      end
  end.

(** A tolerant coercion: the value as a float, or the fallback when
    [float()] rejects it. *)
Definition tolerant (v : pyval) (fallback x : spec_float) : Prop :=
  py_float v = Ok x \/ (rejected (py_float v) /\ x = fallback).

(** How a tolerant key of the optimizer record [o] shows in the
    normalized record [o']: absent if it was absent, else a float. *)
Definition float_key_rel (o o' : dict) (k : string) (fallback : spec_float) : Prop :=
  match dict_get o k with
  | Some v => exists x, tolerant v fallback x /\ dict_get o' k = Some (PFloat x)
  | None => dict_get o' k = None
  end.

(** The keys that normalization rewrites for an optimizer of type [ty]. *)
Definition coerced_keys (ty : string) : list string :=
  "type" :: "lr" ::
  (if String.eqb ty "sgd" then ["momentum"]
   else if String.eqb ty "adam" then ["beta1"; "beta2"; "eps"]
   else []).

(** The optimizer record before normalization: the payload's optimizer
    object merged key by key onto the default one, or the default one
    when the payload has no such object. *)
Definition merged_optimizer (p : dict) : dict :=
  match dict_get p "optimizer" with
  | Some (PDict optimizer) =>
      fold_left (fun m kv => dict_set (fst kv) (snd kv) m) optimizer DEFAULT_OPTIMIZER
  | _ => DEFAULT_OPTIMIZER
  end.

(** The value a well-formed optimizer object [optimizer] gives to a key
    after the merge. *)
Definition merged_value (optimizer : dict) (k : string) : option pyval :=
  match dict_get optimizer k with
  | Some v => Some v
  | None => dict_get DEFAULT_OPTIMIZER k
  end.

(** The float [configure_optimizer] reads under key [k] of a typed
    record: the record's, or the default when the key is absent. *)
Definition float_or_default (o : dict) (k : string) (default x : spec_float) : Prop :=
  match dict_get o k with
  | Some v => v = PFloat x
  | None => x = default
  end.

Definition unsupported_optimizer_message (t : string) : string :=
  String.append "Unsupported optimizer `" (String.append t "`.").

(** Every [in] and [out] that the layer [l] supplies is accepted by
    [int()]. *)
Definition dims_coercible (l : dict) : Prop :=
  forall k x, k = "in" \/ k = "out" -> dict_get l k = Some x -> is_ok (py_int x) = true.

(** A layer entry the validator accepts: an object whose supplied
    dimensions coerce when its type is [linear]. *)
Definition acceptable_layer (repr : pyval -> string) (layer : pyval) : Prop :=
  exists l, layer = PDict l /\ (layer_type repr l = "linear" -> dims_coercible l).

(** The running [prev_out] after a sanitized layer, and after a
    sanitized list: the [out] of its last linear layer, or the value it
    started with. *)
Definition layer_out (prev_out : Z) (s : pyval) : Z :=
  match s with
  | PDict d =>
      match dict_get d "out" with
      | Some (PInt o) => o
      | _ => prev_out
      end
  | _ => prev_out
  end.

Definition last_out (prev_out : Z) (sanitized : list pyval) : Z :=
  fold_left layer_out sanitized prev_out.

(** ** Facts about dicts *)

Lemma dict_get_set_same (k : string) (v : pyval) (d : dict) :
  dict_get (dict_set k v d) k = Some v.
Proof.
  induction d as [|[k' v'] d IH]; simpl.
  - now rewrite String.eqb_refl.
  - destruct (String.eqb k k') eqn:E; simpl; rewrite E; auto.
Qed.

Lemma dict_get_set_other (k k' : string) (v : pyval) (d : dict) :
  k <> k' -> dict_get (dict_set k v d) k' = dict_get d k'.
Proof.
  intros Hne. induction d as [|[k0 v0] d IH]; simpl.
  - destruct (String.eqb k' k) eqn:E; auto.
    apply String.eqb_eq in E. congruence.
  - destruct (String.eqb k k0) eqn:E; simpl.
    + apply String.eqb_eq in E. subst k0.
      destruct (String.eqb k' k) eqn:E'; auto.
      apply String.eqb_eq in E'. congruence.
    + now rewrite IH.
Qed.

Lemma dict_set_get_id (k : string) (v : pyval) (d : dict) :
  dict_get d k = Some v -> dict_set k v d = d.
Proof.
  induction d as [|[k' v'] d IH]; simpl; [discriminate|].
  destruct (String.eqb k k') eqn:E.
  - intros [= ->]. reflexivity.
  - intros H. now rewrite IH.
Qed.

(** [json_roundtrip] copies: the result is equal to its argument. *)
Lemma json_roundtrip_id : forall v, json_roundtrip v = v.
Proof.
  fix IH 1. intros [| b | z | f | s | l | d]; simpl; try reflexivity.
  - f_equal. induction l as [|x l IHl]; simpl; [reflexivity|].
    now rewrite IH, IHl.
  - f_equal. induction d as [|[k x] d IHd]; simpl; [reflexivity|].
    now rewrite IH, IHd.
Qed.

(** ** The architecture validator *)

Lemma layer_type_eq (repr : pyval -> string) (l : dict) :
  lower (py_str repr (dict_get_default l "type" (PStr "linear"))) = layer_type repr l.
Proof.
  unfold layer_type, dict_get_default. now destruct (dict_get l "type").
Qed.

(** One turn of the loop, read as the specification reads it. *)
Lemma sanitize_layer_inv (repr : pyval -> string) (prev_out : Z) (layer s : pyval) (next : Z) :
  sanitize_layer repr prev_out layer = Ok (s, next) ->
  exists l, layer = PDict l /\
    ((layer_type repr l = "linear" /\
      exists i o,
        match dict_get l "in" with Some v => py_int v = Ok i | None => i = prev_out end /\
        match dict_get l "out" with Some v => py_int v = Ok o | None => o = i end /\
        s = linear_layer i o /\ next = o)
     \/
     (exists t, dict_get l "type" = Some t /\ lower (py_str repr t) <> "linear" /\
        s = PDict [("type", PStr (lower (py_str repr t)))] /\ next = prev_out)).
Proof.
  destruct layer as [| | | | | |l]; try discriminate.
  unfold sanitize_layer. rewrite layer_type_eq.
  intros H. exists l. split; [reflexivity|].
  destruct (String.eqb (layer_type repr l) "linear") eqn:E.
  - apply String.eqb_eq in E. left. split; [exact E|].
    unfold dict_get_default in H.
    destruct (dict_get l "in") as [vin|] eqn:Hin;
      destruct (dict_get l "out") as [vout|] eqn:Hout; simpl in H.
    + destruct (py_int vin) as [i|e] eqn:Hi; [|destruct e; discriminate].
      destruct (py_int vout) as [o|e] eqn:Ho; [|destruct e; discriminate].
      simpl in H. injection H as <- <-. exists i, o. auto.
    + destruct (py_int vin) as [i|e] eqn:Hi; [|destruct e; discriminate].
      simpl in H. injection H as <- <-. exists i, i. auto.
    + destruct (py_int vout) as [o|e] eqn:Ho; [|destruct e; discriminate].
      simpl in H. injection H as <- <-. exists prev_out, o. auto.
    + injection H as <- <-. exists prev_out, prev_out. auto.
  - apply String.eqb_neq in E. right.
    unfold layer_type in *.
    destruct (dict_get l "type") as [t|] eqn:Ht; [|congruence].
    injection H as <- <-. exists t. auto.
Qed.

Lemma sanitize_layers_inferred (repr : pyval -> string) :
  forall layers acc prev_out out,
    sanitize_layers repr layers acc prev_out = Ok out ->
    exists sanitized, out = acc ++ sanitized /\ inferred repr prev_out layers sanitized.
Proof.
  induction layers as [|layer rest IH]; simpl; intros acc prev_out out H.
  - injection H as <-. exists []. split; [now rewrite app_nil_r | constructor].
  - destruct (sanitize_layer repr prev_out layer) as [[s next]|e] eqn:Hs; [|discriminate].
    simpl in H. apply IH in H. destruct H as (sanitized & -> & Hinf).
    exists (s :: sanitized). split; [now rewrite <- app_assoc|].
    apply sanitize_layer_inv in Hs.
    destruct Hs as (l & -> & [(Hlin & i & o & Hi & Ho & -> & ->) | (t & Ht & Hne & -> & ->)]).
    + eapply inferred_linear; eauto.
    + eapply inferred_other; eauto.
Qed.

(** What an accepted payload looks like. *)
Lemma validate_architecture_inv (repr : pyval -> string) (payload spec : pyval) :
  validate_architecture repr payload = Ok spec ->
  exists p layers input_size sanitized,
    payload = PDict p /\
    dict_get p "layers" = Some (PList layers) /\ layers <> [] /\
    py_int (dict_get_default p "input_size" (PInt MNIST_INPUT_SIZE)) = Ok input_size /\
    sanitize_layers repr layers [] input_size = Ok sanitized /\
    spec = architecture_spec input_size sanitized.
Proof.
  destruct payload as [| | | | | |p]; try discriminate.
  unfold validate_architecture.
  set (raw := dict_get_default p "layers" PNone).
  destruct (py_bool (py_or raw (PList []))) eqn:Hb; simpl; [|discriminate].
  assert (Hraw : py_or raw (PList []) = raw /\ py_bool raw = true).
  { unfold py_or in *. destruct (py_bool raw) eqn:E; auto. simpl in Hb. discriminate. }
  destruct Hraw as [-> Htrue].
  destruct (py_int (dict_get_default p "input_size" (PInt MNIST_INPUT_SIZE)))
    as [n|e] eqn:Hn; [|destruct e; discriminate].
  simpl. intros H.
  destruct (py_iter raw) as [items|e] eqn:Hit; [|discriminate].
  simpl in H.
  destruct (sanitize_layers repr items [] n) as [sanitized|e] eqn:Hs; [|discriminate].
  simpl in H. injection H as <-.
  assert (Hlist : exists layers, raw = PList layers).
  { destruct raw as [| | | |s|l|d]; try discriminate.
    - destruct s as [|c s]; [discriminate|]. simpl in Hit. injection Hit as <-.
      simpl in Hs. discriminate.
    - now exists l.
    - destruct d as [|[k v] d]; [discriminate|]. simpl in Hit. injection Hit as <-.
      simpl in Hs. discriminate. }
  destruct Hlist as [layers Hlayers].
  rewrite Hlayers in Hit, Htrue. simpl in Hit. injection Hit as <-.
  exists p, layers, n, sanitized. repeat split; auto.
  - subst raw. unfold dict_get_default in Hlayers.
    destruct (dict_get p "layers"); [now subst | discriminate].
  - intros ->. discriminate.
Qed.

Lemma inferred_length (repr : pyval -> string) (prev_out : Z) (layers sanitized : list pyval) :
  inferred repr prev_out layers sanitized -> List.length sanitized = List.length layers.
Proof. induction 1; simpl; congruence. Qed.

(** C1: for every accepted raw architecture the sanitized layers are
    those of the left-to-right pass that carries [prev_out], started at
    the integer [input_size]: a linear layer takes [in] from its own
    [in] (coerced to an integer) or else from [prev_out], takes [out]
    from its own [out] or else from its resolved [in], and sets
    [prev_out] to its [out]; any other layer becomes [{type}] with the
    type lower-cased and leaves [prev_out] alone.  The example of the
    specification yields [{linear,784,128}, {relu}, {linear,128,10},
    {softmax}]. *)
Theorem dimension_inference :
  (forall repr payload spec,
     validate_architecture repr payload = Ok spec ->
     exists p layers input_size sanitized,
       payload = PDict p /\
       dict_get p "layers" = Some (PList layers) /\
       py_int (dict_get_default p "input_size" (PInt MNIST_INPUT_SIZE)) = Ok input_size /\
       spec = architecture_spec input_size sanitized /\
       inferred repr input_size layers sanitized) /\
  (forall repr,
     validate_architecture repr example_architecture
     = Ok (architecture_spec 784 example_sanitized)).
Proof.
  split; [|reflexivity].
  intros repr payload spec H.
  apply validate_architecture_inv in H.
  destruct H as (p & layers & n & sanitized & -> & Hl & _ & Hn & Hs & ->).
  apply sanitize_layers_inferred in Hs. destruct Hs as (out & -> & Hinf).
  exists p, layers, n, out. simpl. auto.
Qed.

Lemma dimension_inference_example :
  exists p layers input_size sanitized,
    example_architecture = PDict p /\
    dict_get p "layers" = Some (PList layers) /\
    py_int (dict_get_default p "input_size" (PInt MNIST_INPUT_SIZE)) = Ok input_size /\
    architecture_spec 784 example_sanitized = architecture_spec input_size sanitized /\
    inferred repr_unused input_size layers sanitized.
Proof.
  apply (proj1 dimension_inference repr_unused example_architecture).
  reflexivity.
Defined.

(** C5, as stated, fails: an [input_size] of 0 is accepted and returned. *)
Lemma input_size_zero_accepted :
  validate_architecture repr_unused
    (PDict [("input_size", PInt 0); ("layers", PList [PDict [("type", PStr "relu")]])])
  = Ok (architecture_spec 0 [PDict [("type", PStr "relu")]])
  /\ ~ architecture_invariant (architecture_spec 0 [PDict [("type", PStr "relu")]]).
Proof.
  split; [reflexivity|].
  intros (n & ls & Heq & _ & Hn).
  unfold architecture_spec in Heq. injection Heq as <- _. lia.
Qed.

(** C5, amended: every returned ArchitectureSpec has a non-empty
    [layers] sequence, one sanitized entry per raw layer, and an integer
    [input_size], which is the supplied value coerced by [int()] or 784
    when none is supplied; it may be less than 1. *)
Theorem returned_architecture_shape (repr : pyval -> string) (payload spec : pyval) :
  validate_architecture repr payload = Ok spec ->
  exists p raw_layers input_size layers,
    payload = PDict p /\
    dict_get p "layers" = Some (PList raw_layers) /\
    spec = architecture_spec input_size layers /\
    layers <> [] /\
    List.length layers = List.length raw_layers /\
    py_int (dict_get_default p "input_size" (PInt MNIST_INPUT_SIZE)) = Ok input_size.
Proof.
  intros H. apply validate_architecture_inv in H.
  destruct H as (p & layers & n & sanitized & -> & Hl & Hne & Hn & Hs & ->).
  apply sanitize_layers_inferred in Hs. destruct Hs as (out & -> & Hinf).
  apply inferred_length in Hinf.
  exists p, layers, n, out. simpl. repeat split; auto.
  intros ->. destruct layers; [congruence | discriminate].
Qed.

Lemma returned_architecture_shape_example :
  exists p raw_layers input_size layers,
    example_architecture = PDict p /\
    dict_get p "layers" = Some (PList raw_layers) /\
    architecture_spec 784 example_sanitized = architecture_spec input_size layers /\
    layers <> [] /\
    List.length layers = List.length raw_layers /\
    py_int (dict_get_default p "input_size" (PInt MNIST_INPUT_SIZE)) = Ok input_size.
Proof.
  apply (returned_architecture_shape repr_unused example_architecture).
  reflexivity.
Defined.

(** C4: a truthy value of [layers] that is not iterable (a number or
    [True]) escapes the validator as a [TypeError], raised by the [for]
    loop, where the claim promises the validator's own error.  So it is
    for [{"layers": 5}], and for every payload with such a [layers] and
    a coercible [input_size]. *)
Theorem layers_not_iterable (repr : pyval -> string) :
  validate_architecture repr (PDict [("layers", PInt 5)]) = Raise TypeError
  /\ forall p v,
       dict_get p "layers" = Some v ->
       py_bool v = true ->
       py_iter v = Raise TypeError ->
       is_ok (py_int (dict_get_default p "input_size" (PInt MNIST_INPUT_SIZE))) = true ->
       validate_architecture repr (PDict p) = Raise TypeError.
Proof.
  split; [reflexivity|].
  intros p v Hv Htrue Hiter Hsize.
  assert (Hl : dict_get_default p "layers" PNone = v)
    by (unfold dict_get_default; now rewrite Hv).
  unfold validate_architecture. rewrite Hl.
  unfold py_or. rewrite Htrue. rewrite Htrue. simpl.
  destruct (py_int (dict_get_default p "input_size" (PInt MNIST_INPUT_SIZE)));
    [|discriminate].
  simpl. rewrite Hiter. reflexivity.
Qed.

Lemma layers_not_iterable_example :
  validate_architecture repr_unused
    (PDict [("input_size", PStr "10"); ("layers", PBool true)])
  = Raise TypeError.
Proof.
  apply (proj2 (layers_not_iterable repr_unused)
           [("input_size", PStr "10"); ("layers", PBool true)] (PBool true));
    reflexivity.
Defined.

(** An infinite [input_size] is not caught either: [int()] raises
    [OverflowError], which the [except] clause does not list. *)
Lemma infinite_input_size_overflows (repr : pyval -> string) :
  validate_architecture repr
    (PDict [("input_size", PFloat (S754_infinity false));
            ("layers", PList [PDict [("type", PStr "relu")]])])
  = Raise OverflowError.
Proof. reflexivity. Qed.

Lemma sanitize_layers_congr (repr : pyval -> string) (x y : pyval) :
  (forall prev_out, sanitize_layer repr prev_out x = sanitize_layer repr prev_out y) ->
  forall before after acc prev_out,
    sanitize_layers repr (before ++ x :: after) acc prev_out
    = sanitize_layers repr (before ++ y :: after) acc prev_out.
Proof.
  intros Hxy. induction before as [|b before IH]; simpl; intros after acc prev_out.
  - now rewrite Hxy.
  - destruct (sanitize_layer repr prev_out b) as [[s next]|e]; simpl; auto.
Qed.

(** ** The hyperparameter validator *)

(** C7: [validate_hyperparams(None)] and [validate_hyperparams({})]
    return the same record, which is the Defaults record, optimizer
    sub-record included. *)
Theorem defaults_exact (repr : pyval -> string) :
  validate_hyperparams repr PNone = validate_hyperparams repr (PDict [])
  /\ validate_hyperparams repr (PDict []) = Ok (PDict DEFAULT_HYPERPARAMS).
Proof. split; reflexivity. Qed.

Lemma dict_get_remove_other (k k' : string) (d : dict) :
  k <> k' -> dict_get (dict_remove k d) k' = dict_get d k'.
Proof.
  intros Hne. induction d as [|[k0 v0] d IH]; simpl; [reflexivity|].
  destruct (String.eqb k k0) eqn:E; simpl.
  - apply String.eqb_eq in E. subst k0.
    destruct (String.eqb k' k) eqn:E'; [|exact IH].
    apply String.eqb_eq in E'. congruence.
  - now rewrite IH.
Qed.

Lemma dict_get_remove_same (k : string) (d : dict) :
  dict_get (dict_remove k d) k = None.
Proof.
  induction d as [|[k0 v0] d IH]; simpl; [reflexivity|].
  destruct (String.eqb k k0) eqn:E; simpl; [exact IH|]. now rewrite E.
Qed.

(** [int()] and [float()] raise nothing but [TypeError], [ValueError]
    and [OverflowError]. *)
Lemma py_int_cases (v : pyval) :
  (exists n, py_int v = Ok n) \/ rejected (py_int v) \/ py_int v = Raise OverflowError.
Proof.
  unfold rejected.
  destruct v as [|b|z|f|s|l|d]; simpl; eauto.
  - destruct f; simpl; eauto.
  - unfold int_of_string. destruct (scan_sign (strip s)) as [neg body].
    destruct (scan_digits body) as [[|d ds] [|c r]]; eauto.
Qed.

Lemma float_of_Z_cases (n : Z) :
  (exists x, float_of_Z n = Ok x) \/ float_of_Z n = Raise OverflowError.
Proof.
  unfold float_of_Z. destruct (binary_normalize prec emax n 0 false); eauto.
Qed.

Lemma float_of_string_cases (s : string) :
  (exists x, float_of_string s = Ok x) \/ rejected (float_of_string s).
Proof.
  unfold rejected, float_of_string, float_syntax_error.
  destruct (scan_sign (strip s)) as [neg body].
  destruct (String.eqb (lower body) "inf" || String.eqb (lower body) "infinity"); eauto.
  destruct (String.eqb (lower body) "nan"); eauto.
  destruct (scan_digits body) as [ip r1].
  destruct (match r1 with String "."%char r => scan_digits r | _ => ([], r1) end)
    as [fp r2].
  destruct (ip ++ fp) as [|d ds]; eauto.
  destruct r2 as [|c r3]; eauto.
  destruct (Ascii.eqb c "e" || Ascii.eqb c "E"); eauto.
  destruct (scan_sign r3) as [eneg r4].
  destruct (scan_digits r4) as [[|e es] [|c' r']]; eauto.
Qed.

Lemma py_float_cases (v : pyval) :
  (exists x, py_float v = Ok x) \/ rejected (py_float v) \/ py_float v = Raise OverflowError.
Proof.
  destruct v as [|b|z|f|s|l|d]; simpl; unfold rejected; eauto.
  - destruct (float_of_Z_cases (if b then 1 else 0)) as [H|H]; auto.
  - destruct (float_of_Z_cases z) as [H|H]; auto.
  - destruct (float_of_string_cases s) as [H|H]; auto.
Qed.

(** The three ways a strict coercion can go. *)
Lemma strict_coercion_cases {A} (r : outcome A) (msg : string) :
  (exists a, r = Ok a) \/ rejected r \/ r = Raise OverflowError ->
  (exists a, r = Ok a /\ try_except r (Raise (ValueError msg)) = Ok a)
  \/ (rejected r /\ try_except r (Raise (ValueError msg)) = Raise (ValueError msg))
  \/ (r = Raise OverflowError
      /\ try_except r (Raise (ValueError msg)) = Raise OverflowError).
Proof.
  intros [[a ->] | [[-> | [m ->]] | ->]]; simpl; unfold rejected; eauto 6.
Qed.

Lemma rejected_not_ok {A} (r : outcome A) : rejected r -> is_ok r = false.
Proof. intros [-> | [m ->]]; reflexivity. Qed.

(** One strict field: it is absent or coerced and stored, or the call
    fails with the field's message, or an [OverflowError] escapes. *)
Lemma strict_field_cases {A} (coerce : pyval -> outcome A) (wrap : A -> pyval)
    (p : dict) (k msg : string) (d : dict) :
  (forall v, (exists a, coerce v = Ok a) \/ rejected (coerce v)
             \/ coerce v = Raise OverflowError) ->
  let r := match dict_get p k with
           | Some v =>
               n <- try_except (coerce v) (Raise (ValueError msg)) ;;
               Ok (dict_set k (wrap n) d)
           | None => Ok d
           end in
  (exists d', r = Ok d'
              /\ field_ok p k (fun v => is_ok (coerce v)) = true
              /\ forall k', k <> k' -> dict_get d' k' = dict_get d k')
  \/ (r = Raise (ValueError msg)
      /\ field_ok p k (fun v => is_ok (coerce v)) = false
      /\ exists v, dict_get p k = Some v /\ rejected (coerce v))
  \/ (r = Raise OverflowError /\ field_ok p k (fun v => is_ok (coerce v)) = false).
Proof.
  intros Hcases r. subst r. unfold field_ok.
  destruct (dict_get p k) as [v|].
  - destruct (strict_coercion_cases (coerce v) msg (Hcases v))
      as [(n & Hok & Ht) | [(Hrej & Ht) | (Hov & Ht)]]; rewrite Ht; simpl.
    + left. eexists. split; [reflexivity|]. split; [now rewrite Hok|].
      intros k' Hne. now apply dict_get_set_other.
    + right. left. split; [reflexivity|]. split; [now apply rejected_not_ok|]. eauto.
    + right. right. split; [reflexivity|]. now rewrite Hov.
  - left. eexists. eauto.
Qed.

Lemma seed_field_cases (p d : dict) :
  let msg := "`hyperparams.seed` must be integer or null." in
  let ok := fun v => match v with PNone => true | _ => is_ok (py_int v) end in
  let r := match dict_get p "seed" with
           | Some PNone => Ok (dict_set "seed" PNone d)
           | Some seed =>
               n <- try_except (py_int seed) (Raise (ValueError msg)) ;;
               Ok (dict_set "seed" (PInt n) d)
           | None => Ok d
           end in
  (exists d', r = Ok d'
              /\ field_ok p "seed" ok = true
              /\ forall k', "seed" <> k' -> dict_get d' k' = dict_get d k')
  \/ (r = Raise (ValueError msg)
      /\ field_ok p "seed" ok = false
      /\ exists v, dict_get p "seed" = Some v /\ v <> PNone /\ rejected (py_int v))
  \/ (r = Raise OverflowError /\ field_ok p "seed" ok = false).
Proof.
  intros msg ok r. subst r. unfold field_ok.
  destruct (dict_get p "seed") as [v|].
  - assert (Hv : v = PNone \/ v <> PNone) by (destruct v; auto; right; discriminate).
    destruct Hv as [-> | Hv].
    + left. eexists. split; [reflexivity|]. split; [reflexivity|].
      intros k' Hne. now apply dict_get_set_other.
    + assert (Hr : match v with
                   | PNone => Ok (dict_set "seed" PNone d)
                   | _ => n <- try_except (py_int v) (Raise (ValueError msg)) ;;
                          Ok (dict_set "seed" (PInt n) d)
                   end
                   = (n <- try_except (py_int v) (Raise (ValueError msg)) ;;
                      Ok (dict_set "seed" (PInt n) d))) by (destruct v; try reflexivity; exfalso; apply Hv; reflexivity).
      assert (Hk : ok v = is_ok (py_int v)) by (destruct v; try reflexivity; exfalso; apply Hv; reflexivity).
      subst msg. cbv zeta in *. rewrite Hr, Hk. clear Hr Hk.
      destruct (strict_coercion_cases (py_int v)
                  "`hyperparams.seed` must be integer or null." (py_int_cases v))
        as [(n & Hok & Ht) | [(Hrej & Ht) | (Hov & Ht)]]; rewrite Ht; simpl.
      * left. eexists. split; [reflexivity|]. split; [now rewrite Hok|].
        intros k' Hne. now apply dict_get_set_other.
      * right. left. split; [reflexivity|]. split; [now apply rejected_not_ok|]. eauto.
      * right. right. split; [reflexivity|]. now rewrite Hov.
  - left. eexists. eauto.
Qed.

(** Closes the two failing cases of a stage of [coerce_fields]. *)
Ltac stage_failed :=
  first [ right; left; eexists; split; [reflexivity|]; split; [|reflexivity];
          econstructor; eauto
        | right; right; auto ].

Lemma coerce_fields_cases (repr : pyval -> string) (p d : dict) :
  (exists res, coerce_fields repr p d = Ok res /\ strict_fields_ok p = true
               /\ dict_get res "optimizer" = dict_get d "optimizer")
  \/ (exists msg, coerce_fields repr p d = Raise (ValueError msg)
                  /\ strict_failure p msg /\ strict_fields_ok p = false)
  \/ (coerce_fields repr p d = Raise OverflowError /\ strict_fields_ok p = false).
Proof.
  unfold coerce_fields, strict_fields_ok.
  destruct (strict_field_cases py_int PInt p "epochs"
              "`hyperparams.epochs` must be an integer." d py_int_cases)
    as [(d1 & -> & -> & K1) | [(-> & -> & v & Hv & Hr) | (-> & ->)]]; simpl;
    [ | stage_failed .. ].
  destruct (strict_field_cases py_int PInt p "batch_size"
              "`hyperparams.batch_size` must be an integer." d1 py_int_cases)
    as [(d2 & -> & -> & K2) | [(-> & -> & v & Hv & Hr) | (-> & ->)]]; simpl;
    [ | stage_failed .. ].
  destruct (strict_field_cases py_float PFloat p "train_split"
              "`hyperparams.train_split` must be numeric." d2 py_float_cases)
    as [(d3 & -> & -> & K3) | [(-> & -> & v & Hv & Hr) | (-> & ->)]]; simpl;
    [ | stage_failed .. ].
  set (d4 := match dict_get p "shuffle" with
             | Some v => dict_set "shuffle" (PBool (py_bool v)) d3
             | None => d3
             end).
  set (d5 := match dict_get p "loss" with
             | Some v => dict_set "loss" (PStr (py_str repr v)) d4
             | None => d4
             end).
  assert (K5 : dict_get d5 "optimizer" = dict_get d "optimizer").
  { subst d5 d4.
    destruct (dict_get p "loss"); destruct (dict_get p "shuffle");
      rewrite ?dict_get_set_other by discriminate;
      rewrite K3, K2, K1 by discriminate; reflexivity. }
  clearbody d5. clear d4.
  destruct (seed_field_cases p d5)
    as [(d6 & -> & -> & K6) | [(-> & -> & v & Hv & Hn & Hr) | (-> & ->)]]; simpl;
    [ | stage_failed .. ].
  destruct (strict_field_cases py_int PInt p "max_samples"
              "`hyperparams.max_samples` must be an integer." d6 py_int_cases)
    as [(d7 & -> & -> & K7) | [(-> & -> & v & Hv & Hr) | (-> & ->)]]; simpl;
    [ | stage_failed .. ].
  left. eexists. split; [reflexivity|]. split; [reflexivity|].
  rewrite K7, K6 by discriminate. exact K5.
Qed.

Lemma merge_items (items : dict) :
  forall m,
    fold_left (fun acc kv => m <- acc ;; py_setitem m (fst kv) (snd kv)) items (Ok (PDict m))
    = Ok (PDict (fold_left (fun m kv => dict_set (fst kv) (snd kv) m) items m)).
Proof. induction items as [|[k v] items IH]; simpl; intros m; auto. Qed.

Lemma merge_optimizer_cases (p d : dict) :
  (exists optimizer m,
     dict_get p "optimizer" = Some (PDict optimizer)
     /\ merge_optimizer p d = Ok (dict_set "optimizer" (PDict m) d))
  \/ (isinstance_dict (dict_get_default p "optimizer" PNone) = false
      /\ merge_optimizer p d = Ok d).
Proof.
  unfold merge_optimizer, dict_get_default.
  destruct (dict_get p "optimizer") as [v|]; [|now right].
  destruct v; try (now right).
  left. simpl. rewrite merge_items. simpl. eauto.
Qed.

(** One tolerant field: the key is left, coerced or reset to the
    fallback; nothing but an [OverflowError] escapes. *)
Lemma coerce_float_key_cases (o : dict) (key : string) (fallback : spec_float) :
  (exists o', coerce_float_key (PDict o) key (Ok fallback) = Ok (PDict o')
              /\ forall k', key <> k' -> dict_get o' k' = dict_get o k')
  \/ coerce_float_key (PDict o) key (Ok fallback) = Raise OverflowError.
Proof.
  unfold coerce_float_key. simpl. unfold dict_mem, dict_item.
  destruct (dict_get o key) as [v|]; simpl; [|eauto].
  destruct (py_float_cases v) as [[x ->] | [[-> | [m ->]] | ->]]; simpl; auto;
    left; eexists; (split; [reflexivity|]); intros k' Hne;
    now apply dict_get_set_other.
Qed.

Lemma normalize_optimizer_cases (repr : pyval -> string) (o : dict) :
  (exists o', normalize_optimizer repr (PDict o) = Ok (PDict o'))
  \/ normalize_optimizer repr (PDict o) = Raise OverflowError.
Proof.
  unfold normalize_optimizer. simpl.
  set (o1 := dict_set "type" _ o).
  destruct (coerce_float_key_cases o1 "lr" float_0_1) as [(o2 & -> & K2) | ->];
    simpl; [|auto].
  unfold dict_item. rewrite K2 by discriminate.
  subst o1. rewrite dict_get_set_same. simpl.
  destruct (String.eqb _ "sgd").
  - destruct (coerce_float_key_cases o2 "momentum" float_0_0) as [(o3 & -> & _) | ->]; eauto.
  - destruct (String.eqb _ "adam"); [|eauto].
    destruct (coerce_float_key_cases o2 "beta1" float_0_9) as [(o3 & -> & _) | ->];
      simpl; [|auto].
    destruct (coerce_float_key_cases o3 "beta2" float_0_999) as [(o4 & -> & _) | ->];
      simpl; [|auto].
    destruct (coerce_float_key_cases o4 "eps" float_1e_8) as [(o5 & -> & _) | ->];
      simpl; eauto.
Qed.

Lemma defaults_copied : json_roundtrip_dict DEFAULT_HYPERPARAMS = DEFAULT_HYPERPARAMS.
Proof. reflexivity. Qed.

(** The ways a call on a dict can end. *)
Lemma validate_hyperparams_cases (repr : pyval -> string) (p : dict) :
  (exists spec, validate_hyperparams repr (PDict p) = Ok spec /\ strict_fields_ok p = true)
  \/ (exists msg, validate_hyperparams repr (PDict p) = Raise (ValueError msg)
                  /\ strict_failure p msg /\ strict_fields_ok p = false)
  \/ validate_hyperparams repr (PDict p) = Raise OverflowError.
Proof.
  unfold validate_hyperparams. rewrite defaults_copied.
  destruct (coerce_fields_cases repr p DEFAULT_HYPERPARAMS)
    as [(res & -> & Hok & Hopt) | [(msg & -> & Hf & Hno) | (-> & _)]]; simpl;
    [ | right; left; eauto | auto ].
  assert (Hdict : exists res' o, merge_optimizer p res = Ok res'
                                 /\ dict_get res' "optimizer" = Some (PDict o)).
  { destruct (merge_optimizer_cases p res) as [(opt & m & _ & ->) | (_ & ->)].
    - eexists. exists m. split; [reflexivity|]. apply dict_get_set_same.
    - exists res, DEFAULT_OPTIMIZER. split; [reflexivity|]. rewrite Hopt. reflexivity. }
  destruct Hdict as (res' & o & -> & Ho). simpl. unfold dict_item. rewrite Ho. simpl.
  destruct (normalize_optimizer_cases repr o) as [(o' & ->) | ->]; simpl; eauto.
Qed.

Lemma strict_failure_not_ok (p : dict) (msg : string) :
  strict_failure p msg -> strict_fields_ok p = false.
Proof.
  unfold strict_fields_ok, field_ok.
  destruct 1 as [v Hv Hr | v Hv Hr | v Hv Hr | v Hv Hn Hr | v Hv Hr]; rewrite Hv.
  - now rewrite (rejected_not_ok _ Hr).
  - rewrite (rejected_not_ok _ Hr). now rewrite !andb_false_r.
  - rewrite (rejected_not_ok _ Hr). now rewrite !andb_false_r.
  - replace (match v with PNone => true | _ => is_ok (py_int v) end) with false.
    + now rewrite !andb_false_r.
    + rewrite <- (rejected_not_ok _ Hr). destruct v; congruence.
  - rewrite (rejected_not_ok _ Hr). now rewrite !andb_false_r.
Qed.

(** C3, as stated, fails: a mapping whose [epochs] is not coercible is
    refused. *)
Lemma mapping_refused :
  isinstance_dict (PDict [("epochs", PStr "not-a-number")]) = true
  /\ validate_hyperparams repr_unused (PDict [("epochs", PStr "not-a-number")])
     = Raise (ValueError "`hyperparams.epochs` must be an integer.").
Proof. split; reflexivity. Qed.

(** C3, amended: [validate_hyperparams] raises its error when the
    argument is neither null nor a mapping, and for a null or mapping
    argument only when a strict top-level field ([epochs], [batch_size],
    [train_split], [seed], [max_samples]) is present and rejected by its
    coercion, with the message naming such a field; a payload with a
    rejected strict field never validates. *)
Theorem hyperparams_failures (repr : pyval -> string) (payload : pyval) :
  (payload <> PNone -> isinstance_dict payload = false ->
   validate_hyperparams repr payload = Raise (ValueError "`hyperparams` must be an object."))
  /\ (forall p,
        payload = PDict p \/ (payload = PNone /\ p = []) ->
        forall e,
          validate_hyperparams repr payload = Raise e ->
          e = OverflowError \/ exists msg, e = ValueError msg /\ strict_failure p msg)
  /\ (forall p msg,
        payload = PDict p -> strict_failure p msg ->
        is_ok (validate_hyperparams repr payload) = false).
Proof.
  split; [|split].
  - intros Hn Hd. destruct payload; try reflexivity; [congruence | discriminate].
  - intros p Hp e He.
    assert (Hv : validate_hyperparams repr payload = validate_hyperparams repr (PDict p)).
    { destruct Hp as [-> | [-> ->]]; reflexivity. }
    rewrite Hv in He.
    destruct (validate_hyperparams_cases repr p)
      as [(spec & H & _) | [(msg & H & Hf & _) | H]]; rewrite H in He.
    + discriminate.
    + injection He as <-. eauto.
    + injection He as <-. auto.
  - intros p msg -> Hf. apply strict_failure_not_ok in Hf.
    destruct (validate_hyperparams_cases repr p)
      as [(spec & H & Hok) | [(m & H & _ & _) | H]]; rewrite H; [congruence | | ];
      reflexivity.
Qed.

Lemma hyperparams_failures_example :
  ValueError "`hyperparams.epochs` must be an integer." = OverflowError
  \/ exists msg,
       ValueError "`hyperparams.epochs` must be an integer." = ValueError msg
       /\ strict_failure [("epochs", PStr "not-a-number")] msg.
Proof.
  apply (proj1 (proj2 (hyperparams_failures repr_unused
                         (PDict [("epochs", PStr "not-a-number")])))
           [("epochs", PStr "not-a-number")]).
  - left. reflexivity.
  - reflexivity.
Defined.

(** The [OverflowError] of the statement above does occur: an integer
    [lr] too large for a float escapes the tolerant branch. *)
Lemma huge_lr_overflows (repr : pyval -> string) :
  validate_hyperparams repr (PDict [("optimizer", PDict [("lr", PInt (10 ^ 400))])])
  = Raise OverflowError.
Proof. vm_compute. reflexivity. Qed.

(** C2: the strict/tolerant asymmetry.  With the optimizer sub-object
    [{"type": "adam", "lr": "not-a-number"}] and strict fields that
    coerce, the call returns and the optimizer's [lr] is the default
    [lr], 0.1; with a top-level [epochs] of ["not-a-number"] the call
    raises the error that names [epochs]. *)
Theorem strict_tolerant_asymmetry (repr : pyval -> string) :
  (forall p,
     dict_get p "optimizer" = Some adam_bad_lr ->
     strict_fields_ok p = true ->
     exists spec opt,
       validate_hyperparams repr (PDict p) = Ok spec
       /\ py_getitem spec "optimizer" = Ok opt
       /\ py_getitem opt "lr" = Ok (PFloat float_0_1)
       /\ dict_get DEFAULT_OPTIMIZER "lr" = Some (PFloat float_0_1))
  /\ (forall p,
        dict_get p "epochs" = Some (PStr "not-a-number") ->
        validate_hyperparams repr (PDict p)
        = Raise (ValueError "`hyperparams.epochs` must be an integer.")).
Proof.
  split.
  - intros p Hopt Hok. unfold validate_hyperparams. rewrite defaults_copied.
    destruct (coerce_fields_cases repr p DEFAULT_HYPERPARAMS)
      as [(res & -> & _ & _) | [(msg & _ & _ & Hno) | (_ & Hno)]]; [|congruence..].
    simpl. unfold merge_optimizer, dict_get_default. rewrite Hopt. simpl.
    unfold dict_item. rewrite dict_get_set_same. simpl.
    eexists. eexists. split; [reflexivity|]. simpl. unfold dict_item.
    rewrite dict_get_set_same. split; [reflexivity|]. split; reflexivity.
  - intros p He. unfold validate_hyperparams, coerce_fields. rewrite He. reflexivity.
Qed.

Lemma strict_tolerant_asymmetry_example :
  (exists spec opt,
     validate_hyperparams repr_unused (PDict [("optimizer", adam_bad_lr)]) = Ok spec
     /\ py_getitem spec "optimizer" = Ok opt
     /\ py_getitem opt "lr" = Ok (PFloat float_0_1)
     /\ dict_get DEFAULT_OPTIMIZER "lr" = Some (PFloat float_0_1))
  /\ validate_hyperparams repr_unused (PDict [("epochs", PStr "not-a-number")])
     = Raise (ValueError "`hyperparams.epochs` must be an integer.").
Proof.
  split.
  - apply (proj1 (strict_tolerant_asymmetry repr_unused) [("optimizer", adam_bad_lr)]);
      reflexivity.
  - apply (proj2 (strict_tolerant_asymmetry repr_unused) [("epochs", PStr "not-a-number")]).
    reflexivity.
Defined.

Lemma coerce_fields_remove_optimizer (repr : pyval -> string) (p d : dict) :
  coerce_fields repr (dict_remove "optimizer" p) d = coerce_fields repr p d.
Proof.
  unfold coerce_fields.
  rewrite !dict_get_remove_other by discriminate. reflexivity.
Qed.

(** C10: an [optimizer] value that is not a mapping is silently
    ignored.  The call behaves as on the payload without the key; it
    returns whenever the strict top-level fields coerce; and the
    optimizer of every result is the default optimizer record. *)
Theorem non_mapping_optimizer_ignored (repr : pyval -> string) (p : dict) (v : pyval) :
  dict_get p "optimizer" = Some v ->
  isinstance_dict v = false ->
  validate_hyperparams repr (PDict p)
  = validate_hyperparams repr (PDict (dict_remove "optimizer" p))
  /\ (strict_fields_ok p = true -> is_ok (validate_hyperparams repr (PDict p)) = true)
  /\ (forall spec,
        validate_hyperparams repr (PDict p) = Ok spec ->
        py_getitem spec "optimizer" = Ok (PDict DEFAULT_OPTIMIZER)).
Proof.
  intros Hv Hnd.
  assert (Hm : forall d, merge_optimizer p d = Ok d).
  { intros d. unfold merge_optimizer, dict_get_default. rewrite Hv.
    destruct v; try reflexivity. discriminate. }
  assert (Hm' : forall d, merge_optimizer (dict_remove "optimizer" p) d = Ok d).
  { intros d. unfold merge_optimizer, dict_get_default.
    now rewrite dict_get_remove_same. }
  assert (Hrun : validate_hyperparams repr (PDict p)
                 = (result <- coerce_fields repr p DEFAULT_HYPERPARAMS ;;
                    Ok (PDict result))).
  { unfold validate_hyperparams. rewrite defaults_copied.
    destruct (coerce_fields_cases repr p DEFAULT_HYPERPARAMS)
      as [(res & -> & _ & Hopt) | [(msg & -> & _ & _) | (-> & _)]]; simpl; auto.
    rewrite Hm. simpl. unfold dict_item. rewrite Hopt. simpl.
    now rewrite dict_set_get_id by exact Hopt. }
  split; [|split].
  - unfold validate_hyperparams. rewrite coerce_fields_remove_optimizer.
    destruct (coerce_fields repr p (json_roundtrip_dict DEFAULT_HYPERPARAMS)); simpl; auto.
    now rewrite Hm, Hm'.
  - intros Hok. rewrite Hrun.
    destruct (coerce_fields_cases repr p DEFAULT_HYPERPARAMS)
      as [(res & -> & _ & _) | [(msg & _ & _ & Hno) | (_ & Hno)]]; [reflexivity|congruence..].
  - intros spec. rewrite Hrun.
    destruct (coerce_fields_cases repr p DEFAULT_HYPERPARAMS)
      as [(res & -> & _ & Hopt) | [(msg & -> & _ & _) | (-> & _)]]; simpl; try discriminate.
    intros [= <-]. simpl. unfold dict_item. now rewrite Hopt.
Qed.

Lemma non_mapping_optimizer_ignored_example :
  validate_hyperparams repr_unused (PDict [("optimizer", PStr "adam"); ("epochs", PInt 3)])
  = validate_hyperparams repr_unused
      (PDict (dict_remove "optimizer" [("optimizer", PStr "adam"); ("epochs", PInt 3)]))
  /\ (strict_fields_ok [("optimizer", PStr "adam"); ("epochs", PInt 3)] = true ->
      is_ok (validate_hyperparams repr_unused
               (PDict [("optimizer", PStr "adam"); ("epochs", PInt 3)])) = true)
  /\ (forall spec,
        validate_hyperparams repr_unused
          (PDict [("optimizer", PStr "adam"); ("epochs", PInt 3)]) = Ok spec ->
        py_getitem spec "optimizer" = Ok (PDict DEFAULT_OPTIMIZER)).
Proof.
  apply (non_mapping_optimizer_ignored repr_unused
           [("optimizer", PStr "adam"); ("epochs", PInt 3)] (PStr "adam"));
    reflexivity.
Defined.

(** ** The data preparer *)

Lemma default_max_samples :
  dict_get DEFAULT_HYPERPARAMS "max_samples" = Some (PInt DEFAULT_MAX_SAMPLES).
Proof. reflexivity. Qed.

(** Under [max(1, _)], truncation towards zero and the floor agree. *)
Lemma max1_int_floor (x : spec_float) (k fl : Z) :
  int_of_float x = Ok k -> float_floor x = Some fl -> Z.max 1 k = Z.max 1 fl.
Proof.
  destruct x as [s|s| |s m e]; simpl; try discriminate.
  - intros [= <-] [= <-]. reflexivity.
  - intros [= <-] [= <-].
    destruct e as [|p|p].
    + rewrite Z.shiftl_0_r, Z.mul_1_r. now destruct s.
    + rewrite Z.shiftl_mul_pow2 by lia. destruct s; [|reflexivity].
      change (Z.neg m) with (- Z.pos m). now rewrite Z.mul_opp_l.
    + rewrite Z.shiftr_div_pow2 by lia. destruct s; [|reflexivity].
      assert (Hp : 0 < 2 ^ Z.pos p) by (apply Z.pow_pos_nonneg; lia).
      assert (H1 : 0 <= Z.pos m / 2 ^ Z.pos p) by (apply Z.div_pos; lia).
      assert (H2 : Z.neg m / 2 ^ Z.pos p < 0) by (apply Z.div_lt_upper_bound; lia).
      lia.
Qed.

Lemma total_samples_min (batch_size : Z) (max_samples : option Z) :
  2 <= total_samples batch_size max_samples.
Proof. unfold total_samples. lia. Qed.

Lemma Toy_draw_length (n : nat) : forall g, List.length (fst (Toy.draw n g)) = n.
Proof.
  induction n as [|n IH]; simpl; intros g; [reflexivity|].
  specialize (IH (Toy.step g)). destruct (Toy.draw n (Toy.step g)). simpl in *. congruence.
Qed.

Lemma Toy_rand_rows : rand_rows Toy.torch.
Proof.
  intros n m g Hn. simpl. rewrite Toy_draw_length. now apply Z2Nat.id.
Qed.

Lemma Toy_seed_resets : seed_resets Toy.torch.
Proof. intros g g' seed. reflexivity. Qed.

Section DataPreparer.

Context {torch : TorchApi}.

Lemma len_synthetic_dataset (w : World) (size input_size : Z) (seed : option Z) :
  rand_rows torch -> 0 <= size ->
  len (fst (synthetic_dataset w size input_size seed)) = size.
Proof.
  intros Hrows Hsize. unfold synthetic_dataset, len.
  destruct (Generator w) as [g w'].
  specialize (Hrows size input_size (seeded g seed) Hsize).
  destruct (rand size input_size (seeded g seed)) as [data g'].
  destruct (randint 0 10 size g') as [labels g'']. exact Hrows.
Qed.

(** C6: the dataset has [total] samples, where [total] is the larger of
    [max_samples or 4096] and [batch_size * 2], raised to at least 2
    ([None] and [0] are the falsy values of [max_samples]).  Whenever
    the product [total * train_split] is a finite float, the split
    succeeds with [train_len = max(1, floor(total * train_split))]
    lowered to [total - 1] when it reaches [total], and
    [val_len = max(1, total - train_len)]; the two lengths are at
    least 1, add up to [total], and are the lengths handed to
    [random_split].  When the product is infinite or not a number,
    [int()] raises and so does the call. *)
Theorem split_sizes (w : World) (batch_size : Z) (train_split : spec_float)
    (shuffle : bool) (max_samples seed : option Z) :
  rand_rows torch ->
  let total := total_samples batch_size max_samples in
  let dataset := fst (synthetic_dataset w total MNIST_INPUT_SIZE seed) in
  total = Z.max 2 (Z.max match max_samples with
                         | Some n => if n =? 0 then 4096 else n
                         | None => 4096
                         end
                     (batch_size * 2))
  /\ dict_get DEFAULT_HYPERPARAMS "max_samples" = Some (PInt 4096)
  /\ 2 <= total
  /\ batch_size * 2 <= total
  /\ len dataset = total
  /\ (forall x fl,
        mul_int_float total train_split = Ok x ->
        float_floor x = Some fl ->
        exists train_len val_len,
          split_lengths (len dataset) train_split = Ok (train_len, val_len)
          /\ train_len = (if total <=? Z.max 1 fl then total - 1 else Z.max 1 fl)
          /\ val_len = Z.max 1 (total - train_len)
          /\ train_len + val_len = total
          /\ 1 <= train_len /\ 1 <= val_len
          /\ forall g w',
               Generator (snd (synthetic_dataset w total MNIST_INPUT_SIZE seed)) = (g, w') ->
               fst (prepare_dataloaders w batch_size train_split shuffle max_samples seed)
               = (' (train_dataset, val_dataset) <-
                    fst (random_split dataset [train_len; val_len] (seeded g seed)) ;;
                  train_loader <- DataLoader train_dataset batch_size shuffle ;;
                  val_loader <- DataLoader val_dataset batch_size false ;;
                  Ok (train_loader, val_loader,
                      snd (random_split dataset [train_len; val_len] (seeded g seed)))))
  /\ (forall x,
        mul_int_float total train_split = Ok x ->
        float_floor x = None ->
        exists e,
          int_of_float x = Raise e
          /\ split_lengths (len dataset) train_split = Raise e
          /\ fst (prepare_dataloaders w batch_size train_split shuffle max_samples seed)
             = Raise e).
Proof.
  intros Hrows total dataset.
  pose proof (total_samples_min batch_size max_samples) as Hmin. fold total in Hmin.
  assert (Hlen : len dataset = total).
  { subst dataset. apply len_synthetic_dataset; [exact Hrows | lia]. }
  assert (Htotal : total = Z.max 2 (Z.max match max_samples with
                                           | Some n => if n =? 0 then 4096 else n
                                           | None => 4096
                                           end
                                      (batch_size * 2))).
  { subst total. unfold total_samples, max_samples_or_default, DEFAULT_MAX_SAMPLES.
    reflexivity. }
  split; [exact Htotal|]. split; [reflexivity|]. split; [exact Hmin|].
  split; [rewrite Htotal; lia|]. split; [exact Hlen|]. split.
  - intros x fl Hmul Hfl.
    assert (Hfin : exists k, int_of_float x = Ok k).
    { destruct x; simpl in *; try discriminate; eauto. }
    destruct Hfin as [k Hk].
    pose proof (max1_int_floor x k fl Hk Hfl) as Hmax.
    set (train_len := if total <=? Z.max 1 fl then total - 1 else Z.max 1 fl).
    assert (Hsplit : split_lengths total train_split
                     = Ok (train_len, Z.max 1 (total - train_len))).
    { unfold split_lengths. rewrite Hmul. simpl. rewrite Hk. simpl.
      subst train_len. now rewrite Hmax. }
    assert (Htrain : 1 <= train_len < total).
    { subst train_len. destruct (Z.leb_spec total (Z.max 1 fl)); lia. }
    exists train_len, (Z.max 1 (total - train_len)).
    rewrite Hlen.
    repeat split; try reflexivity; try assumption; try lia.
    intros g w' Hg. unfold prepare_dataloaders. fold total.
    subst dataset.
    destruct (synthetic_dataset w total MNIST_INPUT_SIZE seed) as [ds w1] eqn:Hds.
    simpl in *. rewrite Hlen, Hsplit, Hg.
    destruct (random_split ds [train_len; Z.max 1 (total - train_len)] (seeded g seed))
      as [split g']. reflexivity.
  - intros x Hmul Hfl.
    assert (Hraise : exists e, int_of_float x = Raise e).
    { destruct x; simpl in *; try discriminate; eauto. }
    destruct Hraise as [e He]. exists e. split; [exact He|].
    assert (Hsplit : split_lengths total train_split = Raise e).
    { unfold split_lengths. rewrite Hmul. simpl. now rewrite He. }
    rewrite Hlen. split; [exact Hsplit|].
    unfold prepare_dataloaders. fold total. subst dataset.
    destruct (synthetic_dataset w total MNIST_INPUT_SIZE seed) as [ds w1] eqn:Hds.
    simpl in *. rewrite Hlen, Hsplit. reflexivity.
Qed.

(** C8: with a non-null seed the preparer is deterministic.  Two calls
    with the same arguments, made in any two states of the surroundings,
    synthesize the same dataset and return the same loaders over the
    same split with the same generator state, hence the same batches. *)
Theorem seeded_runs_agree (w1 w2 : World) (batch_size : Z) (train_split : spec_float)
    (shuffle : bool) (max_samples : option Z) (seed : Z) :
  seed_resets torch ->
  fst (synthetic_dataset w1 (total_samples batch_size max_samples)
         MNIST_INPUT_SIZE (Some seed))
  = fst (synthetic_dataset w2 (total_samples batch_size max_samples)
           MNIST_INPUT_SIZE (Some seed))
  /\ fst (prepare_dataloaders w1 batch_size train_split shuffle max_samples (Some seed))
     = fst (prepare_dataloaders w2 batch_size train_split shuffle max_samples (Some seed))
  /\ first_epoch
       (fst (prepare_dataloaders w1 batch_size train_split shuffle max_samples (Some seed)))
     = first_epoch
         (fst (prepare_dataloaders w2 batch_size train_split shuffle max_samples (Some seed))).
Proof.
  intros Hseed.
  assert (Hds : forall size,
             fst (synthetic_dataset w1 size MNIST_INPUT_SIZE (Some seed))
             = fst (synthetic_dataset w2 size MNIST_INPUT_SIZE (Some seed))).
  { intros size. unfold synthetic_dataset.
    destruct (Generator w1) as [g1 w1'], (Generator w2) as [g2 w2']. simpl.
    rewrite (Hseed g1 g2).
    destruct (rand size MNIST_INPUT_SIZE (manual_seed g2 seed)) as [data g].
    destruct (randint 0 10 size g) as [labels g']. reflexivity. }
  assert (Hrun : fst (prepare_dataloaders w1 batch_size train_split shuffle max_samples
                        (Some seed))
                 = fst (prepare_dataloaders w2 batch_size train_split shuffle max_samples
                          (Some seed))).
  { unfold prepare_dataloaders.
    specialize (Hds (total_samples batch_size max_samples)).
    destruct (synthetic_dataset w1 _ _ _) as [ds1 w1'].
    destruct (synthetic_dataset w2 _ _ _) as [ds2 w2'].
    simpl in Hds. subst ds2.
    destruct (split_lengths (len ds1) train_split) as [[train_len val_len]|e];
      [|reflexivity].
    destruct (Generator w1') as [g1 w1''], (Generator w2') as [g2 w2'']. simpl.
    rewrite (Hseed g1 g2).
    destruct (random_split ds1 [train_len; val_len] (manual_seed g2 seed)) as [split g].
    reflexivity. }
  split; [apply Hds|]. split; [exact Hrun|]. now rewrite Hrun.
Qed.

End DataPreparer.

Lemma split_sizes_example :
  (total_samples 8 (Some 10) = 16
   /\ split_lengths 16 (S754_finite false 4503599627370496 (-52)) = Ok (15, 1))
  /\ (total_samples 0 (Some 1) = 2
      /\ split_lengths 2 float_0_9 = Ok (1, 1))
  /\ (total_samples 4 (Some 100) = 100
      /\ split_lengths 100 float_0_9 = Ok (90, 10))
  /\ (total_samples 64 None = 4096
      /\ total_samples 64 (Some 0) = 4096
      /\ split_lengths 4096 float_0_9 = Ok (3686, 410))
  /\ fst (prepare_dataloaders (torch := Toy.torch) 0 1 S754_nan true (Some 3) (Some 1))
     = Raise (ValueError "cannot convert float NaN to integer").
Proof.
  split; [|split; [|split; [|split]]].
  - pose proof (split_sizes (torch := Toy.torch) 0 8
                  (S754_finite false 4503599627370496 (-52)) true (Some 10) (Some 1)
                  Toy_rand_rows) as H.
    cbv zeta in H. destruct H as (Htotal & _ & _ & _ & Hlen & Hfinite & _).
    split; [exact Htotal|].
    destruct (Hfinite (S754_finite false 4503599627370496 (-48)) 16 eq_refl eq_refl)
      as (train_len & val_len & Hsplit & -> & -> & _).
    rewrite Hlen in Hsplit. exact Hsplit.
  - pose proof (split_sizes (torch := Toy.torch) 0 0 float_0_9 true (Some 1) (Some 1)
                  Toy_rand_rows) as H.
    cbv zeta in H. destruct H as (Htotal & _ & _ & _ & Hlen & Hfinite & _).
    split; [exact Htotal|].
    destruct (Hfinite (S754_finite false 8106479329266893 (-52)) 1 eq_refl eq_refl)
      as (train_len & val_len & Hsplit & -> & -> & _).
    rewrite Hlen in Hsplit. exact Hsplit.
  - pose proof (split_sizes (torch := Toy.torch) 0 4 float_0_9 true (Some 100) (Some 1)
                  Toy_rand_rows) as H.
    cbv zeta in H. destruct H as (Htotal & _ & _ & _ & Hlen & Hfinite & _).
    split; [exact Htotal|].
    destruct (Hfinite (S754_finite false 6333186975989760 (-46)) 90 eq_refl eq_refl)
      as (train_len & val_len & Hsplit & -> & -> & _).
    rewrite Hlen in Hsplit. exact Hsplit.
  - pose proof (split_sizes (torch := Toy.torch) 0 64 float_0_9 true None (Some 1)
                  Toy_rand_rows) as H.
    cbv zeta in H. destruct H as (Htotal & _ & _ & _ & Hlen & Hfinite & _).
    split; [exact Htotal|].
    pose proof (split_sizes (torch := Toy.torch) 0 64 float_0_9 true (Some 0) (Some 1)
                  Toy_rand_rows) as H0.
    cbv zeta in H0. destruct H0 as (Hzero & _).
    split; [exact Hzero|].
    destruct (Hfinite (S754_finite false 8106479329266893 (-41)) 3686 eq_refl eq_refl)
      as (train_len & val_len & Hsplit & -> & -> & _).
    rewrite Hlen in Hsplit. exact Hsplit.
  - pose proof (split_sizes (torch := Toy.torch) 0 1 S754_nan true (Some 3) (Some 1)
                  Toy_rand_rows) as H.
    cbv zeta in H. destruct H as (_ & _ & _ & _ & _ & _ & Hraises).
    destruct (Hraises S754_nan eq_refl eq_refl) as (e & He & _ & Hcall).
    injection He as <-. exact Hcall.
Defined.

Lemma seeded_runs_agree_example :
  fst (synthetic_dataset (torch := Toy.torch) 7 (total_samples 2 (Some 6))
         MNIST_INPUT_SIZE (Some 42))
  = fst (synthetic_dataset (torch := Toy.torch) 8 (total_samples 2 (Some 6))
           MNIST_INPUT_SIZE (Some 42))
  /\ fst (prepare_dataloaders (torch := Toy.torch) 7 2 float_0_9 true (Some 6) (Some 42))
     = fst (prepare_dataloaders (torch := Toy.torch) 8 2 float_0_9 true (Some 6) (Some 42))
  /\ first_epoch
       (fst (prepare_dataloaders (torch := Toy.torch) 7 2 float_0_9 true (Some 6) (Some 42)))
     = first_epoch
         (fst (prepare_dataloaders (torch := Toy.torch) 8 2 float_0_9 true (Some 6) (Some 42))).
Proof.
  apply (seeded_runs_agree (torch := Toy.torch) 7 8 2 float_0_9 true (Some 6) 42).
  exact Toy_seed_resets.
Defined.

(** Without a seed the outcome does depend on the surroundings. *)
Lemma unseeded_runs_differ :
  first_epoch (fst (prepare_dataloaders (torch := Toy.torch) 7 2 float_0_9 true (Some 6) None))
  <> first_epoch
       (fst (prepare_dataloaders (torch := Toy.torch) 8 2 float_0_9 true (Some 6) None)).
Proof. vm_compute. discriminate. Qed.

(** ** Further properties: the architecture validator *)

Lemma lower_char_idem (c : ascii) : lower_char (lower_char c) = lower_char c.
Proof.
  destruct c as [b0 b1 b2 b3 b4 b5 b6 b7].
  destruct b0, b1, b2, b3, b4, b5, b6, b7; reflexivity.
Qed.

Lemma lower_idem (s : string) : lower (lower s) = lower s.
Proof. induction s as [|c s IH]; simpl; [reflexivity|]. now rewrite lower_char_idem, IH. Qed.

(** A sanitized layer list passes the loop again unchanged. *)
Lemma inferred_fixed (repr : pyval -> string) (prev_out : Z) (layers sanitized : list pyval) :
  inferred repr prev_out layers sanitized ->
  forall acc, sanitize_layers repr sanitized acc prev_out = Ok (acc ++ sanitized).
Proof.
  induction 1 as [prev | prev l rest out i o Hlin Hi Ho Hinf IH
                       | prev l rest out t Ht Hne Hinf IH]; intros acc; simpl.
  - now rewrite app_nil_r.
  - rewrite IH. now rewrite <- app_assoc.
  - rewrite lower_idem.
    destruct (String.eqb (lower (py_str repr t)) "linear") eqn:E.
    + apply String.eqb_eq in E. contradiction.
    + simpl. rewrite IH. now rewrite <- app_assoc.
Qed.

Lemma validate_architecture_spec (repr : pyval -> string) (n : Z) (layers : list pyval) :
  layers <> [] ->
  validate_architecture repr (architecture_spec n layers)
  = (sanitized <- sanitize_layers repr layers [] n ;; Ok (architecture_spec n sanitized)).
Proof. destruct layers; [congruence | reflexivity]. Qed.

(** X1: a returned ArchitectureSpec is a fixed point of the validator. *)
Theorem validate_architecture_idempotent (repr : pyval -> string) (payload spec : pyval) :
  validate_architecture repr payload = Ok spec ->
  validate_architecture repr spec = Ok spec.
Proof.
  intros H. apply validate_architecture_inv in H.
  destruct H as (p & layers & n & sanitized & -> & Hl & Hne & Hn & Hs & ->).
  apply sanitize_layers_inferred in Hs. destruct Hs as (out & -> & Hinf).
  pose proof (inferred_length _ _ _ _ Hinf) as Hlen.
  pose proof (inferred_fixed _ _ _ _ Hinf []) as Hfix.
  change ([] ++ out) with out in *. rewrite validate_architecture_spec.
  - now rewrite Hfix.
  - intros ->. destruct layers; [congruence|discriminate].
Qed.

Lemma validate_architecture_idempotent_example :
  validate_architecture repr_unused (architecture_spec 784 example_sanitized)
  = Ok (architecture_spec 784 example_sanitized).
Proof.
  apply (validate_architecture_idempotent repr_unused example_architecture).
  reflexivity.
Defined.

Lemma inferred_chained (repr : pyval -> string) (prev_out : Z) (layers sanitized : list pyval) :
  inferred repr prev_out layers sanitized ->
  no_explicit_in layers ->
  chained prev_out sanitized.
Proof.
  unfold no_explicit_in.
  induction 1 as [prev | prev l rest out i o Hlin Hi Ho Hinf IH
                       | prev l rest out t Ht Hne Hinf IH]; intros Hno.
  - constructor.
  - inversion Hno as [|x xs Hx Hxs]; subst.
    rewrite (Hx l eq_refl) in Hi. subst i. constructor. auto.
  - inversion Hno as [|x xs Hx Hxs]; subst. constructor. auto.
Qed.

(** X2: when no layer entry supplies [in], the dimensions of the
    returned layers chain: every linear layer's [in] is the [out] of
    the linear layer before it, and [input_size] for the first one. *)
Theorem inferred_dimensions_chain (repr : pyval -> string) (p : dict)
    (layers : list pyval) (spec : pyval) :
  validate_architecture repr (PDict p) = Ok spec ->
  dict_get p "layers" = Some (PList layers) ->
  no_explicit_in layers ->
  exists input_size sanitized,
    spec = architecture_spec input_size sanitized /\ chained input_size sanitized.
Proof.
  intros H Hl Hno. apply validate_architecture_inv in H.
  destruct H as (p' & layers' & n & sanitized & [= <-] & Hl' & Hne & Hn & Hs & ->).
  rewrite Hl in Hl'. injection Hl' as <-.
  apply sanitize_layers_inferred in Hs. destruct Hs as (out & -> & Hinf).
  exists n, out. split; [reflexivity|]. eapply inferred_chained; eauto.
Qed.

Lemma inferred_dimensions_chain_example :
  exists input_size sanitized,
    architecture_spec 784 example_sanitized = architecture_spec input_size sanitized
    /\ chained input_size sanitized.
Proof.
  apply (inferred_dimensions_chain repr_unused
           [("input_size", PInt 784);
            ("layers", PList [PDict [("type", PStr "linear"); ("out", PInt 128)];
                              PDict [("type", PStr "relu")];
                              PDict [("type", PStr "linear"); ("out", PInt 10)];
                              PDict [("type", PStr "softmax")]])]
           [PDict [("type", PStr "linear"); ("out", PInt 128)];
            PDict [("type", PStr "relu")];
            PDict [("type", PStr "linear"); ("out", PInt 10)];
            PDict [("type", PStr "softmax")]]).
  - reflexivity.
  - reflexivity.
  - unfold no_explicit_in.
    repeat (constructor; [intros l [= <-]; reflexivity|]). constructor.
Defined.

Lemma inferred_out_defaults (repr : pyval -> string) (prev_out : Z) (layers sanitized : list pyval) :
  inferred repr prev_out layers sanitized ->
  Forall2 (fun raw s =>
             forall l, raw = PDict l -> layer_type repr l = "linear" ->
                       dict_get l "out" = None -> exists i, s = linear_layer i i)
          layers sanitized.
Proof.
  induction 1 as [prev | prev l rest out i o Hlin Hi Ho Hinf IH
                       | prev l rest out t Ht Hne Hinf IH]; constructor; auto.
  - intros l' [= <-] _ Hout. rewrite Hout in Ho. subst o. eauto.
  - intros l' [= <-] Hlin _. unfold layer_type in Hlin. rewrite Ht in Hlin. contradiction.
Qed.

(** X3: a linear layer that omits [out] is returned with [out] equal
    to its [in], at every position of the layer list. *)
Theorem omitted_out_is_in (repr : pyval -> string) (p : dict)
    (layers : list pyval) (spec : pyval) :
  validate_architecture repr (PDict p) = Ok spec ->
  dict_get p "layers" = Some (PList layers) ->
  exists input_size sanitized,
    spec = architecture_spec input_size sanitized /\
    Forall2 (fun raw s =>
               forall l, raw = PDict l -> layer_type repr l = "linear" ->
                         dict_get l "out" = None -> exists i, s = linear_layer i i)
            layers sanitized.
Proof.
  intros H Hl. apply validate_architecture_inv in H.
  destruct H as (p' & layers' & n & sanitized & [= <-] & Hl' & Hne & Hn & Hs & ->).
  rewrite Hl in Hl'. injection Hl' as <-.
  apply sanitize_layers_inferred in Hs. destruct Hs as (out & -> & Hinf).
  exists n, out. split; [reflexivity|]. eapply inferred_out_defaults; eauto.
Qed.

Lemma omitted_out_is_in_example :
  exists input_size sanitized,
    architecture_spec 784 [linear_layer 32 32; linear_layer 32 32]
    = architecture_spec input_size sanitized /\
    Forall2 (fun raw s =>
               forall l, raw = PDict l -> layer_type repr_unused l = "linear" ->
                         dict_get l "out" = None -> exists i, s = linear_layer i i)
            [PDict [("in", PStr "32")]; PDict []] sanitized.
Proof.
  apply (omitted_out_is_in repr_unused
           [("layers", PList [PDict [("in", PStr "32")]; PDict []])]
           [PDict [("in", PStr "32")]; PDict []]); reflexivity.
Defined.

Lemma py_iter_raises (v : pyval) (e : exn) : py_iter v = Raise e -> e = TypeError.
Proof. destruct v; simpl; congruence. Qed.

Lemma rejected_ok_absurd {A} (r : outcome A) (a : A) : r = Ok a -> rejected r -> False.
Proof. intros -> [H | [m H]]; discriminate. Qed.

Lemma try_except_rejected {A} (r : outcome A) (h : outcome A) :
  rejected r -> try_except r h = h.
Proof. intros [-> | [m ->]]; reflexivity. Qed.

(** Why one turn of the loop fails. *)
Lemma sanitize_layer_fail (repr : pyval -> string) (prev_out : Z) (item : pyval) (e : exn) :
  sanitize_layer repr prev_out item = Raise e ->
  (isinstance_dict item = false
   /\ e = ValueError "Each layer must be described by an object.")
  \/ (exists l k x,
        item = PDict l /\ layer_type repr l = "linear" /\ (k = "in" \/ k = "out")
        /\ dict_get l k = Some x /\ rejected (py_int x)
        /\ e = ValueError "Linear layer dimensions must be integers.")
  \/ (exists l k x,
        item = PDict l /\ layer_type repr l = "linear" /\ (k = "in" \/ k = "out")
        /\ dict_get l k = Some x /\ py_int x = Raise OverflowError
        /\ e = OverflowError).
Proof.
  destruct item as [| | | | | |l]; simpl; try (intros [= <-]; left; split; reflexivity).
  rewrite layer_type_eq.
  destruct (String.eqb (layer_type repr l) "linear") eqn:E; [|discriminate].
  apply String.eqb_eq in E.
  set (in_dim := dict_get_default l "in" (PInt prev_out)).
  set (out_dim := dict_get_default l "out" in_dim).
  intros H.
  destruct (py_int_cases in_dim) as [[i Hi] | [Hr | Hov]].
  - rewrite Hi in H. simpl in H.
    destruct (py_int_cases out_dim) as [[o Ho] | [Hr | Hov]].
    + rewrite Ho in H. discriminate.
    + right. left.
      assert (He : e = ValueError "Linear layer dimensions must be integers.").
      { destruct Hr as [Hr | [m Hr]]; rewrite Hr in H; simpl in H; congruence. }
      subst out_dim. unfold dict_get_default in Hr.
      destruct (dict_get l "out") as [x|] eqn:Hout.
      * exists l, "out", x. auto 10.
      * exfalso. eapply rejected_ok_absurd; eauto.
    + right. right.
      assert (He : e = OverflowError) by (rewrite Hov in H; simpl in H; congruence).
      subst out_dim. unfold dict_get_default in Hov.
      destruct (dict_get l "out") as [x|] eqn:Hout.
      * exists l, "out", x. auto 10.
      * congruence.
  - right. left.
    assert (He : e = ValueError "Linear layer dimensions must be integers.").
    { destruct Hr as [Hr | [m Hr]]; rewrite Hr in H; simpl in H; congruence. }
    subst in_dim. unfold dict_get_default in Hr.
    destruct (dict_get l "in") as [x|] eqn:Hin.
    + exists l, "in", x. auto 10.
    + exfalso. eapply (rejected_ok_absurd (py_int (PInt prev_out))); eauto. reflexivity.
  - right. right.
    assert (He : e = OverflowError) by (rewrite Hov in H; simpl in H; congruence).
    subst in_dim. unfold dict_get_default in Hov.
    destruct (dict_get l "in") as [x|] eqn:Hin.
    + exists l, "in", x. auto 10.
    + discriminate Hov.
Qed.

Lemma sanitize_layers_fail (repr : pyval -> string) (e : exn) :
  forall items acc prev_out,
    sanitize_layers repr items acc prev_out = Raise e ->
    exists item prev, In item items /\ sanitize_layer repr prev item = Raise e.
Proof.
  induction items as [|item rest IH]; simpl; intros acc prev_out H; [discriminate|].
  destruct (sanitize_layer repr prev_out item) as [[s next]|e'] eqn:Hs; simpl in H.
  - apply IH in H. destruct H as (it & prev & Hin & Hf). eauto.
  - injection H as ->. eauto.
Qed.

(** X4: every failure of [validate_architecture] has one of these
    causes: the payload is not an object; [layers] is missing or falsy;
    a supplied [input_size] is rejected by [int()]; [layers] is truthy
    but not iterable, which escapes as [TypeError]; an item of [layers]
    is not an object; a supplied [in] or [out] of a linear layer is
    rejected by [int()]; or [int()] raises [OverflowError] on a
    supplied [input_size] or on a supplied [in] or [out] of a linear
    layer.  No other exception leaves the validator. *)
Theorem architecture_failures (repr : pyval -> string) (payload : pyval) (e : exn) :
  validate_architecture repr payload = Raise e ->
  architecture_failure repr payload e.
Proof.
  destruct payload as [| | | | | |p];
    try (intros [= <-]; now apply not_an_object).
  unfold validate_architecture.
  set (raw := dict_get_default p "layers" PNone).
  destruct (py_bool raw) eqn:Hb.
  - assert (Hor : py_or raw (PList []) = raw) by (unfold py_or; now rewrite Hb).
    rewrite Hor, Hb. simpl.
    assert (Hraw : dict_get p "layers" = Some raw).
    { subst raw. unfold dict_get_default in *.
      destruct (dict_get p "layers"); [reflexivity | discriminate]. }
    set (size := dict_get_default p "input_size" (PInt MNIST_INPUT_SIZE)).
    destruct (py_int_cases size) as [[n Hn] | [Hr | Hov]].
    + rewrite Hn. simpl.
      destruct (py_iter raw) as [items|e'] eqn:Hit; simpl.
      * destruct (sanitize_layers repr items [] n) as [out|e'] eqn:Hs; simpl;
          [discriminate|].
        intros [= <-].
        apply sanitize_layers_fail in Hs. destruct Hs as (item & prev & Hin & Hf).
        apply sanitize_layer_fail in Hf.
        destruct Hf as [(Hd & ->)
                       | [(l & k & x & -> & Hlin & Hk & Hx & Hr & ->)
                         | (l & k & x & -> & Hlin & Hk & Hx & Hov & ->)]].
        -- eapply layer_not_an_object; eauto.
        -- eapply bad_dimension; eauto.
        -- eapply dimension_overflow; eauto.
      * intros [= <-]. apply py_iter_raises in Hit as He. subst e'.
        eapply opaque_layers; eauto.
    + rewrite (try_except_rejected _ _ Hr). simpl. intros [= <-].
      subst size. unfold dict_get_default in Hr.
      destruct (dict_get p "input_size") as [v|] eqn:Hv.
      * eapply bad_input_size; eauto.
      * exfalso. eapply (rejected_ok_absurd (py_int (PInt MNIST_INPUT_SIZE))); eauto.
        reflexivity.
    + rewrite Hov. simpl. intros [= <-].
      subst size. unfold dict_get_default in Hov.
      destruct (dict_get p "input_size") as [v|] eqn:Hv.
      * eapply input_size_overflow; eauto.
      * discriminate Hov.
  - assert (Hor : py_or raw (PList []) = PList []) by (unfold py_or; now rewrite Hb).
    rewrite Hor. simpl. intros [= <-]. eapply no_layers; eauto.
Qed.

Lemma architecture_failures_example :
  architecture_failure repr_unused
    (PDict [("layers", PList [PDict [("type", PStr "relu")]; PDict [("out", PStr "wide")]])])
    (ValueError "Linear layer dimensions must be integers.")
  /\ architecture_failure repr_unused
       (PDict [("layers", PList [PDict [("in", PFloat (S754_infinity false))]])])
       OverflowError.
Proof.
  split.
  - apply (architecture_failures repr_unused
             (PDict [("layers", PList [PDict [("type", PStr "relu")];
                                       PDict [("out", PStr "wide")]])])).
    reflexivity.
  - apply (architecture_failures repr_unused
             (PDict [("layers", PList [PDict [("in", PFloat (S754_infinity false))]])])).
    reflexivity.
Defined.

(** ** Further properties: the model assembler *)

Lemma inferred_sanitized (repr : pyval -> string) (prev_out : Z) (layers sanitized : list pyval) :
  inferred repr prev_out layers sanitized -> Forall sanitized_entry sanitized.
Proof.
  induction 1 as [prev | prev l rest out i o Hlin Hi Ho Hinf IH
                       | prev l rest out t Ht Hne Hinf IH]; constructor; auto.
  - left. eauto.
  - right. eexists. split; [reflexivity|]. split; [apply lower_idem | exact Hne].
Qed.

Section ModelAssembler.

Context {nn : NnApi}.
Variable repr : pyval -> string.

Lemma build_layer_linear (i o : Z) :
  build_layer repr (linear_layer i o) = Linear (PInt i) (PInt o).
Proof. reflexivity. Qed.

Lemma build_layer_other (t : string) :
  lower t = t -> t <> "linear" ->
  build_layer repr (PDict [("type", PStr t)])
  = if String.eqb t "relu" then Ok ReLU
    else if String.eqb t "sigmoid" then Ok Sigmoid
    else if String.eqb t "tanh" then Ok Tanh
    else if String.eqb t "softmax" then Ok (Softmax 1)
    else Raise (ValueError (unsupported_layer_message t)).
Proof.
  intros Hl Hne. unfold build_layer. simpl. rewrite Hl.
  apply String.eqb_neq in Hne. rewrite Hne. reflexivity.
Qed.

Lemma build_layer_sanitized (s : pyval) :
  sanitized_entry s ->
  (exists m, build_layer repr s = Ok m /\ builds s m)
  \/ (exists e, build_layer repr s = Raise e /\ layer_fails s e).
Proof.
  intros [(i & o & ->) | (t & -> & Hl & Hne)].
  - rewrite build_layer_linear.
    destruct (Linear (PInt i) (PInt o)) as [m|e] eqn:E.
    + left. exists m. split; [reflexivity | now constructor].
    + right. exists e. split; [reflexivity | now constructor].
  - rewrite build_layer_other by assumption.
    destruct (String.eqb t "relu") eqn:E1;
      [apply String.eqb_eq in E1; subst; left; eexists; split; [reflexivity|constructor]|].
    destruct (String.eqb t "sigmoid") eqn:E2;
      [apply String.eqb_eq in E2; subst; left; eexists; split; [reflexivity|constructor]|].
    destruct (String.eqb t "tanh") eqn:E3;
      [apply String.eqb_eq in E3; subst; left; eexists; split; [reflexivity|constructor]|].
    destruct (String.eqb t "softmax") eqn:E4;
      [apply String.eqb_eq in E4; subst; left; eexists; split; [reflexivity|constructor]|].
    right. eexists. split; [reflexivity|]. constructor.
    apply String.eqb_neq in E1, E2, E3, E4.
    simpl. intros [H | [H | [H | [H | [H | []]]]]]; congruence.
Qed.

Lemma build_layers_cases (layers : list pyval) :
  Forall sanitized_entry layers ->
  forall acc,
    (exists mods, build_layers repr layers acc = Ok (acc ++ mods)
                  /\ Forall2 builds layers mods)
    \/ (exists before s after e,
          layers = before ++ s :: after
          /\ Forall (fun x => exists m, builds x m) before
          /\ layer_fails s e
          /\ build_layers repr layers acc = Raise e).
Proof.
  induction 1 as [|s rest Hs Hrest IH]; intros acc; simpl.
  - left. exists []. split; [now rewrite app_nil_r | constructor].
  - destruct (build_layer_sanitized s Hs) as [(m & -> & Hm) | (e & -> & He)]; simpl.
    + destruct (IH (acc ++ [m]))
        as [(mods & -> & Hmods) | (before & s' & after & e & -> & Hb & Hf & ->)].
      * left. exists (m :: mods). split; [now rewrite <- app_assoc | now constructor].
      * right. exists (s :: before), s', after, e. repeat split; auto.
        constructor; eauto.
    + right. exists [], s, rest, e. repeat split; auto.
Qed.

Lemma build_model_spec (n : Z) (layers : list pyval) :
  build_model repr (architecture_spec n layers)
  = (mods <- build_layers repr layers [] ;; Ok (Sequential mods)).
Proof. reflexivity. Qed.

(** X5: [build_model] on a returned ArchitectureSpec never stumbles
    over the spec itself.  It returns the sequence of one module per
    layer, in order, [Linear(in, out)] with the inferred dimensions for
    a linear layer; or it stops at the first layer that does not build,
    with the error of [nn.Linear] or with the [Unsupported layer type]
    error for a type outside the five known ones. *)
Theorem build_validated_architecture (payload spec : pyval) :
  validate_architecture repr payload = Ok spec ->
  exists input_size layers,
    spec = architecture_spec input_size layers /\
    ((exists mods, build_model repr spec = Ok (Sequential mods)
                   /\ Forall2 builds layers mods)
     \/ (exists before s after e,
           layers = before ++ s :: after
           /\ Forall (fun x => exists m, builds x m) before
           /\ layer_fails s e
           /\ build_model repr spec = Raise e)).
Proof.
  intros H. apply validate_architecture_inv in H.
  destruct H as (p & raw & n & sanitized & -> & Hl & Hne & Hn & Hs & ->).
  apply sanitize_layers_inferred in Hs. destruct Hs as (out & -> & Hinf).
  change ([] ++ out) with out. exists n, out. split; [reflexivity|].
  rewrite build_model_spec.
  destruct (build_layers_cases out (inferred_sanitized _ _ _ _ Hinf) [])
    as [(mods & -> & Hmods) | (before & s & after & e & -> & Hb & Hf & ->)].
  - left. exists mods. auto.
  - right. exists before, s, after, e. auto.
Qed.

Lemma build_layers_fail (layers : list pyval) (s : pyval) :
  In s layers -> is_ok (build_layer repr s) = false ->
  forall acc, is_ok (build_layers repr layers acc) = false.
Proof.
  induction layers as [|x rest IH]; simpl; intros Hin Hs acc; [contradiction|].
  destruct Hin as [-> | Hin].
  - destruct (build_layer repr s); [discriminate | reflexivity].
  - destruct (build_layer repr x); [|reflexivity]. simpl. now apply IH.
Qed.

Lemma inferred_other_in (prev_out : Z) (layers sanitized : list pyval) (l : dict) (t : pyval) :
  inferred repr prev_out layers sanitized ->
  In (PDict l) layers -> dict_get l "type" = Some t ->
  lower (py_str repr t) <> "linear" ->
  In (PDict [("type", PStr (lower (py_str repr t)))]) sanitized.
Proof.
  induction 1 as [prev | prev l' rest out i o Hlin Hi Ho Hinf IH
                       | prev l' rest out t' Ht Hne Hinf IH]; simpl; intros Hin Hty Hnl.
  - contradiction.
  - destruct Hin as [[= ->] | Hin]; [|right; auto].
    unfold layer_type in Hlin. rewrite Hty in Hlin. contradiction.
  - destruct Hin as [[= ->] | Hin]; [|right; auto].
    rewrite Hty in Ht. injection Ht as <-. now left.
Qed.

(** X6: the validator lets an unknown layer type through and the
    assembler refuses it: an accepted architecture with a layer whose
    lower-cased type is none of [linear], [relu], [sigmoid], [tanh],
    [softmax] does not build. *)
Theorem unknown_type_deferred (p : dict) (layers : list pyval) (spec : pyval)
    (l : dict) (t : pyval) :
  validate_architecture repr (PDict p) = Ok spec ->
  dict_get p "layers" = Some (PList layers) ->
  In (PDict l) layers ->
  dict_get l "type" = Some t ->
  ~ In (lower (py_str repr t)) known_layer_types ->
  is_ok (build_model repr spec) = false.
Proof.
  intros H Hl Hin Hty Hunk. apply validate_architecture_inv in H.
  destruct H as (p' & raw & n & sanitized & [= <-] & Hl' & Hne & Hn & Hs & ->).
  rewrite Hl in Hl'. injection Hl' as <-.
  apply sanitize_layers_inferred in Hs. destruct Hs as (out & -> & Hinf).
  change ([] ++ out) with out. rewrite build_model_spec.
  assert (Hnl : lower (py_str repr t) <> "linear").
  { intros E. apply Hunk. rewrite E. simpl. auto. }
  pose proof (inferred_other_in _ _ _ _ _ Hinf Hin Hty Hnl) as Hs.
  assert (Hf : is_ok (build_layer repr (PDict [("type", PStr (lower (py_str repr t)))]))
               = false).
  { rewrite build_layer_other by (auto using lower_idem).
    set (u := lower (py_str repr t)) in *.
    destruct (String.eqb u "relu") eqn:E1;
      [apply String.eqb_eq in E1; exfalso; apply Hunk; rewrite E1; simpl; auto|].
    destruct (String.eqb u "sigmoid") eqn:E2;
      [apply String.eqb_eq in E2; exfalso; apply Hunk; rewrite E2; simpl; auto|].
    destruct (String.eqb u "tanh") eqn:E3;
      [apply String.eqb_eq in E3; exfalso; apply Hunk; rewrite E3; simpl; auto|].
    destruct (String.eqb u "softmax") eqn:E4;
      [apply String.eqb_eq in E4; exfalso; apply Hunk; rewrite E4; simpl; auto 6|].
    reflexivity. }
  pose proof (build_layers_fail out _ Hs Hf []) as Hb.
  destruct (build_layers repr out []); [discriminate | reflexivity].
Qed.

(** X7: [build_model] fills in nothing.  On an architecture that did
    not pass the validator, a layer without [type] makes it fail, with
    [KeyError] when that layer comes first, although the validator
    reads such a layer as linear; and a first linear layer without [in]
    fails with [KeyError] too. *)
Theorem build_model_no_defaults (p : dict) (before after : list pyval) (l : dict) :
  dict_get p "layers" = Some (PList (before ++ PDict l :: after)) ->
  (dict_get l "type" = None ->
   is_ok (build_model repr (PDict p)) = false
   /\ (before = [] -> build_model repr (PDict p) = Raise (KeyError "type")))
  /\ (forall t,
        dict_get l "type" = Some t -> lower (py_str repr t) = "linear" ->
        dict_get l "in" = None -> before = [] ->
        build_model repr (PDict p) = Raise (KeyError "in")).
Proof.
  intros Hl.
  assert (Hrun : build_model repr (PDict p)
                 = (mods <- build_layers repr (before ++ PDict l :: after) [] ;;
                    Ok (Sequential mods))).
  { unfold build_model. simpl. unfold dict_item. rewrite Hl. reflexivity. }
  rewrite Hrun. split.
  - intros Hty.
    assert (Hf : build_layer repr (PDict l) = Raise (KeyError "type")).
    { unfold build_layer. simpl. unfold dict_item. now rewrite Hty. }
    split.
    + assert (Hb : is_ok (build_layers repr (before ++ PDict l :: after) []) = false).
      { apply build_layers_fail with (s := PDict l).
        - apply in_or_app. right. now left.
        - now rewrite Hf. }
      destruct (build_layers repr (before ++ PDict l :: after) []);
        [discriminate | reflexivity].
    + intros ->. simpl. now rewrite Hf.
  - intros t Hty Hlin Hin ->. simpl.
    unfold build_layer. simpl. unfold dict_item. rewrite Hty. simpl.
    rewrite Hlin. simpl. rewrite Hin. reflexivity.
Qed.

End ModelAssembler.

(** ** Further properties: the hyperparameter validator *)

Lemma bind_ok {A B} (r : outcome A) (k : A -> outcome B) (b : B) :
  bind r k = Ok b -> exists a, r = Ok a /\ k a = Ok b.
Proof. destruct r as [a|e]; simpl; [eauto | discriminate]. Qed.

Lemma strict_stage_ok {A} (coerce : pyval -> outcome A) (wrap : A -> pyval)
    (p : dict) (k msg : string) (d d' : dict) :
  match dict_get p k with
  | Some v =>
      n <- try_except (coerce v) (Raise (ValueError msg)) ;;
      Ok (dict_set k (wrap n) d)
  | None => Ok d
  end = Ok d' ->
  match dict_get p k with
  | Some v => exists n, coerce v = Ok n /\ d' = dict_set k (wrap n) d
  | None => d' = d
  end.
Proof.
  destruct (dict_get p k) as [v|]; [|congruence].
  destruct (coerce v) as [n|e]; simpl; [|destruct e; discriminate].
  intros [= <-]. eauto.
Qed.

Lemma seed_stage_ok (p : dict) (msg : string) (d d' : dict) :
  match dict_get p "seed" with
  | Some PNone => Ok (dict_set "seed" PNone d)
  | Some seed =>
      n <- try_except (py_int seed) (Raise (ValueError msg)) ;;
      Ok (dict_set "seed" (PInt n) d)
  | None => Ok d
  end = Ok d' ->
  match dict_get p "seed" with
  | Some _ => exists s, seed_field p s /\ d' = dict_set "seed" s d
  | None => d' = d
  end.
Proof.
  unfold seed_field.
  destruct (dict_get p "seed") as [v|]; [|congruence].
  intros H.
  assert (Hv : v = PNone \/ v <> PNone) by (destruct v; auto; right; discriminate).
  destruct Hv as [-> | Hv].
  - injection H as <-. exists PNone. split; reflexivity.
  - assert (Hb : (n <- try_except (py_int v) (Raise (ValueError msg)) ;;
                  Ok (dict_set "seed" (PInt n) d)) = Ok d')
      by (destruct v; try exact H; exfalso; apply Hv; reflexivity).
    destruct (py_int v) as [n|e] eqn:E; simpl in Hb; [|destruct e; discriminate].
    injection Hb as <-. exists (PInt n). split; [|reflexivity].
    destruct v; eauto. exfalso. apply Hv. reflexivity.
Qed.

(** The top-level fields after [coerce_fields], started from the
    defaults. *)
Lemma coerce_fields_defaults (repr : pyval -> string) (p res : dict) :
  coerce_fields repr p DEFAULT_HYPERPARAMS = Ok res ->
  exists epochs batch_size seed train_split max_samples,
    res = [("epochs", PInt epochs);
           ("batch_size", PInt batch_size);
           ("optimizer", PDict DEFAULT_OPTIMIZER);
           ("loss", PStr match dict_get p "loss" with
                         | Some v => py_str repr v
                         | None => "cross_entropy"
                         end);
           ("seed", seed);
           ("train_split", PFloat train_split);
           ("shuffle", PBool match dict_get p "shuffle" with
                             | Some v => py_bool v
                             | None => true
                             end);
           ("max_samples", PInt max_samples)]
    /\ int_field p "epochs" 5 epochs
    /\ int_field p "batch_size" 64 batch_size
    /\ seed_field p seed
    /\ float_field p "train_split" float_0_9 train_split
    /\ int_field p "max_samples" 4096 max_samples.
Proof.
  unfold coerce_fields. intros H.
  apply bind_ok in H. destruct H as (d1 & E1 & H).
  apply (strict_stage_ok py_int PInt) in E1.
  assert (H1 : exists e, int_field p "epochs" 5 e
                         /\ d1 = dict_set "epochs" (PInt e) DEFAULT_HYPERPARAMS).
  { unfold int_field. destruct (dict_get p "epochs").
    - destruct E1 as (n & Hn & ->). eauto.
    - subst d1. exists 5. split; reflexivity. }
  clear E1. destruct H1 as (epochs & Hepochs & ->).
  apply bind_ok in H. destruct H as (d2 & E2 & H).
  apply (strict_stage_ok py_int PInt) in E2.
  assert (H2 : exists b, int_field p "batch_size" 64 b
                         /\ d2 = dict_set "batch_size" (PInt b)
                                   (dict_set "epochs" (PInt epochs) DEFAULT_HYPERPARAMS)).
  { unfold int_field. destruct (dict_get p "batch_size").
    - destruct E2 as (n & Hn & ->). eauto.
    - subst d2. exists 64. split; reflexivity. }
  clear E2. destruct H2 as (batch_size & Hbatch & ->).
  apply bind_ok in H. destruct H as (d3 & E3 & H).
  apply (strict_stage_ok py_float PFloat) in E3.
  assert (H3 : exists t, float_field p "train_split" float_0_9 t
                         /\ d3 = dict_set "train_split" (PFloat t)
                                   (dict_set "batch_size" (PInt batch_size)
                                      (dict_set "epochs" (PInt epochs) DEFAULT_HYPERPARAMS))).
  { unfold float_field. destruct (dict_get p "train_split").
    - destruct E3 as (n & Hn & ->). eauto.
    - subst d3. exists float_0_9. split; reflexivity. }
  clear E3. destruct H3 as (train_split & Hsplit & ->).
  cbv zeta in H.
  set (loss := match dict_get p "loss" with
               | Some v => py_str repr v
               | None => "cross_entropy"
               end).
  set (shuffle := match dict_get p "shuffle" with
                  | Some v => py_bool v
                  | None => true
                  end).
  set (d5 := match dict_get p "loss" with Some _ => _ | None => _ end) in H.
  assert (H5 : d5 = [("epochs", PInt epochs); ("batch_size", PInt batch_size);
                     ("optimizer", PDict DEFAULT_OPTIMIZER); ("loss", PStr loss);
                     ("seed", PNone); ("train_split", PFloat train_split);
                     ("shuffle", PBool shuffle); ("max_samples", PInt 4096)]).
  { subst d5 loss shuffle.
    destruct (dict_get p "loss"), (dict_get p "shuffle"); reflexivity. }
  clearbody d5. subst d5.
  apply bind_ok in H. destruct H as (d6 & E6 & H).
  apply seed_stage_ok in E6.
  assert (H6 : exists s, seed_field p s
                 /\ d6 = [("epochs", PInt epochs); ("batch_size", PInt batch_size);
                          ("optimizer", PDict DEFAULT_OPTIMIZER); ("loss", PStr loss);
                          ("seed", s); ("train_split", PFloat train_split);
                          ("shuffle", PBool shuffle); ("max_samples", PInt 4096)]).
  { destruct (dict_get p "seed") eqn:Hseed.
    - destruct E6 as (s & Hs & ->). eauto.
    - exists PNone. split; [unfold seed_field; now rewrite Hseed | exact E6]. }
  clear E6. destruct H6 as (seed & Hseed & ->).
  apply (strict_stage_ok py_int PInt) in H.
  exists epochs, batch_size, seed, train_split.
  unfold int_field at 3. destruct (dict_get p "max_samples").
  - destruct H as (n & Hn & ->). exists n. repeat split; auto.
  - subst res. exists 4096. repeat split; auto.
Qed.

Lemma dict_set_keys (k : string) (v : pyval) (d : dict) :
  dict_get d k <> None -> map fst (dict_set k v d) = map fst d.
Proof.
  induction d as [|[k' v'] d IH]; simpl; [congruence|].
  destruct (String.eqb k k') eqn:E; simpl; [reflexivity|].
  intros H. now rewrite IH.
Qed.

Lemma dict_set_new (k : string) (v : pyval) (d : dict) :
  dict_get d k = None -> dict_set k v d = d ++ [(k, v)].
Proof.
  induction d as [|[k' v'] d IH]; simpl; [reflexivity|].
  destruct (String.eqb k k') eqn:E; [discriminate|].
  intros H. now rewrite IH.
Qed.

(** One tolerant key, when the call returns. *)
Lemma coerce_float_key_ok (o : dict) (key : string) (fallback : spec_float) (r : pyval) :
  coerce_float_key (PDict o) key (Ok fallback) = Ok r ->
  exists o',
    r = PDict o'
    /\ float_key_rel o o' key fallback
    /\ (forall k', key <> k' -> dict_get o' k' = dict_get o k')
    /\ map fst o' = map fst o.
Proof.
  unfold coerce_float_key, float_key_rel, tolerant. simpl. unfold dict_mem, dict_item.
  destruct (dict_get o key) as [v|] eqn:Hv; simpl.
  - destruct (py_float_cases v) as [[x Hx] | [Hr | Hov]].
    + rewrite Hx. simpl. intros [= <-]. eexists. split; [reflexivity|].
      split; [exists x; split; [now left | apply dict_get_set_same]|].
      split; [intros k' Hne; now apply dict_get_set_other|].
      apply dict_set_keys. congruence.
    + rewrite (try_except_rejected _ _ Hr). simpl. intros [= <-].
      eexists. split; [reflexivity|].
      split; [exists fallback; split; [now right | apply dict_get_set_same]|].
      split; [intros k' Hne; now apply dict_get_set_other|].
      apply dict_set_keys. congruence.
    + rewrite Hov. discriminate.
  - intros [= <-]. exists o. auto.
Qed.

Lemma float_key_rel_transport (o o1 o2 o' : dict) (k : string) (fb : spec_float) :
  dict_get o1 k = dict_get o k -> dict_get o' k = dict_get o2 k ->
  float_key_rel o1 o2 k fb -> float_key_rel o o' k fb.
Proof. unfold float_key_rel. intros -> ->. auto. Qed.

(** The optimizer record after normalization. *)
Lemma normalize_optimizer_inv (repr : pyval -> string) (o : dict) (r : pyval) :
  normalize_optimizer repr (PDict o) = Ok r ->
  let ty := lower (py_str repr (dict_get_default o "type" (PStr "sgd"))) in
  exists o',
    r = PDict o'
    /\ dict_get o' "type" = Some (PStr ty)
    /\ float_key_rel o o' "lr" float_0_1
    /\ (ty = "sgd" -> float_key_rel o o' "momentum" float_0_0)
    /\ (ty = "adam" ->
        float_key_rel o o' "beta1" float_0_9
        /\ float_key_rel o o' "beta2" float_0_999
        /\ float_key_rel o o' "eps" float_1e_8)
    /\ (forall k, ~ In k (coerced_keys ty) -> dict_get o' k = dict_get o k)
    /\ map fst o' = map fst (dict_set "type" (PStr ty) o).
Proof.
  intros H ty. unfold normalize_optimizer in H. simpl in H. fold ty in H.
  set (o1 := dict_set "type" (PStr ty) o) in *.
  assert (T1 : dict_get o1 "type" = Some (PStr ty)) by apply dict_get_set_same.
  assert (K1 : forall k, "type" <> k -> dict_get o1 k = dict_get o k)
    by (intros k Hk; now apply dict_get_set_other).
  apply bind_ok in H. destruct H as (r2 & E2 & H).
  apply coerce_float_key_ok in E2. destruct E2 as (o2 & -> & R2 & K2 & M2).
  simpl in H. unfold dict_item in H. rewrite K2, T1 in H by discriminate. simpl in H.
  unfold coerced_keys.
  destruct (String.eqb ty "sgd") eqn:Esgd.
  - apply coerce_float_key_ok in H. destruct H as (o3 & -> & R3 & K3 & M3).
    exists o3. split; [reflexivity|].
    split; [rewrite K3, K2 by discriminate; exact T1|].
    split; [eapply float_key_rel_transport; [| |exact R2];
            [apply K1; discriminate | apply K3; discriminate]|].
    split; [intros _; eapply float_key_rel_transport; [| |exact R3];
            [rewrite K2, K1 by discriminate; reflexivity | reflexivity]|].
    split; [intros E; apply String.eqb_eq in Esgd; congruence|].
    split; [|congruence].
    intros k Hk. simpl in Hk.
    rewrite K3, K2, K1; auto; intros E; apply Hk; auto.
  - destruct (String.eqb ty "adam") eqn:Eadam.
    + simpl in H.
      apply bind_ok in H. destruct H as (r3 & E3 & H).
      apply bind_ok in E3. destruct E3 as (r3' & E3' & E3).
      apply coerce_float_key_ok in E3'. destruct E3' as (o3 & -> & R3 & K3 & M3).
      apply coerce_float_key_ok in E3. destruct E3 as (o4 & -> & R4 & K4 & M4).
      apply coerce_float_key_ok in H. destruct H as (o5 & -> & R5 & K5 & M5).
      exists o5. split; [reflexivity|].
      split; [rewrite K5, K4, K3, K2 by discriminate; exact T1|].
      split; [eapply float_key_rel_transport; [| |exact R2];
              [apply K1; discriminate
              | rewrite K5, K4, K3 by discriminate; reflexivity]|].
      split; [intros E; apply String.eqb_neq in Esgd; congruence|].
      split.
      * intros _. repeat split.
        -- eapply float_key_rel_transport; [| |exact R3];
             [rewrite K2, K1 by discriminate; reflexivity
             | rewrite K5, K4 by discriminate; reflexivity].
        -- eapply float_key_rel_transport; [| |exact R4];
             [rewrite K3, K2, K1 by discriminate; reflexivity
             | rewrite K5 by discriminate; reflexivity].
        -- eapply float_key_rel_transport; [| |exact R5];
             [rewrite K4, K3, K2, K1 by discriminate; reflexivity | reflexivity].
      * split; [|congruence].
        intros k Hk. simpl in Hk.
        rewrite K5, K4, K3, K2, K1; auto; intros E; apply Hk; auto 6.
    + injection H as <-.
      exists o2. split; [reflexivity|].
      split; [rewrite K2 by discriminate; exact T1|].
      split; [eapply float_key_rel_transport; [| |exact R2];
              [apply K1; discriminate | reflexivity]|].
      split; [intros E; apply String.eqb_neq in Esgd; congruence|].
      split; [intros E; apply String.eqb_neq in Eadam; congruence|].
      split; [|congruence].
      intros k Hk. simpl in Hk.
      rewrite K2, K1; auto; intros E; apply Hk; auto.
Qed.

Lemma dict_get_absent (d : dict) (k : string) :
  ~ In k (map fst d) -> dict_get d k = None.
Proof.
  induction d as [|[k' v] d IH]; simpl; [reflexivity|].
  intros H. destruct (String.eqb k k') eqn:E.
  - apply String.eqb_eq in E. subst. exfalso. apply H. now left.
  - apply IH. intros Hin. apply H. now right.
Qed.

Lemma merge_lookup (items : dict) :
  NoDup (map fst items) ->
  forall d k,
    dict_get (fold_left (fun m kv => dict_set (fst kv) (snd kv) m) items d) k
    = match dict_get items k with
      | Some v => Some v
      | None => dict_get d k
      end.
Proof.
  induction items as [|[k0 v0] items IH]; simpl; intros Hnd d k; [reflexivity|].
  inversion Hnd as [|x xs Hx Hxs]; subst.
  rewrite IH by assumption.
  destruct (String.eqb k k0) eqn:E.
  - apply String.eqb_eq in E. subst k0.
    rewrite (dict_get_absent items k Hx). apply dict_get_set_same.
  - apply String.eqb_neq in E.
    destruct (dict_get items k); [reflexivity|].
    apply dict_get_set_other. congruence.
Qed.

Lemma merge_keeps (items : dict) (k : string) :
  forall d,
    dict_get d k <> None ->
    dict_get (fold_left (fun m kv => dict_set (fst kv) (snd kv) m) items d) k <> None.
Proof.
  induction items as [|[k0 v0] items IH]; simpl; intros d H; [exact H|].
  apply IH. destruct (String.eqb k0 k) eqn:E.
  - apply String.eqb_eq in E. subst. rewrite dict_get_set_same. discriminate.
  - apply String.eqb_neq in E. now rewrite dict_get_set_other.
Qed.

Lemma merged_optimizer_keeps (p : dict) (k : string) :
  dict_get DEFAULT_OPTIMIZER k <> None -> dict_get (merged_optimizer p) k <> None.
Proof.
  unfold merged_optimizer. intros H.
  destruct (dict_get p "optimizer") as [[| | | | | |opt]|]; auto.
  now apply merge_keeps.
Qed.

Lemma merge_optimizer_eq (p d : dict) :
  merge_optimizer p d
  = Ok (match dict_get p "optimizer" with
        | Some (PDict _) => dict_set "optimizer" (PDict (merged_optimizer p)) d
        | _ => d
        end).
Proof.
  unfold merge_optimizer, merged_optimizer, dict_get_default.
  destruct (dict_get p "optimizer") as [[| | | | | |opt]|]; try reflexivity.
  simpl. now rewrite merge_items.
Qed.

(** The parts of a returned record. *)
Lemma validate_hyperparams_inv (repr : pyval -> string) (p : dict) (spec : pyval) :
  validate_hyperparams repr (PDict p) = Ok spec ->
  exists res o,
    coerce_fields repr p DEFAULT_HYPERPARAMS = Ok res
    /\ normalize_optimizer repr (PDict (merged_optimizer p)) = Ok (PDict o)
    /\ spec = PDict (dict_set "optimizer" (PDict o) res).
Proof.
  unfold validate_hyperparams. rewrite defaults_copied. intros H.
  apply bind_ok in H. destruct H as (res & Hres & H).
  exists res.
  destruct (coerce_fields_defaults repr p res Hres)
    as (e & b & s & t & m & Hshape & _).
  assert (Hopt : dict_get res "optimizer" = Some (PDict DEFAULT_OPTIMIZER))
    by (subst res; reflexivity).
  rewrite merge_optimizer_eq in H.
  set (res' := match dict_get p "optimizer" with
               | Some (PDict _) => dict_set "optimizer" (PDict (merged_optimizer p)) res
               | _ => res
               end) in H.
  assert (Hm : dict_get res' "optimizer" = Some (PDict (merged_optimizer p))
               /\ forall x, dict_set "optimizer" x res' = dict_set "optimizer" x res).
  { subst res'. unfold merged_optimizer.
    destruct (dict_get p "optimizer") as [[| | | | | |opt]|];
      try (split; [exact Hopt | reflexivity]).
    split; [apply dict_get_set_same|].
    intros x. subst res. reflexivity. }
  destruct Hm as (Hget & Hset). clearbody res'. simpl in H.
  unfold dict_item in H. rewrite Hget in H. simpl in H.
  apply bind_ok in H. destruct H as (r & Hr & H).
  injection H as <-.
  destruct (normalize_optimizer_inv repr _ _ Hr) as (o & -> & _).
  exists o. rewrite Hset. auto.
Qed.

(** X8: a returned hyperparameter record has exactly the eight fields
    of the defaults, in their order; each strict field holds the
    payload's value coerced by [int()] or [float()], or the default when
    the payload has none; [shuffle] is the truth value and [loss] the
    [str()] of the payload's value; [seed] is null or an integer; keys
    the defaults do not have are dropped. *)
Theorem validated_hyperparams_record (repr : pyval -> string) (p : dict) (spec : pyval) :
  validate_hyperparams repr (PDict p) = Ok spec ->
  exists epochs batch_size optimizer seed train_split max_samples,
    spec = hyperparam_spec epochs batch_size optimizer
             match dict_get p "loss" with
             | Some v => py_str repr v
             | None => "cross_entropy"
             end
             seed train_split
             match dict_get p "shuffle" with
             | Some v => py_bool v
             | None => true
             end
             max_samples
    /\ int_field p "epochs" 5 epochs
    /\ int_field p "batch_size" 64 batch_size
    /\ seed_field p seed
    /\ float_field p "train_split" float_0_9 train_split
    /\ int_field p "max_samples" 4096 max_samples.
Proof.
  intros H. apply validate_hyperparams_inv in H.
  destruct H as (res & o & Hres & _ & ->).
  destruct (coerce_fields_defaults repr p res Hres)
    as (e & b & s & t & m & -> & He & Hb & Hs & Ht & Hm).
  exists e, b, o, s, t, m. repeat split; assumption.
Qed.

Lemma validated_hyperparams_record_example :
  exists epochs batch_size optimizer seed train_split max_samples,
    hyperparam_spec 3 64 DEFAULT_OPTIMIZER "7" (PInt 42) float_0_9 false 4096
    = hyperparam_spec epochs batch_size optimizer
        match dict_get [("epochs", PStr "3"); ("seed", PStr "42"); ("shuffle", PInt 0);
                        ("loss", PInt 7); ("note", PStr "x")] "loss" with
        | Some v => py_str repr_unused v
        | None => "cross_entropy"
        end
        seed train_split
        match dict_get [("epochs", PStr "3"); ("seed", PStr "42"); ("shuffle", PInt 0);
                        ("loss", PInt 7); ("note", PStr "x")] "shuffle" with
        | Some v => py_bool v
        | None => true
        end
        max_samples
    /\ int_field [("epochs", PStr "3"); ("seed", PStr "42"); ("shuffle", PInt 0);
                  ("loss", PInt 7); ("note", PStr "x")] "epochs" 5 epochs
    /\ int_field [("epochs", PStr "3"); ("seed", PStr "42"); ("shuffle", PInt 0);
                  ("loss", PInt 7); ("note", PStr "x")] "batch_size" 64 batch_size
    /\ seed_field [("epochs", PStr "3"); ("seed", PStr "42"); ("shuffle", PInt 0);
                   ("loss", PInt 7); ("note", PStr "x")] seed
    /\ float_field [("epochs", PStr "3"); ("seed", PStr "42"); ("shuffle", PInt 0);
                    ("loss", PInt 7); ("note", PStr "x")] "train_split" float_0_9 train_split
    /\ int_field [("epochs", PStr "3"); ("seed", PStr "42"); ("shuffle", PInt 0);
                  ("loss", PInt 7); ("note", PStr "x")] "max_samples" 4096 max_samples.
Proof.
  apply (validated_hyperparams_record repr_unused
           [("epochs", PStr "3"); ("seed", PStr "42"); ("shuffle", PInt 0);
            ("loss", PInt 7); ("note", PStr "x")]).
  reflexivity.
Defined.

Lemma optimizer_item (o : dict) (res : dict) :
  py_getitem (PDict (dict_set "optimizer" (PDict o) res)) "optimizer" = Ok (PDict o).
Proof. simpl. unfold dict_item. now rewrite dict_get_set_same. Qed.

(** The typing of a normalized optimizer record. *)
Lemma normalized_optimizer_typed (repr : pyval -> string) (m o : dict) :
  dict_get m "lr" <> None -> dict_get m "momentum" <> None ->
  normalize_optimizer repr (PDict m) = Ok (PDict o) ->
  exists ty lr,
    dict_get o "type" = Some (PStr ty)
    /\ lower ty = ty
    /\ dict_get o "lr" = Some (PFloat lr)
    /\ (ty = "sgd" -> exists x, dict_get o "momentum" = Some (PFloat x))
    /\ (ty = "adam" ->
        forall k, In k ["beta1"; "beta2"; "eps"] ->
                  dict_get o k = None \/ exists x, dict_get o k = Some (PFloat x)).
Proof.
  intros Hlr Hmom H.
  destruct (normalize_optimizer_inv repr m _ H)
    as (o' & [= <-] & Hty & Rlr & Rsgd & Radam & _).
  eexists. 
  assert (Hl : exists lr, dict_get o "lr" = Some (PFloat lr)).
  { unfold float_key_rel in Rlr. destruct (dict_get m "lr"); [|congruence].
    destruct Rlr as (x & _ & Hx). eauto. }
  destruct Hl as (lr & Hl). exists lr.
  split; [exact Hty|]. split; [apply lower_idem|]. split; [exact Hl|]. split.
  - intros E. specialize (Rsgd E). unfold float_key_rel in Rsgd.
    destruct (dict_get m "momentum"); [|congruence].
    destruct Rsgd as (x & _ & Hx). eauto.
  - intros E k Hk. destruct (Radam E) as (R1 & R2 & R3).
    unfold float_key_rel in *.
    destruct Hk as [<- | [<- | [<- | []]]].
    + destruct (dict_get m "beta1"); [destruct R1 as (x & _ & Hx); eauto | auto].
    + destruct (dict_get m "beta2"); [destruct R2 as (x & _ & Hx); eauto | auto].
    + destruct (dict_get m "eps"); [destruct R3 as (x & _ & Hx); eauto | auto].
Qed.

Lemma validated_optimizer_typed (repr : pyval -> string) (p : dict) (spec : pyval) :
  validate_hyperparams repr (PDict p) = Ok spec ->
  exists o ty lr,
    py_getitem spec "optimizer" = Ok (PDict o)
    /\ dict_get o "type" = Some (PStr ty)
    /\ lower ty = ty
    /\ dict_get o "lr" = Some (PFloat lr)
    /\ (ty = "sgd" -> exists x, dict_get o "momentum" = Some (PFloat x))
    /\ (ty = "adam" ->
        forall k, In k ["beta1"; "beta2"; "eps"] ->
                  dict_get o k = None \/ exists x, dict_get o k = Some (PFloat x)).
Proof.
  intros H. apply validate_hyperparams_inv in H.
  destruct H as (res & o & _ & Hn & ->).
  apply normalized_optimizer_typed in Hn;
    [|apply merged_optimizer_keeps; discriminate..].
  destruct Hn as (ty & lr & Hn). exists o, ty, lr.
  split; [apply optimizer_item | exact Hn].
Qed.

(** X9: the optimizer of every returned record is typed: its [type] is
    a lower-case string and its [lr] a float; under [sgd] its
    [momentum] is a float; under [adam] each of [beta1], [beta2], [eps]
    is absent or a float. *)
Theorem validated_optimizer_is_typed (repr : pyval -> string) (p : dict) (spec : pyval) :
  validate_hyperparams repr (PDict p) = Ok spec ->
  exists o ty lr,
    py_getitem spec "optimizer" = Ok (PDict o)
    /\ dict_get o "type" = Some (PStr ty)
    /\ lower ty = ty
    /\ dict_get o "lr" = Some (PFloat lr)
    /\ (ty = "sgd" -> exists x, dict_get o "momentum" = Some (PFloat x))
    /\ (ty = "adam" ->
        forall k, In k ["beta1"; "beta2"; "eps"] ->
                  dict_get o k = None \/ exists x, dict_get o k = Some (PFloat x)).
Proof.
  intros H. apply validate_hyperparams_inv in H.
  destruct H as (res & o & _ & Hn & ->).
  apply normalized_optimizer_typed in Hn;
    [|apply merged_optimizer_keeps; discriminate..].
  destruct Hn as (ty & lr & Hn). exists o, ty, lr.
  split; [apply optimizer_item | exact Hn].
Qed.

Lemma validated_optimizer_is_typed_example :
  exists o ty lr,
    py_getitem
      (hyperparam_spec 5 64
         [("type", PStr "adam"); ("lr", PFloat float_0_1); ("momentum", PStr "high");
          ("eps", PFloat float_1e_8)]
         "cross_entropy" PNone float_0_9 true 4096) "optimizer" = Ok (PDict o)
    /\ dict_get o "type" = Some (PStr ty)
    /\ lower ty = ty
    /\ dict_get o "lr" = Some (PFloat lr)
    /\ (ty = "sgd" -> exists x, dict_get o "momentum" = Some (PFloat x))
    /\ (ty = "adam" ->
        forall k, In k ["beta1"; "beta2"; "eps"] ->
                  dict_get o k = None \/ exists x, dict_get o k = Some (PFloat x)).
Proof.
  apply (validated_optimizer_is_typed repr_unused
           [("optimizer", PDict [("type", PStr "ADAM"); ("lr", PNone);
                                 ("momentum", PStr "high"); ("eps", PList [])])]).
  reflexivity.
Defined.

(** X10: how a well-formed optimizer object is merged.  [type] is the
    [str()] of the payload's value, lower-cased, [sgd] when absent;
    [lr] is the payload's value as a float, 0.1 when it is absent or
    rejected; under [sgd] likewise [momentum], with 0.0; under [adam]
    each of [beta1], [beta2], [eps] that the payload has is its value
    as a float, or 0.9, 0.999, 1e-8 when rejected, and stays absent
    otherwise; every other key keeps the payload's value, or the
    default's when the payload lacks it. *)
Theorem optimizer_merge (repr : pyval -> string) (p optimizer : dict) (spec : pyval) :
  validate_hyperparams repr (PDict p) = Ok spec ->
  dict_get p "optimizer" = Some (PDict optimizer) ->
  NoDup (map fst optimizer) ->
  let ty := lower (py_str repr (dict_get_default optimizer "type" (PStr "sgd"))) in
  exists o,
    py_getitem spec "optimizer" = Ok (PDict o)
    /\ dict_get o "type" = Some (PStr ty)
    /\ (exists x, dict_get o "lr" = Some (PFloat x)
                  /\ tolerant (dict_get_default optimizer "lr" (PFloat float_0_1))
                       float_0_1 x)
    /\ (ty = "sgd" ->
        exists x, dict_get o "momentum" = Some (PFloat x)
                  /\ tolerant (dict_get_default optimizer "momentum" (PFloat float_0_0))
                       float_0_0 x)
    /\ (ty = "adam" ->
        float_key_rel optimizer o "beta1" float_0_9
        /\ float_key_rel optimizer o "beta2" float_0_999
        /\ float_key_rel optimizer o "eps" float_1e_8)
    /\ (forall k, ~ In k (coerced_keys ty) -> dict_get o k = merged_value optimizer k).
Proof.
  intros H Hopt Hnd ty. apply validate_hyperparams_inv in H.
  destruct H as (res & o & _ & Hn & ->).
  assert (Hm : forall k, dict_get (merged_optimizer p) k = merged_value optimizer k).
  { intros k. unfold merged_optimizer, merged_value. rewrite Hopt.
    now apply merge_lookup. }
  assert (Hty : lower (py_str repr (dict_get_default (merged_optimizer p) "type" (PStr "sgd")))
                = ty).
  { subst ty. unfold dict_get_default. rewrite Hm. unfold merged_value.
    now destruct (dict_get optimizer "type"). }
  destruct (normalize_optimizer_inv repr _ _ Hn)
    as (o' & [= <-] & Ht & Rlr & Rsgd & Radam & Rrest & _).
  rewrite Hty in *.
  exists o. split; [apply optimizer_item|]. split; [exact Ht|].
  assert (Hlr : dict_get (merged_optimizer p) "lr"
                = Some (dict_get_default optimizer "lr" (PFloat float_0_1))).
  { rewrite Hm. unfold merged_value, dict_get_default.
    now destruct (dict_get optimizer "lr"). }
  assert (Hmom : dict_get (merged_optimizer p) "momentum"
                 = Some (dict_get_default optimizer "momentum" (PFloat float_0_0))).
  { rewrite Hm. unfold merged_value, dict_get_default.
    now destruct (dict_get optimizer "momentum"). }
  assert (Hb : forall k, dict_get DEFAULT_OPTIMIZER k = None ->
                         dict_get (merged_optimizer p) k = dict_get optimizer k).
  { intros k Hk. rewrite Hm. unfold merged_value. rewrite Hk.
    now destruct (dict_get optimizer k). }
  split; [|split; [|split]].
  - unfold float_key_rel in Rlr. rewrite Hlr in Rlr.
    destruct Rlr as (x & Hx1 & Hx2). eauto.
  - intros E. specialize (Rsgd E). unfold float_key_rel in Rsgd. rewrite Hmom in Rsgd.
    destruct Rsgd as (x & Hx1 & Hx2). eauto.
  - intros E. destruct (Radam E) as (R1 & R2 & R3).
    unfold float_key_rel in *.
    rewrite (Hb "beta1" eq_refl) in R1.
    rewrite (Hb "beta2" eq_refl) in R2.
    rewrite (Hb "eps" eq_refl) in R3. auto.
  - intros k Hk. rewrite (Rrest k Hk). apply Hm.
Qed.

Lemma optimizer_merge_example :
  let ty := lower (py_str repr_unused
                     (dict_get_default
                        [("type", PStr "Adam"); ("lr", PStr "fast"); ("beta1", PStr "0.5");
                         ("nesterov", PBool true)] "type" (PStr "sgd"))) in
  exists o,
    py_getitem
      (hyperparam_spec 5 64
         [("type", PStr "adam"); ("lr", PFloat float_0_1); ("momentum", PFloat float_0_0);
          ("beta1", PFloat (S754_finite false 4503599627370496 (-53)));
          ("nesterov", PBool true)]
         "cross_entropy" PNone float_0_9 true 4096) "optimizer" = Ok (PDict o)
    /\ dict_get o "type" = Some (PStr ty)
    /\ (exists x, dict_get o "lr" = Some (PFloat x)
                  /\ tolerant (dict_get_default
                                 [("type", PStr "Adam"); ("lr", PStr "fast");
                                  ("beta1", PStr "0.5"); ("nesterov", PBool true)]
                                 "lr" (PFloat float_0_1))
                       float_0_1 x)
    /\ (ty = "sgd" ->
        exists x, dict_get o "momentum" = Some (PFloat x)
                  /\ tolerant (dict_get_default
                                 [("type", PStr "Adam"); ("lr", PStr "fast");
                                  ("beta1", PStr "0.5"); ("nesterov", PBool true)]
                                 "momentum" (PFloat float_0_0))
                       float_0_0 x)
    /\ (ty = "adam" ->
        float_key_rel [("type", PStr "Adam"); ("lr", PStr "fast"); ("beta1", PStr "0.5");
                       ("nesterov", PBool true)] o "beta1" float_0_9
        /\ float_key_rel [("type", PStr "Adam"); ("lr", PStr "fast"); ("beta1", PStr "0.5");
                          ("nesterov", PBool true)] o "beta2" float_0_999
        /\ float_key_rel [("type", PStr "Adam"); ("lr", PStr "fast"); ("beta1", PStr "0.5");
                          ("nesterov", PBool true)] o "eps" float_1e_8)
    /\ (forall k, ~ In k (coerced_keys ty) ->
                  dict_get o k
                  = merged_value [("type", PStr "Adam"); ("lr", PStr "fast");
                                  ("beta1", PStr "0.5"); ("nesterov", PBool true)] k).
Proof.
  apply (optimizer_merge repr_unused
           [("optimizer", PDict [("type", PStr "Adam"); ("lr", PStr "fast");
                                 ("beta1", PStr "0.5"); ("nesterov", PBool true)])]
           [("type", PStr "Adam"); ("lr", PStr "fast"); ("beta1", PStr "0.5");
            ("nesterov", PBool true)]).
  - vm_compute. reflexivity.
  - reflexivity.
  - repeat constructor; simpl; intuition discriminate.
Defined.

(** ** Further properties: the optimizer assembler *)

Section OptimizerAssembler.

Context {nn : NnApi}.
Variable repr : pyval -> string.

(** X11: [configure_optimizer] on the optimizer of a returned record
    never fails in a coercion.  Under [sgd] it calls [SGD] with the
    record's [lr] and [momentum]; under [adam] it calls [Adam] with the
    record's [lr] and, for each of [beta1], [beta2], [eps], the record's
    value or 0.9, 0.999, 1e-8 when the record lacks it; under any other
    type it raises the [Unsupported optimizer] error naming the type. *)
Theorem configure_validated_optimizer (p : dict) (spec : pyval) (parameters : Params) :
  validate_hyperparams repr (PDict p) = Ok spec ->
  exists o ty lr,
    py_getitem spec "optimizer" = Ok (PDict o)
    /\ dict_get o "type" = Some (PStr ty)
    /\ dict_get o "lr" = Some (PFloat lr)
    /\ (ty = "sgd" ->
        exists momentum,
          dict_get o "momentum" = Some (PFloat momentum)
          /\ configure_optimizer repr (PDict o) parameters = SGD parameters lr momentum)
    /\ (ty = "adam" ->
        exists beta1 beta2 eps,
          float_or_default o "beta1" float_0_9 beta1
          /\ float_or_default o "beta2" float_0_999 beta2
          /\ float_or_default o "eps" float_1e_8 eps
          /\ configure_optimizer repr (PDict o) parameters
             = Adam parameters lr (beta1, beta2) eps)
    /\ (ty <> "sgd" -> ty <> "adam" ->
        configure_optimizer repr (PDict o) parameters
        = Raise (ValueError (unsupported_optimizer_message ty))).
Proof.
  intros H. apply validated_optimizer_typed in H.
  destruct H as (o & ty & lr & Hopt & Hty & Hlow & Hlr & Hsgd & Hadam).
  exists o, ty, lr. split; [exact Hopt|]. split; [exact Hty|]. split; [exact Hlr|].
  unfold configure_optimizer. simpl. unfold dict_get_default.
  rewrite Hty, Hlr. simpl. rewrite Hlow.
  split; [|split].
  - intros ->. destruct (Hsgd eq_refl) as (mom & Hmom).
    exists mom. split; [exact Hmom|]. simpl. now rewrite Hmom.
  - intros ->. simpl.
    assert (Hk : forall k d,
               In k ["beta1"; "beta2"; "eps"] ->
               exists x, float_or_default o k d x
                         /\ py_float match dict_get o k with
                                     | Some v => v
                                     | None => PFloat d
                                     end = Ok x).
    { intros k d Hin. unfold float_or_default.
      destruct (Hadam eq_refl k Hin) as [Hn | (x & Hx)].
      - rewrite Hn. exists d. split; reflexivity.
      - rewrite Hx. exists x. split; reflexivity. }
    destruct (Hk "beta1" float_0_9) as (b1 & F1 & E1); [simpl; auto|].
    destruct (Hk "beta2" float_0_999) as (b2 & F2 & E2); [simpl; auto|].
    destruct (Hk "eps" float_1e_8) as (ep & F3 & E3); [simpl; auto|].
    exists b1, b2, ep. rewrite E1. simpl. rewrite E2. simpl. rewrite E3. simpl. auto.
  - intros H1 H2. apply String.eqb_neq in H1, H2. now rewrite H1, H2.
Qed.

End OptimizerAssembler.

Lemma configure_validated_optimizer_example :
  exists o ty lr,
    py_getitem
      (hyperparam_spec 5 64
         [("type", PStr "adam"); ("lr", PFloat float_0_1); ("momentum", PFloat float_0_0);
          ("beta2", PFloat float_0_9)]
         "cross_entropy" PNone float_0_9 true 4096) "optimizer" = Ok (PDict o)
    /\ dict_get o "type" = Some (PStr ty)
    /\ dict_get o "lr" = Some (PFloat lr)
    /\ (ty = "sgd" ->
        exists momentum,
          dict_get o "momentum" = Some (PFloat momentum)
          /\ configure_optimizer (nn := ToyNn.nn) repr_unused (PDict o) tt
             = @SGD ToyNn.nn tt lr momentum)
    /\ (ty = "adam" ->
        exists beta1 beta2 eps,
          float_or_default o "beta1" float_0_9 beta1
          /\ float_or_default o "beta2" float_0_999 beta2
          /\ float_or_default o "eps" float_1e_8 eps
          /\ configure_optimizer (nn := ToyNn.nn) repr_unused (PDict o) tt
             = @Adam ToyNn.nn tt lr (beta1, beta2) eps)
    /\ (ty <> "sgd" -> ty <> "adam" ->
        configure_optimizer (nn := ToyNn.nn) repr_unused (PDict o) tt
        = Raise (ValueError (unsupported_optimizer_message ty))).
Proof.
  apply (configure_validated_optimizer (nn := ToyNn.nn) repr_unused
           [("optimizer", PDict [("type", PStr "Adam"); ("beta2", PStr "0.9")])]).
  vm_compute. reflexivity.
Defined.

Lemma build_validated_architecture_example :
  exists input_size layers,
    architecture_spec 784 example_sanitized = architecture_spec input_size layers /\
    ((exists mods,
        build_model (nn := ToyNn.nn) repr_unused (architecture_spec 784 example_sanitized)
        = Ok (@Sequential ToyNn.nn mods)
        /\ Forall2 (builds (nn := ToyNn.nn)) layers mods)
     \/ (exists before s after e,
           layers = before ++ s :: after
           /\ Forall (fun x => exists m, builds (nn := ToyNn.nn) x m) before
           /\ layer_fails (nn := ToyNn.nn) s e
           /\ build_model (nn := ToyNn.nn) repr_unused
                (architecture_spec 784 example_sanitized) = Raise e)).
Proof.
  apply (build_validated_architecture (nn := ToyNn.nn) repr_unused example_architecture).
  reflexivity.
Defined.

Lemma unknown_type_deferred_example :
  is_ok (build_model (nn := ToyNn.nn) repr_unused
           (architecture_spec 784 [linear_layer 784 8; PDict [("type", PStr "swish")]]))
  = false.
Proof.
  apply (unknown_type_deferred (nn := ToyNn.nn) repr_unused
           [("layers", PList [PDict [("out", PInt 8)]; PDict [("type", PStr "Swish")]])]
           [PDict [("out", PInt 8)]; PDict [("type", PStr "Swish")]]
           (architecture_spec 784 [linear_layer 784 8; PDict [("type", PStr "swish")]])
           [("type", PStr "Swish")] (PStr "Swish")).
  - reflexivity.
  - reflexivity.
  - simpl. auto.
  - reflexivity.
  - simpl. intuition discriminate.
Defined.

Lemma build_model_no_defaults_example :
  (dict_get [("out", PInt 8)] "type" = None ->
   is_ok (build_model (nn := ToyNn.nn) repr_unused
            (PDict [("layers", PList [PDict [("out", PInt 8)]])])) = false
   /\ (@nil pyval = [] ->
       build_model (nn := ToyNn.nn) repr_unused
         (PDict [("layers", PList [PDict [("out", PInt 8)]])])
       = Raise (KeyError "type")))
  /\ (forall t,
        dict_get [("out", PInt 8)] "type" = Some t ->
        lower (py_str repr_unused t) = "linear" ->
        dict_get [("out", PInt 8)] "in" = None -> @nil pyval = [] ->
        build_model (nn := ToyNn.nn) repr_unused
          (PDict [("layers", PList [PDict [("out", PInt 8)]])])
        = Raise (KeyError "in")).
Proof.
  apply (build_model_no_defaults (nn := ToyNn.nn) repr_unused
           [("layers", PList [PDict [("out", PInt 8)]])] [] [] [("out", PInt 8)]).
  reflexivity.
Defined.

(** ** Further properties: the sample encoder *)

Lemma floats_of_ok (values : list pyval) (xs : list spec_float) :
  floats_of values = Ok xs <-> Forall2 (fun v x => py_float v = Ok x) values xs.
Proof.
  split.
  - revert xs. induction values as [|v values IH]; simpl; intros xs H.
    + injection H as <-. constructor.
    + apply bind_ok in H. destruct H as (x & Hx & H).
      apply bind_ok in H. destruct H as (xs' & Hxs & H).
      injection H as <-. constructor; auto.
  - induction 1 as [|v x values xs Hx _ IH]; simpl; [reflexivity|].
    rewrite Hx. simpl. rewrite IH. reflexivity.
Qed.

Lemma floats_of_fail (values : list pyval) (e : exn) :
  floats_of values = Raise e -> exists v, In v values /\ py_float v = Raise e.
Proof.
  induction values as [|v values IH]; simpl; [discriminate|].
  destruct (py_float v) as [x|e'] eqn:Hv; simpl.
  - destruct (floats_of values) as [xs|e'] eqn:Hxs; simpl; [discriminate|].
    intros [= <-]. destruct (IH eq_refl) as (v' & Hin & Hf). eauto.
  - intros [= <-]. eauto.
Qed.

Lemma pixels_count_message :
  String.append "`pixels` must contain exactly "
    (String.append (NilZero.string_of_int (Z.to_int MNIST_INPUT_SIZE)) " values.")
  = "`pixels` must contain exactly 784 values.".
Proof. reflexivity. Qed.

(** X12: [tensor_from_pixels] returns exactly for a list of 784 values
    that [float()] accepts, and then the tensor has the single row of
    these 784 floats rounded to [float32]. *)
Theorem tensor_from_pixels_returns (pixels : pyval) (tensor : tensor2d) :
  tensor_from_pixels pixels = Ok tensor <->
  exists values xs,
    pixels = PList values
    /\ List.length values = 784%nat
    /\ Forall2 (fun v x => py_float v = Ok x) values xs
    /\ tensor = [map float32_of_float xs]
    /\ List.length (map float32_of_float xs) = 784%nat.
Proof.
  split.
  - destruct pixels as [| | | | |values|]; try discriminate.
    unfold tensor_from_pixels.
    destruct (Z.of_nat (List.length values) =? MNIST_INPUT_SIZE) eqn:Hlen; simpl;
      [|discriminate].
    apply Z.eqb_eq in Hlen. unfold MNIST_INPUT_SIZE in Hlen.
    intros H. apply bind_ok in H. destruct H as (xs & Hxs & H).
    injection H as <-.
    assert (Hfl : floats_of values = Ok xs).
    { destruct (floats_of values) as [ys|e]; simpl in Hxs; [congruence|].
      destruct e; discriminate. }
    apply floats_of_ok in Hfl.
    exists values, xs. repeat split; auto; try lia.
    rewrite length_map. apply Forall2_length in Hfl. lia.
  - intros (values & xs & -> & Hlen & Hfl & -> & _).
    unfold tensor_from_pixels. rewrite Hlen. simpl.
    apply floats_of_ok in Hfl. rewrite Hfl. reflexivity.
Qed.

Lemma tensor_from_pixels_returns_example :
  exists values xs,
    PList (repeat (PStr "0.5") 784) = PList values
    /\ List.length values = 784%nat
    /\ Forall2 (fun v x => py_float v = Ok x) values xs
    /\ [repeat (S754_finite false 8388608 (-24)) 784] = [map float32_of_float xs]
    /\ List.length (map float32_of_float xs) = 784%nat.
Proof.
  apply (proj1 (tensor_from_pixels_returns (PList (repeat (PStr "0.5") 784))
                  [repeat (S754_finite false 8388608 (-24)) 784])).
  vm_compute. reflexivity.
Defined.

(** X13: the failures of [tensor_from_pixels].  What is not a list is
    refused as such; a list of another length than 784 is refused for
    its length, whatever it holds; a list of 784 values is refused as
    not numeric when [float()] rejects one of them; and an integer too
    large for a float escapes as [OverflowError]. *)
Theorem tensor_from_pixels_failures (pixels : pyval) (e : exn) :
  tensor_from_pixels pixels = Raise e ->
  ((forall values, pixels <> PList values)
   /\ e = ValueError "`pixels` must be a list of numbers.")
  \/ (exists values,
        pixels = PList values /\ List.length values <> 784%nat
        /\ e = ValueError "`pixels` must contain exactly 784 values.")
  \/ (exists values v,
        pixels = PList values /\ List.length values = 784%nat
        /\ In v values /\ rejected (py_float v)
        /\ e = ValueError "`pixels` must be numeric.")
  \/ (exists values v,
        pixels = PList values /\ List.length values = 784%nat
        /\ In v values /\ py_float v = Raise OverflowError
        /\ e = OverflowError).
Proof.
  destruct pixels as [| | | | |values|];
    try (intros [= <-]; left; split; [intros values; discriminate | reflexivity]).
  unfold tensor_from_pixels. rewrite pixels_count_message.
  destruct (Z.of_nat (List.length values) =? MNIST_INPUT_SIZE) eqn:Hlen; simpl.
  - apply Z.eqb_eq in Hlen. unfold MNIST_INPUT_SIZE in Hlen.
    assert (Hn : List.length values = 784%nat) by lia.
    destruct (floats_of values) as [xs|e'] eqn:Hfl; simpl; [discriminate|].
    destruct (floats_of_fail values e' Hfl) as (v & Hin & Hv).
    destruct (py_float_cases v) as [[x Hx] | [Hr | Hov]].
    + congruence.
    + intros H. right. right. left. exists values, v.
      repeat split; auto.
      destruct Hr as [Hr | [m Hr]]; rewrite Hr in Hv; injection Hv as <-;
        simpl in H; congruence.
    + rewrite Hov in Hv. injection Hv as <-. simpl. intros [= <-].
      right. right. right. exists values, v. auto.
  - apply Z.eqb_neq in Hlen. unfold MNIST_INPUT_SIZE in Hlen.
    intros [= <-]. right. left. exists values. repeat split; auto. lia.
Qed.

Lemma tensor_from_pixels_failures_example :
  ((forall values, PList (repeat PNone 785) <> PList values)
   /\ ValueError "`pixels` must contain exactly 784 values."
      = ValueError "`pixels` must be a list of numbers.")
  \/ (exists values,
        PList (repeat PNone 785) = PList values /\ List.length values <> 784%nat
        /\ ValueError "`pixels` must contain exactly 784 values."
           = ValueError "`pixels` must contain exactly 784 values.")
  \/ (exists values v,
        PList (repeat PNone 785) = PList values /\ List.length values = 784%nat
        /\ In v values /\ rejected (py_float v)
        /\ ValueError "`pixels` must contain exactly 784 values."
           = ValueError "`pixels` must be numeric.")
  \/ (exists values v,
        PList (repeat PNone 785) = PList values /\ List.length values = 784%nat
        /\ In v values /\ py_float v = Raise OverflowError
        /\ ValueError "`pixels` must contain exactly 784 values." = OverflowError).
Proof.
  apply (tensor_from_pixels_failures (PList (repeat PNone 785))).
  vm_compute. reflexivity.
Defined.

(** ** Further properties: validated records are fixed points *)

Lemma dict_get_none_keys (d : dict) (k : string) :
  dict_get d k = None -> ~ In k (map fst d).
Proof.
  induction d as [|[k' v] d IH]; simpl; [tauto|].
  destruct (String.eqb k k') eqn:E; [discriminate|].
  apply String.eqb_neq in E. intros H [Hk | Hin]; [congruence | now apply IH].
Qed.

(** Merging keeps the keys of the target in front, in their order, and
    never repeats a key. *)
Lemma merge_keys (items : dict) :
  forall d,
    NoDup (map fst d) ->
    exists extra,
      map fst (fold_left (fun m kv => dict_set (fst kv) (snd kv) m) items d)
      = map fst d ++ extra
      /\ NoDup (map fst d ++ extra).
Proof.
  induction items as [|[k v] items IH]; simpl; intros d Hnd.
  - exists []. rewrite app_nil_r. auto.
  - destruct (dict_get d k) as [x|] eqn:Hk.
    + destruct (IH (dict_set k v d)) as (extra & Hm & Hn).
      * rewrite dict_set_keys by congruence. exact Hnd.
      * rewrite dict_set_keys in Hm, Hn by congruence. eauto.
    + rewrite (dict_set_new k v d Hk).
      destruct (IH (d ++ [(k, v)])) as (extra & Hm & Hn).
      * rewrite map_app. simpl. apply NoDup_app; [exact Hnd | repeat constructor; auto |].
        intros a Ha [<- | []]. now apply (dict_get_none_keys d k).
      * rewrite map_app in Hm, Hn. simpl in Hm, Hn. rewrite <- app_assoc in Hm, Hn.
        simpl in Hm, Hn. eauto.
Qed.

(** Merging items with new, distinct keys appends them. *)
Lemma merge_appends (rest : dict) :
  forall d,
    NoDup (map fst (d ++ rest)) ->
    fold_left (fun m kv => dict_set (fst kv) (snd kv) m) rest d = d ++ rest.
Proof.
  induction rest as [|[k v] rest IH]; simpl; intros d Hnd.
  - now rewrite app_nil_r.
  - assert (Hk : dict_get d k = None).
    { apply dict_get_absent. rewrite map_app in Hnd. simpl in Hnd.
      apply NoDup_remove_2 in Hnd. intros Hin. apply Hnd.
      apply in_or_app. now left. }
    rewrite (dict_set_new k v d Hk). rewrite IH.
    + now rewrite <- app_assoc.
    + now rewrite <- app_assoc.
Qed.

(** An optimizer record that starts with the default's keys and repeats
    none merges onto the default as itself. *)
Lemma merge_fixed (o : dict) (extra : list string) :
  map fst o = map fst DEFAULT_OPTIMIZER ++ extra ->
  NoDup (map fst o) ->
  fold_left (fun m kv => dict_set (fst kv) (snd kv) m) o DEFAULT_OPTIMIZER = o.
Proof.
  destruct o as [|[k1 a] [|[k2 b] [|[k3 c] rest]]]; simpl; try discriminate.
  intros [= -> -> -> Hrest] Hnd. simpl.
  apply (merge_appends rest [("type", a); ("lr", b); ("momentum", c)]). exact Hnd.
Qed.

Lemma merged_optimizer_keys (p : dict) :
  exists extra,
    map fst (merged_optimizer p) = map fst DEFAULT_OPTIMIZER ++ extra
    /\ NoDup (map fst (merged_optimizer p)).
Proof.
  assert (Hd : NoDup (map fst DEFAULT_OPTIMIZER)).
  { simpl. repeat constructor; simpl; intuition discriminate. }
  unfold merged_optimizer.
  destruct (dict_get p "optimizer") as [[| | | | | |opt]|];
    try solve [exists []; rewrite app_nil_r; auto].
  destruct (merge_keys opt DEFAULT_OPTIMIZER Hd) as (extra & Hm & Hn).
  exists extra. rewrite Hm. auto.
Qed.

Lemma coerce_float_key_fixed (o : dict) (key : string) (fallback : outcome spec_float) :
  dict_get o key = None \/ (exists x, dict_get o key = Some (PFloat x)) ->
  coerce_float_key (PDict o) key fallback = Ok (PDict o).
Proof.
  unfold coerce_float_key. simpl. unfold dict_mem, dict_item.
  intros [H | (x & H)]; rewrite H; simpl; [reflexivity|].
  now rewrite (dict_set_get_id key (PFloat x) o H).
Qed.

(** A typed optimizer record passes normalization unchanged. *)
Lemma normalize_optimizer_fixed (repr : pyval -> string) (o : dict)
    (ty : string) (lr : spec_float) :
  dict_get o "type" = Some (PStr ty) ->
  lower ty = ty ->
  dict_get o "lr" = Some (PFloat lr) ->
  (ty = "sgd" -> exists x, dict_get o "momentum" = Some (PFloat x)) ->
  (ty = "adam" ->
   forall k, In k ["beta1"; "beta2"; "eps"] ->
             dict_get o k = None \/ exists x, dict_get o k = Some (PFloat x)) ->
  normalize_optimizer repr (PDict o) = Ok (PDict o).
Proof.
  intros Hty Hlow Hlr Hsgd Hadam.
  unfold normalize_optimizer. simpl. unfold dict_get_default. rewrite Hty. simpl.
  rewrite Hlow. rewrite (dict_set_get_id "type" (PStr ty) o Hty).
  rewrite coerce_float_key_fixed by eauto. simpl.
  unfold dict_item. rewrite Hty. simpl.
  destruct (String.eqb ty "sgd") eqn:Esgd.
  - apply String.eqb_eq in Esgd. apply coerce_float_key_fixed. right. auto.
  - destruct (String.eqb ty "adam") eqn:Eadam; [|reflexivity].
    apply String.eqb_eq in Eadam. specialize (Hadam Eadam).
    rewrite coerce_float_key_fixed by (apply Hadam; simpl; auto). simpl.
    rewrite coerce_float_key_fixed by (apply Hadam; simpl; auto). simpl.
    apply coerce_float_key_fixed. apply Hadam. simpl. auto.
Qed.

Lemma seed_field_shape (p : dict) (s : pyval) :
  seed_field p s -> s = PNone \/ exists n, s = PInt n.
Proof.
  unfold seed_field. destruct (dict_get p "seed") as [v|]; [|auto].
  destruct v; auto; intros (n & _ & ->); eauto.
Qed.

(** X14: a returned hyperparameter record is a fixed point of the
    validator. *)
Theorem validate_hyperparams_idempotent (repr : pyval -> string) (payload spec : pyval) :
  validate_hyperparams repr payload = Ok spec ->
  validate_hyperparams repr spec = Ok spec.
Proof.
  intros H.
  assert (Hp : exists p, validate_hyperparams repr (PDict p) = Ok spec).
  { destruct payload; try discriminate; eauto. }
  clear H. destruct Hp as (p & H).
  apply validate_hyperparams_inv in H.
  destruct H as (res & o & Hres & Hn & ->).
  destruct (coerce_fields_defaults repr p res Hres)
    as (e & b & s & t & m & -> & _ & _ & Hs & _ & _).
  assert (Htyped := Hn).
  apply normalized_optimizer_typed in Htyped;
    [|apply merged_optimizer_keeps; discriminate..].
  destruct Htyped as (ty & lr & Hty & Hlow & Hlr & Hsgd & Hadam).
  destruct (normalize_optimizer_inv repr _ _ Hn) as (o' & [= <-] & _ & _ & _ & _ & _ & Hkeys).
  rewrite dict_set_keys in Hkeys by (apply merged_optimizer_keeps; discriminate).
  destruct (merged_optimizer_keys p) as (extra & Hm & Hnd).
  rewrite <- Hkeys in Hm, Hnd.
  pose proof (merge_fixed o extra Hm Hnd) as Hfix.
  pose proof (normalize_optimizer_fixed repr o ty lr Hty Hlow Hlr Hsgd Hadam) as Hnorm.
  set (l := match dict_get p "loss" with Some v => py_str repr v | None => "cross_entropy" end).
  set (sh := match dict_get p "shuffle" with Some v => py_bool v | None => true end).
  simpl dict_set.
  set (p' := [("epochs", PInt e); ("batch_size", PInt b); ("optimizer", PDict o);
              ("loss", PStr l); ("seed", s); ("train_split", PFloat t);
              ("shuffle", PBool sh); ("max_samples", PInt m)]).
  assert (Hfields :
            coerce_fields repr p' DEFAULT_HYPERPARAMS
            = Ok [("epochs", PInt e); ("batch_size", PInt b);
                  ("optimizer", PDict DEFAULT_OPTIMIZER);
                  ("loss", PStr l); ("seed", s); ("train_split", PFloat t);
                  ("shuffle", PBool sh); ("max_samples", PInt m)]).
  { destruct (seed_field_shape p s Hs) as [-> | (n & ->)]; reflexivity. }
  assert (Hget : dict_get p' "optimizer" = Some (PDict o)) by reflexivity.
  assert (Hmerged : merged_optimizer p' = o)
    by (unfold merged_optimizer; rewrite Hget; exact Hfix).
  unfold validate_hyperparams. rewrite defaults_copied, Hfields. cbn [bind].
  rewrite merge_optimizer_eq, Hget, Hmerged. cbn [bind].
  unfold dict_item. rewrite dict_get_set_same. cbn [bind].
  rewrite Hnorm. reflexivity.
Qed.

Lemma validate_hyperparams_idempotent_example :
  validate_hyperparams repr_unused
    (hyperparam_spec 5 64
       [("type", PStr "adam"); ("lr", PFloat float_0_1); ("momentum", PFloat float_0_0);
        ("beta1", PFloat (S754_finite false 4503599627370496 (-53)));
        ("nesterov", PBool true)]
       "cross_entropy" PNone float_0_9 true 4096)
  = Ok (hyperparam_spec 5 64
          [("type", PStr "adam"); ("lr", PFloat float_0_1); ("momentum", PFloat float_0_0);
           ("beta1", PFloat (S754_finite false 4503599627370496 (-53)));
           ("nesterov", PBool true)]
          "cross_entropy" PNone float_0_9 true 4096).
Proof.
  apply (validate_hyperparams_idempotent repr_unused
           (PDict [("optimizer", PDict [("type", PStr "Adam"); ("lr", PStr "fast");
                                        ("beta1", PStr "0.5"); ("nesterov", PBool true)])])).
  vm_compute. reflexivity.
Defined.

(** ** Further properties: what the architecture validator accepts *)

Lemma sanitize_layer_accepts (repr : pyval -> string) (prev_out : Z) (layer : pyval) :
  acceptable_layer repr layer ->
  exists s next, sanitize_layer repr prev_out layer = Ok (s, next).
Proof.
  intros (l & -> & Hd). unfold sanitize_layer. rewrite layer_type_eq.
  destruct (String.eqb (layer_type repr l) "linear") eqn:E; [|eauto].
  apply String.eqb_eq in E. specialize (Hd E).
  set (in_dim := dict_get_default l "in" (PInt prev_out)).
  set (out_dim := dict_get_default l "out" in_dim).
  assert (Hi : is_ok (py_int in_dim) = true).
  { subst in_dim. unfold dict_get_default.
    destruct (dict_get l "in") as [x|] eqn:Hx; [|reflexivity].
    apply (Hd "in" x); auto. }
  assert (Ho : is_ok (py_int out_dim) = true).
  { subst out_dim. unfold dict_get_default.
    destruct (dict_get l "out") as [x|] eqn:Hx; [|exact Hi].
    apply (Hd "out" x); auto. }
  destruct (py_int in_dim) as [i|]; [|discriminate].
  destruct (py_int out_dim) as [o|]; [|discriminate].
  simpl. eauto.
Qed.

Lemma sanitize_layers_accepts (repr : pyval -> string) (layers : list pyval) :
  Forall (acceptable_layer repr) layers ->
  forall acc prev_out, exists out, sanitize_layers repr layers acc prev_out = Ok out.
Proof.
  induction 1 as [|layer rest Hl _ IH]; simpl; intros acc prev_out; [eauto|].
  destruct (sanitize_layer_accepts repr prev_out layer Hl) as (s & next & ->).
  simpl. apply IH.
Qed.

Lemma inferred_acceptable (repr : pyval -> string) (prev_out : Z) (layers sanitized : list pyval) :
  inferred repr prev_out layers sanitized -> Forall (acceptable_layer repr) layers.
Proof.
  induction 1 as [prev | prev l rest out i o Hlin Hi Ho Hinf IH
                       | prev l rest out t Ht Hne Hinf IH]; constructor; auto.
  - exists l. split; [reflexivity|]. intros _ k x [-> | ->] Hx.
    + rewrite Hx in Hi. now rewrite Hi.
    + rewrite Hx in Ho. now rewrite Ho.
  - exists l. split; [reflexivity|]. unfold layer_type. rewrite Ht. contradiction.
Qed.

(** X15: what [validate_architecture] accepts.  It returns exactly when
    the payload is an object whose [layers] is a non-empty list, whose
    [input_size], if any, is accepted by [int()], and whose layers are
    all objects in which every linear layer's supplied [in] and [out]
    are accepted by [int()]; the fields of other layers are not looked
    at. *)
Theorem architecture_accepted (repr : pyval -> string) (payload : pyval) :
  is_ok (validate_architecture repr payload) = true <->
  exists p layers,
    payload = PDict p
    /\ dict_get p "layers" = Some (PList layers)
    /\ layers <> []
    /\ is_ok (py_int (dict_get_default p "input_size" (PInt MNIST_INPUT_SIZE))) = true
    /\ Forall (acceptable_layer repr) layers.
Proof.
  split.
  - destruct (validate_architecture repr payload) as [spec|e] eqn:H; [|discriminate].
    intros _. apply validate_architecture_inv in H.
    destruct H as (p & layers & n & sanitized & -> & Hl & Hne & Hn & Hs & ->).
    apply sanitize_layers_inferred in Hs. destruct Hs as (out & -> & Hinf).
    exists p, layers. repeat split; auto.
    + now rewrite Hn.
    + eapply inferred_acceptable; eauto.
  - intros (p & layers & -> & Hl & Hne & Hn & Hall).
    assert (Hraw : dict_get_default p "layers" PNone = PList layers)
      by (unfold dict_get_default; now rewrite Hl).
    assert (Hb : py_bool (PList layers) = true) by (destruct layers; [congruence|reflexivity]).
    unfold validate_architecture. rewrite Hraw.
    unfold py_or. rewrite Hb, Hb. simpl.
    destruct (py_int (dict_get_default p "input_size" (PInt MNIST_INPUT_SIZE))) as [n|];
      [|discriminate].
    simpl. destruct (sanitize_layers_accepts repr layers Hall [] n) as (out & ->).
    reflexivity.
Qed.

Lemma architecture_accepted_example :
  exists p layers,
    example_architecture = PDict p
    /\ dict_get p "layers" = Some (PList layers)
    /\ layers <> []
    /\ is_ok (py_int (dict_get_default p "input_size" (PInt MNIST_INPUT_SIZE))) = true
    /\ Forall (acceptable_layer repr_unused) layers.
Proof.
  apply (proj1 (architecture_accepted repr_unused example_architecture)).
  reflexivity.
Defined.

(** ** Layers without a type *)

(** The pass over a list splits at any point: the second part is
    inferred from the running [prev_out] the first part leaves. *)
Lemma inferred_split (repr : pyval -> string) (before rest : list pyval) :
  forall prev_out sanitized,
    inferred repr prev_out (before ++ rest) sanitized ->
    exists sanitized_before sanitized_rest,
      sanitized = sanitized_before ++ sanitized_rest
      /\ inferred repr prev_out before sanitized_before
      /\ inferred repr (last_out prev_out sanitized_before) rest sanitized_rest.
Proof.
  induction before as [|b before IH]; simpl; intros prev_out sanitized H.
  - exists [], sanitized. repeat split; [constructor | exact H].
  - inversion H as [| prev l rest' out i o Hlin Hi Ho Hinf
                     | prev l rest' out t Ht Hne Hinf]; subst.
    + destruct (IH _ _ Hinf) as (sb & sr & -> & Hb & Hr).
      exists (linear_layer i o :: sb), sr.
      repeat split; [econstructor; eauto | exact Hr].
    + destruct (IH _ _ Hinf) as (sb & sr & -> & Hb & Hr).
      exists (PDict [("type", PStr (lower (py_str repr t)))] :: sb), sr.
      repeat split; [eapply inferred_other; eauto | exact Hr].
Qed.

Lemma acceptable_accepted (repr : pyval -> string) (p : dict) (layers : list pyval) :
  dict_get p "layers" = Some (PList layers) ->
  layers <> [] ->
  is_ok (py_int (dict_get_default p "input_size" (PInt MNIST_INPUT_SIZE))) = true ->
  Forall (acceptable_layer repr) layers ->
  is_ok (validate_architecture repr (PDict p)) = true.
Proof.
  intros Hl Hne Hn Hall.
  assert (Hraw : dict_get_default p "layers" PNone = PList layers)
    by (unfold dict_get_default; now rewrite Hl).
  assert (Hb : py_bool (PList layers) = true) by (destruct layers; [congruence|reflexivity]).
  unfold validate_architecture. rewrite Hraw.
  unfold py_or. rewrite Hb, Hb. simpl.
  destruct (py_int (dict_get_default p "input_size" (PInt MNIST_INPUT_SIZE))) as [n|];
    [|discriminate].
  simpl. destruct (sanitize_layers_accepts repr layers Hall [] n) as (out & ->).
  reflexivity.
Qed.

(** C9: a layer entry without a [type] key is handled as a linear
    layer.  The loop body treats it exactly as the same entry with
    [type] set to [linear], and the whole validator returns the same
    for both entries at any position of [layers].  Whenever the
    validator returns, the entry is returned as a linear layer at its
    position, with [in] taken from its own [in] or else from the running
    [prev_out] (the [out] of the last linear layer before it, or
    [input_size]), with [out] taken from its own [out] or else from its
    [in], and the layers after it are inferred from that [out].  And
    the entry is accepted: the validator returns when the supplied
    dimensions of the entry coerce and the rest of the payload is
    acceptable. *)
Theorem missing_type_is_linear (repr : pyval -> string) (l : dict) :
  dict_get l "type" = None ->
  (forall prev_out,
     sanitize_layer repr prev_out (PDict l)
     = sanitize_layer repr prev_out (PDict (("type", PStr "linear") :: l))) /\
  (forall prev_out i o,
     py_int (dict_get_default l "in" (PInt prev_out)) = Ok i ->
     py_int (dict_get_default l "out" (PInt i)) = Ok o ->
     sanitize_layer repr prev_out (PDict l) = Ok (linear_layer i o, o)) /\
  (forall p before after,
     validate_architecture repr
       (PDict (dict_set "layers" (PList (before ++ PDict l :: after)) p))
     = validate_architecture repr
       (PDict (dict_set "layers"
                 (PList (before ++ PDict (("type", PStr "linear") :: l) :: after)) p))) /\
  (forall p before after spec,
     dict_get p "layers" = Some (PList (before ++ PDict l :: after)) ->
     validate_architecture repr (PDict p) = Ok spec ->
     exists input_size sanitized_before i o sanitized_after,
       spec = architecture_spec input_size
                (sanitized_before ++ linear_layer i o :: sanitized_after)
       /\ py_int (dict_get_default p "input_size" (PInt MNIST_INPUT_SIZE)) = Ok input_size
       /\ inferred repr input_size before sanitized_before
       /\ List.length sanitized_before = List.length before
       /\ match dict_get l "in" with
          | Some v => py_int v = Ok i
          | None => i = last_out input_size sanitized_before
          end
       /\ match dict_get l "out" with
          | Some v => py_int v = Ok o
          | None => o = i
          end
       /\ inferred repr o after sanitized_after) /\
  (forall p before after,
     dict_get p "layers" = Some (PList (before ++ PDict l :: after)) ->
     is_ok (py_int (dict_get_default p "input_size" (PInt MNIST_INPUT_SIZE))) = true ->
     Forall (acceptable_layer repr) before ->
     Forall (acceptable_layer repr) after ->
     dims_coercible l ->
     is_ok (validate_architecture repr (PDict p)) = true).
Proof.
  intros Hty.
  assert (Hstep : forall prev_out,
             sanitize_layer repr prev_out (PDict l)
             = sanitize_layer repr prev_out (PDict (("type", PStr "linear") :: l))).
  { intros prev_out. unfold sanitize_layer, dict_get_default. simpl. now rewrite Hty. }
  split; [exact Hstep|]. split; [|split; [|split]].
  - intros prev_out i o Hi Ho.
    unfold sanitize_layer, dict_get_default in *. rewrite Hty. simpl.
    destruct (dict_get l "in") as [vin|]; destruct (dict_get l "out") as [vout|];
      simpl in *;
      repeat match goal with
             | H : Ok _ = Ok _ |- _ => injection H as H; subst
             end;
      rewrite ?Hi; simpl; rewrite ?Hi, ?Ho; reflexivity.
  - intros p before after.
    unfold validate_architecture, dict_get_default.
    rewrite !dict_get_set_same.
    rewrite !dict_get_set_other by discriminate.
    assert (Hb : forall x, py_or (PList (before ++ x :: after)) (PList [])
                           = PList (before ++ x :: after)).
    { intros x. unfold py_or. simpl. now destruct before. }
    rewrite !Hb. clear Hb.
    assert (Hb : forall x, py_bool (PList (before ++ x :: after)) = true).
    { intros x. simpl. now destruct before. }
    rewrite !Hb. simpl.
    destruct (try_except _ _) as [n|e]; simpl; [|reflexivity].
    now rewrite (sanitize_layers_congr repr _ _ Hstep).
  - intros p before after spec Hl H.
    apply validate_architecture_inv in H.
    destruct H as (p' & layers & n & sanitized & [= <-] & Hl' & _ & Hn & Hs & ->).
    rewrite Hl in Hl'. injection Hl' as <-.
    apply sanitize_layers_inferred in Hs. destruct Hs as (out & -> & Hinf).
    change ([] ++ out) with out.
    apply inferred_split in Hinf. destruct Hinf as (sb & sr & -> & Hb & Hr).
    inversion Hr as [| prev l' rest' sa i o Hlin Hi Ho Hinf
                      | prev l' rest' sa t Ht Hne Hinf]; subst.
    + exists n, sb, i, o, sa. repeat split; auto.
      eapply inferred_length; eauto.
    + congruence.
  - intros p before after Hl Hn Hbefore Hafter Hdims.
    apply (acceptable_accepted repr p (before ++ PDict l :: after)); auto.
    + now destruct before.
    + apply Forall_app. split; [exact Hbefore|].
      constructor; [|exact Hafter].
      exists l. split; [reflexivity | intros _; exact Hdims].
Qed.

Lemma missing_type_is_linear_example :
  (exists input_size sanitized_before i o sanitized_after,
     architecture_spec 20
       [PDict [("type", PStr "relu")]; linear_layer 20 16; linear_layer 16 16]
     = architecture_spec input_size
         (sanitized_before ++ linear_layer i o :: sanitized_after)
     /\ py_int (dict_get_default
                  [("input_size", PInt 20);
                   ("layers", PList [PDict [("type", PStr "relu")];
                                     PDict [("out", PStr "16")];
                                     PDict [("type", PStr "linear")]])]
                  "input_size" (PInt MNIST_INPUT_SIZE)) = Ok input_size
     /\ inferred repr_unused input_size [PDict [("type", PStr "relu")]] sanitized_before
     /\ List.length sanitized_before = 1%nat
     /\ match dict_get [("out", PStr "16")] "in" with
        | Some v => py_int v = Ok i
        | None => i = last_out input_size sanitized_before
        end
     /\ match dict_get [("out", PStr "16")] "out" with
        | Some v => py_int v = Ok o
        | None => o = i
        end
     /\ inferred repr_unused o [PDict [("type", PStr "linear")]] sanitized_after)
  /\ is_ok (validate_architecture repr_unused
              (PDict [("input_size", PInt 20);
                      ("layers", PList [PDict [("type", PStr "relu")];
                                        PDict [("out", PStr "16")];
                                        PDict [("type", PStr "linear")]])])) = true.
Proof.
  destruct (missing_type_is_linear repr_unused [("out", PStr "16")] eq_refl)
    as (_ & _ & _ & Hreturned & Haccepted).
  split.
  - apply (Hreturned
             [("input_size", PInt 20);
              ("layers", PList [PDict [("type", PStr "relu")];
                                PDict [("out", PStr "16")];
                                PDict [("type", PStr "linear")]])]
             [PDict [("type", PStr "relu")]] [PDict [("type", PStr "linear")]]);
      reflexivity.
  - apply (Haccepted
             [("input_size", PInt 20);
              ("layers", PList [PDict [("type", PStr "relu")];
                                PDict [("out", PStr "16")];
                                PDict [("type", PStr "linear")]])]
             [PDict [("type", PStr "relu")]] [PDict [("type", PStr "linear")]]).
    + reflexivity.
    + reflexivity.
    + constructor; [|constructor].
      exists [("type", PStr "relu")]. split; [reflexivity|].
      intros H. discriminate H.
    + constructor; [|constructor].
      exists [("type", PStr "linear")]. split; [reflexivity|].
      intros _ k x [-> | ->] H; discriminate H.
    + intros k x [-> | ->] H; [discriminate H|].
      injection H as <-. reflexivity.
Defined.
